(** * PBEV table extraction (src/extract_pdf.py): model and properties

    The script reads the tables of the PBEV report with pdfplumber, keeps the
    vehicle rows, binds each row to the 28 column schema, and derives a few
    columns with pandas.  This file embeds the functions of the script
    ([limpar], [para_numero], [eh_cabecalho], [eh_veiculo], [extrair],
    [parsear], [pos_processar]) together with the part of the Python runtime
    they call, and states the properties of the specification about them.

    - [Py]: Python [str] as a sequence of code points, its methods used by the
      script, and the [float(str)] constructor;
    - [F64]: binary64 arithmetic (IEEE 754, round to nearest even) on
      [spec_float], [numpy.round] and the literals of the script;
    - [Pbev]: the script itself. *)

From Stdlib Require Import String Ascii.
From Stdlib Require Import ZArith NArith Bool List Lia Permutation.
From Stdlib Require Import Floats.SpecFloat.
Import ListNotations.

(* ====================================================================== *)
(** * Python strings *)
(* ====================================================================== *)

Module Py.

(** A Python [str] is an immutable sequence of Unicode code points. *)
Definition char := N.
Definition str := list char.

(** ** Literals

    Literals are written as Rocq strings, which hold the UTF-8 bytes of the
    text; [U] decodes them to code points.  A lead byte opens a code point
    with its payload bits and every continuation byte appends six bits. *)

Definition utf8_step (acc : list N) (b : N) : list N :=
  if (b <? 128)%N then b :: acc
  else if (b <? 192)%N then
    match acc with
    | cp :: rest => (cp * 64 + (b - 128))%N :: rest
    | [] => []
    end
  else if (b <? 224)%N then (b - 192)%N :: acc
  else if (b <? 240)%N then (b - 224)%N :: acc
  else (b - 240)%N :: acc.

Definition U (s : string) : str :=
  rev (fold_left utf8_step (map N_of_ascii (list_ascii_of_string s)) []).

(** ** Equality, truthiness, [str()] *)

Fixpoint str_eqb (s t : str) : bool :=
  match s, t with
  | [], [] => true
  | c :: s', d :: t' => (c =? d)%N && str_eqb s' t'
  | _, _ => false
  end.

(** A table cell is a [str] or [None]. *)
Definition cell := option str.

(** [bool(c)]: [None] and the empty string are falsy. *)
Definition truthy (c : cell) : bool :=
  match c with
  | Some (_ :: _) => true
  | _ => false
  end.

(** [str(c)]: a string is returned as it is, [None] prints as its name. *)
Definition to_str (c : cell) : str :=
  match c with
  | Some s => s
  | None => U "None"
  end.

(** ** Whitespace and [strip] *)

(** [str.isspace] of one code point (Unicode 14: bidirectional classes WS, B,
    S and category Zs). *)
Definition isspace (c : char) : bool :=
  ((9 <=? c) && (c <=? 13) || (28 <=? c) && (c <=? 32)
   || (c =? 133) || (c =? 160) || (c =? 5760)
   || (8192 <=? c) && (c <=? 8202)
   || (c =? 8232) || (c =? 8233) || (c =? 8239) || (c =? 8287)
   || (c =? 12288))%N.

Fixpoint lstrip (s : str) : str :=
  match s with
  | c :: s' => if isspace c then lstrip s' else s
  | [] => []
  end.

Definition rstrip (s : str) : str := rev (lstrip (rev s)).

Definition strip (s : str) : str := rstrip (lstrip s).

(** ** [replace], [in], [join] *)

(** [s.replace(a, b)] for one-character [a] and [b], the only form the
    script uses. *)
Definition replace (a b : char) (s : str) : str :=
  map (fun c => if (c =? a)%N then b else c) s.

Fixpoint startswith (p s : str) : bool :=
  match p, s with
  | [], _ => true
  | c :: p', d :: s' => (c =? d)%N && startswith p' s'
  | _ :: _, [] => false
  end.

(** [p in s]: [p] occurs in [s] as a contiguous substring. *)
Fixpoint contains (p s : str) : bool :=
  startswith p s ||
  match s with
  | [] => false
  | _ :: s' => contains p s'
  end.

(** [s.count(a)] for a one-character [a] *)
Definition count (a : char) (s : str) : nat :=
  List.length (filter (N.eqb a) s).

(** [sep.join(l)] *)
Fixpoint join (sep : str) (l : list str) : str :=
  match l with
  | [] => []
  | [s] => s
  | s :: l' => s ++ sep ++ join sep l'
  end.

(** ** Case mapping

    [str.lower] and [str.upper] map each code point through the Unicode case
    tables.  The tables below are exact for every code point that is in
    U+0000..U+00FF or whose image has a code point there; any other code
    point is left in place.  Every string the script compares a lowered or
    uppered text with is written in U+0000..U+00FF, and the code points left
    in place are mapped by Python to code points outside that range, so the
    comparisons of the script are decided alike. *)

Definition lower_cp (c : char) : list char :=
  (if (65 <=? c) && (c <=? 90) then [c + 32]
   else if (192 <=? c) && (c <=? 222) && negb (c =? 215) then [c + 32]
   else if c =? 304 then [105; 775]
   else if c =? 376 then [255]
   else if c =? 7838 then [223]
   else if c =? 8490 then [107]
   else if c =? 8491 then [229]
   else [c])%N.

Definition upper_cp (c : char) : list char :=
  (if (97 <=? c) && (c <=? 122) then [c - 32]
   else if (224 <=? c) && (c <=? 254) && negb (c =? 247) then [c - 32]
   else if c =? 181 then [924]
   else if c =? 223 then [83; 83]
   else if c =? 255 then [376]
   else if c =? 305 then [73]
   else if c =? 329 then [700; 78]
   else if c =? 383 then [83]
   else if c =? 496 then [74; 780]
   else if c =? 7830 then [72; 817]
   else if c =? 7831 then [84; 776]
   else if c =? 7832 then [87; 778]
   else if c =? 7833 then [89; 778]
   else if c =? 7834 then [65; 702]
   else if c =? 64256 then [70; 70]
   else if c =? 64257 then [70; 73]
   else if c =? 64258 then [70; 76]
   else if c =? 64259 then [70; 70; 73]
   else if c =? 64260 then [70; 70; 76]
   else if c =? 64261 then [83; 84]
   else if c =? 64262 then [83; 84]
   else [c])%N.

Definition lower (s : str) : str := flat_map lower_cp s.
Definition upper (s : str) : str := flat_map upper_cp s.

End Py.

(* ====================================================================== *)
(** * Exceptions *)
(* ====================================================================== *)

(** A Python call returns a value or raises.  [try ... except] is [catch]. *)

Inductive error :=
  ValueError | TypeError | IndexError | KeyError | OverflowError.

Inductive exc (A : Type) : Type :=
| Ret (a : A)
| Raise (e : error).
Arguments Ret {A} a.
Arguments Raise {A} e.

Definition bind {A B} (m : exc A) (k : A -> exc B) : exc B :=
  match m with
  | Ret a => k a
  | Raise e => Raise e
  end.

Notation "x <- m ;; k" := (bind m (fun x => k))
  (at level 61, m at next level, right associativity).

(** [try: m  except (e1, ...): h] for the listed errors. *)
Definition catch {A} (m : exc A) (handled : error -> bool) (h : exc A) : exc A :=
  match m with
  | Ret a => Ret a
  | Raise e => if handled e then h else Raise e
  end.

(** A call for each element of a list, in order: the first error ends the
    loop. *)
Fixpoint mapM {A B} (f : A -> exc B) (l : list A) : exc (list B) :=
  match l with
  | [] => Ret []
  | x :: l' => y <- f x ;; ys <- mapM f l' ;; Ret (y :: ys)
  end.

(* ====================================================================== *)
(** * Binary64 floats *)
(* ====================================================================== *)

Module F64.

(** Python and numpy floats are IEEE 754 binary64: 53 bits of precision,
    round to nearest with ties to even. *)
Definition prec : Z := 53.
Definition emax : Z := 1024.

Definition float := spec_float.

Definition nan : float := S754_nan.
Definition add : float -> float -> float := SFadd prec emax.
Definition mul : float -> float -> float := SFmul prec emax.
Definition div : float -> float -> float := SFdiv prec emax.
Definition ltb : float -> float -> bool := SFltb.
Definition leb : float -> float -> bool := SFleb.
Definition eqb : float -> float -> bool := SFeqb.

Definition is_nan (x : float) : bool :=
  match x with
  | S754_nan => true
  | _ => false
  end.

(** The float nearest to the integer [z]. *)
Definition of_Z (z : Z) : float := binary_normalize prec emax z 0 false.

(** The float nearest to [m * 10^e], with the sign [neg]: the value of a
    decimal literal, in a source file or given to [float()]. *)
Definition of_decimal (neg : bool) (m : N) (e : Z) : float :=
  match m with
  | N0 => S754_zero neg
  | Npos p =>
      let x :=
        if (0 <=? e)%Z then binary_normalize prec emax (Zpos p * 10 ^ e) 0 false
        else
          let '(q, e', l) :=
            SFdiv_core_binary prec emax (Zpos p) 0 (10 ^ (- e)) 0 in
          binary_round_aux prec emax false q e' l in
      if neg then SFopp x else x
  end.

(** [numpy.rint]: the nearest integer, ties to even, as a float. *)
Definition rint (x : float) : float :=
  match x with
  | S754_finite s m e =>
      if (0 <=? e)%Z then x
      else
        let '(mrs, _) := shr (shr_record_of_loc (Zpos m) loc_Exact) e (- e) in
        match round_nearest_even (shr_m mrs) (loc_of_shr_record mrs) with
        | Zpos n => binary_round prec emax s n 0
        | _ => S754_zero s
        end
  | _ => x
  end.

(** [numpy.round(x, decimals)] for [decimals > 0]: scale by the power of
    ten, take [rint], scale back. *)
Definition round (x : float) (decimals : Z) : float :=
  let f := of_Z (10 ^ decimals) in
  div (rint (mul x f)) f.

End F64.

(* ====================================================================== *)
(** * [float(str)] *)
(* ====================================================================== *)

Module PyFloat.
Import Py.

(** Zero digits of the Unicode decimal digit runs (category Nd, Unicode 14);
    each run holds the ten digits in order. *)
Definition decimal_zeros : list N :=
  [48; 1632; 1776; 1984; 2406; 2534; 2662; 2790; 2918; 3046; 3174; 3302;
   3430; 3558; 3664; 3792; 3872; 4160; 4240; 6112; 6160; 6470; 6608; 6784;
   6800; 6992; 7088; 7232; 7248; 42528; 43216; 43264; 43472; 43504; 43600;
   44016; 65296; 66720; 68912; 69734; 69872; 69942; 70096; 70384; 70736;
   70864; 71248; 71360; 71472; 71904; 72016; 72784; 73040; 73120; 92768;
   92864; 93008; 120782; 120792; 120802; 120812; 120822; 123200; 123632;
   125264; 130032]%N.

(** [Py_UNICODE_TODECIMAL] *)
Definition to_decimal (c : char) : option N :=
  match find (fun z => (z <=? c) && (c <? z + 10))%N decimal_zeros with
  | Some z => Some (c - z)%N
  | None => None
  end.

(** One code point of [_PyUnicode_TransformDecimalAndSpaceToASCII]: ASCII is
    kept, white space becomes a blank, a decimal digit its ASCII digit, and
    anything else a question mark (CPython stops the copy there; no float
    syntax has a question mark, so the tail does not matter). *)
Definition to_ascii (c : char) : char :=
  if (c <? 127)%N then c
  else if isspace c then 32%N
  else match to_decimal c with
       | Some d => (48 + d)%N
       | None => 63%N
       end.

(** [Py_ISSPACE], [Py_ISDIGIT], [Py_TOLOWER] of the C locale *)
Definition c_isspace (c : char) : bool :=
  ((9 <=? c) && (c <=? 13) || (c =? 32))%N.
Definition c_isdigit (c : char) : bool := ((48 <=? c) && (c <=? 57))%N.
Definition c_tolower (c : char) : char :=
  if ((65 <=? c) && (c <=? 90))%N then (c + 32)%N else c.

Fixpoint c_lstrip (s : str) : str :=
  match s with
  | c :: s' => if c_isspace c then c_lstrip s' else s
  | [] => []
  end.
Definition c_strip (s : str) : str := rev (c_lstrip (rev (c_lstrip s))).

(** [_Py_string_to_number_with_underscores]: an underscore is allowed only
    between two digits; [prev] is the character before [s]. *)
Fixpoint underscores_ok (prev : char) (s : str) : bool :=
  match s with
  | [] => negb (prev =? 95)%N
  | c :: s' =>
      (if (c =? 95)%N then c_isdigit prev
       else negb (prev =? 95)%N || c_isdigit c)
      && underscores_ok c s'
  end.

Definition drop_underscores (s : str) : str :=
  filter (fun c => negb (c =? 95)%N) s.

(** The longest prefix of ASCII digits, and what follows it. *)
Fixpoint span_digits (s : str) : str * str :=
  match s with
  | c :: s' =>
      if c_isdigit c then let (d, r) := span_digits s' in (c :: d, r)
      else ([], s)
  | [] => ([], [])
  end.

Definition digits_value (ds : str) : N :=
  fold_left (fun a c => a * 10 + (c - 48))%N ds 0%N.

Definition sign_of (s : str) : bool * str :=
  match s with
  | 45%N :: r => (true, r)
  | 43%N :: r => (false, r)
  | _ => (false, s)
  end.

(** The exponent part: [e] or [E], an optional sign and at least one digit;
    without a digit nothing is consumed. *)
Definition exponent_of (s : str) : Z * str :=
  match s with
  | c :: r =>
      if ((c =? 101) || (c =? 69))%N then
        let (eneg, r1) := sign_of r in
        match span_digits r1 with
        | ([], _) => (0%Z, s)
        | (ed, r2) =>
            let n := Z.of_N (digits_value ed) in
            ((if eneg then - n else n)%Z, r2)
        end
      else (0%Z, s)
  | [] => (0%Z, s)
  end.

(** [_Py_dg_strtod]: sign, digits, point, digits, exponent; the value and the
    unread rest, or [None] when there is no digit.  The result is the float
    nearest to the decimal number. *)
Definition strtod (s : str) : option (F64.float * str) :=
  let (neg, s1) := sign_of s in
  let (ip, s2) := span_digits s1 in
  let (fp, s3) :=
    match s2 with
    | 46%N :: r => span_digits r
    | _ => ([], s2)
    end in
  match ip ++ fp with
  | [] => None
  | ds =>
      let (ex, s4) := exponent_of s3 in
      Some (F64.of_decimal neg (digits_value ds)
              (ex - Z.of_nat (List.length fp)), s4)
  end.

(** [case_insensitive_match]: [t] is lower case; the rest after the match. *)
Fixpoint match_nocase (t s : str) : option str :=
  match t, s with
  | [], _ => Some s
  | c :: t', d :: s' =>
      if (c_tolower d =? c)%N then match_nocase t' s' else None
  | _ :: _, [] => None
  end.

(** [_Py_parse_inf_or_nan] *)
Definition parse_inf_or_nan (s : str) : option (F64.float * str) :=
  let (neg, s1) := sign_of s in
  match match_nocase (U "inf") s1 with
  | Some r =>
      let r' := match match_nocase (U "inity") r with
                | Some r2 => r2
                | None => r
                end in
      Some (S754_infinity neg, r')
  | None =>
      match match_nocase (U "nan") s1 with
      | Some r => Some (F64.nan, r)
      | None => None
      end
  end.

(** [PyOS_string_to_double] *)
Definition string_to_double (s : str) : option (F64.float * str) :=
  match strtod s with
  | Some r => Some r
  | None => parse_inf_or_nan s
  end.

(** [float(s)] for a [str]: the whole text, white space at both ends apart,
    must be one number. *)
Definition float_of_str (s : str) : exc F64.float :=
  let a := c_strip (map to_ascii s) in
  if underscores_ok 0%N a then
    match string_to_double (drop_underscores a) with
    | Some (x, []) => Ret x
    | _ => Raise ValueError
    end
  else Raise ValueError.

End PyFloat.

(* ====================================================================== *)
(** * The script *)
(* ====================================================================== *)

Module Pbev.
Import Py.

Definition LF : char := 10%N.
Definition SP : char := 32%N.
Definition COMMA : char := 44%N.
Definition DOT : char := 46%N.
Definition HYPHEN : char := 45%N.
Definition BACKSLASH : char := 92%N.
Definition APOSTROPHE : char := 39%N.

(** ** Configuration *)

(** [COLUNAS_PDF]: the 28 columns of the report, by position. *)
Definition COLUNAS_PDF : list (nat * str) := Eval vm_compute in
  [ (0, U "Categoria");
    (1, U "Marca");
    (2, U "Modelo");
    (3, U "Versão");
    (4, U "Motor");
    (5, U "Tipo de Propulsão (Combustão / Híbrido / Plug-in / Elétrico)");
    (6, U "Transmissão e Velocidades (Manual=M / Automática=A / Dupla Embreagem=DCT / Automatizada=MTA / Contínua=CVT)");
    (7, U "Ar Condicionado (S=Sim / N=Não)");
    (8, U "Direção Assistida (H=Hidráulica / M=Mecânica / E=Elétrica / E-H=Eletro-hidráulica)");
    (9, U "Combustível (E=Elétrico / G=Gasolina / F=Flex / D=Diesel)");
    (10, U "Emissões Poluentes - NMOG+NOx (mg/km)");
    (11, U "Emissões Poluentes - CO (mg/km)");
    (12, U "Emissões Poluentes - CHO Aldeídos (mg/km)");
    (13, U "Emissões Poluentes - Redução Relativa ao Limite (A=≥40% abaixo PROCONVE L7 / B=<40%)");
    (14, U "Emissões GEE - CO2 Fóssil Etanol (g/km)");
    (15, U "Emissões GEE - CO2 Fóssil Gasolina ou Diesel (g/km)");
    (16, U "Emissões GEE - CO2e Fóssil VEHP Plug-in (g/km)");
    (17, U "Consumo Etanol - Cidade (km/l)");
    (18, U "Consumo Etanol - Estrada (km/l)");
    (19, U "Consumo Gasolina ou Diesel - Cidade (km/l)");
    (20, U "Consumo Gasolina ou Diesel - Estrada (km/l)");
    (21, U "Consumo Elétrico - Cidade (km/le)");
    (22, U "Consumo Elétrico - Estrada (km/le)");
    (23, U "Consumo Energético (MJ/km)");
    (24, U "Autonomia Modo Elétrico (km)");
    (25, U "Classificação PBE - Relativa na Categoria (A=Mais Eficiente / B / C / D / E=Menos Eficiente)");
    (26, U "Classificação PBE - Absoluta Geral (A=Mais Eficiente / B / C / D / E=Menos Eficiente)");
    (27, U "Selo CONPET de Eficiência Energética (SIM / NÃO)") ].

(** [COLUNAS_PDF[i]] for a position [i] of the schema. *)
Definition coluna (i : nat) : str :=
  match find (fun p => Nat.eqb (fst p) i) COLUNAS_PDF with
  | Some (_, nome) => nome
  | None => []
  end.

(** [COLUNAS_NUMERICAS]: the positions read as numbers. *)
Definition COLUNAS_NUMERICAS : list nat :=
  [10; 11; 12; 14; 15; 16; 17; 18; 19; 20; 21; 22; 23; 24].

(** [CATEGORIAS]: the vehicle categories of the report. *)
Definition CATEGORIAS : list str := Eval vm_compute in
  [ U "sub compacto"; U "compacto"; U "médio"; U "grande"; U "extra grande";
    U "utilitário esportivo compacto"; U "utilitário esportivo grande";
    U "utilitário esportivo grande 4x4"; U "fora de estrada compacto";
    U "fora de estrada grande"; U "minivan"; U "comercial";
    U "picape compacta"; U "picape"; U "esportivo" ].

(** ** Helpers *)

(** The tuple [limpar] tests membership in. *)
Definition TOKENS_VAZIOS : list str := Eval vm_compute in
  [ []; [BACKSLASH]; U "-"; [BACKSLASH; BACKSLASH];
    [BACKSLASH; BACKSLASH; APOSTROPHE]; U "ND"; U "N.A."; U "N/A"; U "--" ].

(** [v in (t1, ..., tn)] for strings *)
Definition str_in (v : str) (l : list str) : bool := existsb (str_eqb v) l.

(** [limpar(val)] *)
Definition limpar (val : cell) : cell :=
  match val with
  | None => None
  | Some _ =>
      let v := replace LF SP (strip (to_str val)) in
      if str_in v TOKENS_VAZIOS then None else Some v
  end.

(** [para_numero(val)] *)
Definition para_numero (val : cell) : exc (option F64.float) :=
  match limpar val with
  | None => Ret None
  | Some v =>
      let v := replace COMMA DOT v in
      catch (x <- PyFloat.float_of_str v ;; Ret (Some x))
            (fun e => match e with
                      | ValueError | TypeError => true
                      | _ => false
                      end)
            (Ret None)
  end.

(** The keywords [eh_cabecalho] looks for. *)
Definition PALAVRAS_CABECALHO : list str := Eval vm_compute in
  [ U "categoria"; U "marca"; U "modelo"; U "versão"; U "motor";
    U "transmissão"; U "combustível"; U "poluentes"; U "quilometragem";
    U "emissões"; U "classificação"; U "programa brasileiro";
    U "hidráulica"; U "mecânica"; U "eletro-hidráulica"; U "manual (m)";
    U "automática"; U "nmog+nox"; U "gás efeito"; U "consumo energético";
    U "menores níveis"; U "maiores níveis"; U "www."; U "inmetro";
    U "conpet"; U "ibama"; U "tipo de"; U "propulsão"; U "comparação";
    U "relativa"; U "absoluta"; U "autonomia";
    U "ar" ++ [LF] ++ U "cond"; U "direção"; U "fóssil";
    U "cidade" ++ [LF] ++ U "(km"; U "estrada" ++ [LF] ++ U "(km";
    U "valores em km" ].

(** The text [eh_cabecalho] searches: the truthy cells joined by blanks, in
    lower case. *)
Definition texto_da_linha (row : list cell) : str :=
  lower (join [SP] (map to_str (filter truthy row))).

(** [eh_cabecalho(row)] *)
Definition eh_cabecalho (row : list cell) : bool :=
  let texto := texto_da_linha row in
  existsb (fun kw => contains kw texto) PALAVRAS_CABECALHO.

(** [eh_veiculo(row)], with the category list as a parameter. *)
Definition eh_veiculo_com (categorias : list str) (row : list cell) : bool :=
  match row with
  | [] => false
  | c0 :: _ =>
      if negb (truthy c0) then false
      else
        let celula := lower (strip (to_str c0)) in
        existsb (fun cat => contains cat celula) categorias
  end.

Definition eh_veiculo (row : list cell) : bool :=
  eh_veiculo_com CATEGORIAS row.

(** ** Extraction *)

(** What pdfplumber hands over: a document is its pages, [extract_tables]
    gives the tables of a page, a table is its rows. *)
Definition linha := list cell.
Definition tabela := list linha.
Definition pagina := list tabela.

(** The test of the innermost loop of [extrair]. *)
Definition linha_aceita (row : linha) : bool :=
  match row with
  | [] => false
  | _ :: _ =>
      if (25 <=? List.length row)%nat
      then negb (eh_cabecalho row) && eh_veiculo row
      else false
  end.

(** [extrair(pdf_path)], on the opened document: three nested loops that
    append the accepted rows to [linhas]. *)
Definition extrair (pdf : list pagina) : list linha :=
  fold_left
    (fun linhas page =>
       fold_left
         (fun linhas table =>
            match table with
            | [] => linhas
            | _ :: _ =>
                fold_left
                  (fun linhas row =>
                     if linha_aceita row then linhas ++ [row] else linhas)
                  table linhas
            end)
         page linhas)
    pdf [].

(** ** Records *)

(** A value of a record or of a data frame cell. *)
Inductive valor :=
| VNone
| VStr (s : str)
| VNum (x : F64.float)
| VInt (n : Z)
| VBool (b : bool).

(** A record is a [dict] from column names to values; a [dict] keeps its
    keys in insertion order, and assigning to a key that is present
    replaces its value in place. *)
Definition registro := list (str * valor).

Fixpoint dict_get (k : str) (d : registro) : option valor :=
  match d with
  | [] => None
  | (k', v) :: d' => if str_eqb k k' then Some v else dict_get k d'
  end.

Fixpoint dict_set (k : str) (v : valor) (d : registro) : registro :=
  match d with
  | [] => [(k, v)]
  | (k', v') :: d' =>
      if str_eqb k k' then (k, v) :: d' else (k', v') :: dict_set k v d'
  end.

Definition dict_has (k : str) (d : registro) : bool :=
  match dict_get k d with
  | Some _ => true
  | None => false
  end.

(** [bool(v)] *)
Definition valor_truthy (v : valor) : bool :=
  match v with
  | VNone => false
  | VStr s => match s with [] => false | _ :: _ => true end
  | VNum x => match x with S754_zero _ => false | _ => true end
  | VInt n => negb (n =? 0)%Z
  | VBool b => b
  end.

(** The text of a textual column: a [str], or [None]. *)
Definition como_celula (v : valor) : cell :=
  match v with
  | VStr s => Some s
  | _ => None
  end.

Definition de_celula (c : cell) : valor :=
  match c with
  | Some s => VStr s
  | None => VNone
  end.

Definition de_numero (x : option F64.float) : valor :=
  match x with
  | Some f => VNum f
  | None => VNone
  end.

(** ** Row to record *)

(** [max(COLUNAS_PDF.keys()) + 1] *)
Definition n_colunas_esperadas : nat :=
  S (fold_right Nat.max 0%nat (map fst COLUNAS_PDF)).

(** [while len(row) < n_colunas_esperadas: row.append(None)]; [k] counts
    the cells still missing. *)
Fixpoint completar (k : nat) (row : linha) : linha :=
  match k with
  | O => row
  | S k' => completar k' (row ++ [None])
  end.

Definition normalizar (row : linha) : linha :=
  completar (n_colunas_esperadas - List.length row) row.

(** [row[idx]] *)
Definition item (row : linha) (idx : nat) : exc cell :=
  match nth_error row idx with
  | Some c => Ret c
  | None => Raise IndexError
  end.

(** The value stored for the column at [idx]. *)
Definition campo (row : linha) (idx : nat) : exc valor :=
  c <- item row idx ;;
  if existsb (Nat.eqb idx) COLUNAS_NUMERICAS
  then x <- para_numero c ;; Ret (de_numero x)
  else Ret (de_celula (limpar c)).

(** [for idx, nome in COLUNAS_PDF.items(): registro[nome] = ...] *)
Fixpoint preencher (cols : list (nat * str)) (row : linha) (reg : registro)
  : exc registro :=
  match cols with
  | [] => Ret reg
  | (idx, nome) :: cols' =>
      v <- campo row idx ;;
      preencher cols' row (dict_set nome v reg)
  end.

(** One turn of the loop of [parsear]: the record of the row, or nothing
    when it has no brand. *)
Definition parsear_linha (row : linha) : exc (option registro) :=
  reg <- preencher COLUNAS_PDF (normalizar row) [] ;;
  match dict_get (coluna 1) reg with
  | Some v => if valor_truthy v then Ret (Some reg) else Ret None
  | None => Ret None
  end.

Fixpoint parsear_desde (registros : list registro) (linhas : list linha)
  : exc (list registro) :=
  match linhas with
  | [] => Ret registros
  | row :: linhas' =>
      r <- parsear_linha row ;;
      match r with
      | Some reg => parsear_desde (registros ++ [reg]) linhas'
      | None => parsear_desde registros linhas'
      end
  end.

(** [parsear(linhas)] *)
Definition parsear (linhas : list linha) : exc (list registro) :=
  parsear_desde [] linhas.

(** ** Data frame

    [pd.DataFrame(registros)] has one row per record and one column per
    key; it is modelled as the list of its rows.  A column of floats holds
    floats ([VNum], the missing value being NaN); a column that holds
    [None] or text is a column of objects.  The frame of no record,
    [pd.DataFrame([])], has no column at all.  Reading a column that the
    frame does not have raises [KeyError]. *)

Definition df_col (r : registro) (k : str) : exc valor :=
  match dict_get k r with
  | Some v => Ret v
  | None => Raise KeyError
  end.

(** [df[k]]: the values of the column, row by row. *)
Definition df_get (df : list registro) (k : str) : exc (list valor) :=
  match df with
  | [] => Raise KeyError
  | _ :: _ => mapM (fun r => df_col r k) df
  end.

(** [df[k] = vs]: a column that is present is replaced in place, a new
    one is added after the others. *)
Fixpoint df_set (k : str) (vs : list valor) (df : list registro)
  : list registro :=
  match df, vs with
  | r :: df', v :: vs' => dict_set k v r :: df_set k vs' df'
  | _, _ => []
  end.

(** [k in df.columns] *)
Definition df_has (df : list registro) (k : str) : bool :=
  match df with
  | [] => false
  | _ :: _ => forallb (dict_has k) df
  end.

(** [pd.to_numeric(df[col], errors='coerce')] on a column of [parsear],
    which holds floats and [None]: the missing value of a float column is
    NaN. *)
Definition to_numeric (v : valor) : valor :=
  match v with
  | VNum x => VNum x
  | _ => VNum F64.nan
  end.

(** One turn of step 4 of [main]: a numeric column that is present
    becomes a float column. *)
Definition passo_numerico (r : registro) (idx : nat) : registro :=
  let col := coluna idx in
  match dict_get col r with
  | Some v => dict_set col (to_numeric v) r
  | None => r
  end.

(** Step 4 of [main] *)
Definition tipos_numericos (r : registro) : registro :=
  fold_left passo_numerico COLUNAS_NUMERICAS r.

Definition numero (v : valor) : F64.float :=
  match v with
  | VNum x => x
  | _ => F64.nan
  end.

(** [pd.isna] of one value *)
Definition isna (v : valor) : bool :=
  match v with
  | VNone => true
  | VNum x => F64.is_nan x
  | _ => false
  end.

(** ** Derived columns *)

Definition COL_TRANS_TIPO : str := Eval vm_compute in U "Transmissão - Tipo".
Definition COL_TRANS_VEL : str :=
  Eval vm_compute in U "Transmissão - Nº Velocidades".
Definition COL_COMB_DESC : str :=
  Eval vm_compute in U "Combustível - Descrição".
Definition COL_COMBINADO_GAS : str :=
  Eval vm_compute in U "Consumo Gasolina ou Diesel - Combinado (km/l)".
Definition COL_COMBINADO_ETANOL : str :=
  Eval vm_compute in U "Consumo Etanol - Combinado (km/l)".
Definition COL_COMBINADO_ELETRICO : str :=
  Eval vm_compute in U "Consumo Elétrico - Combinado (km/le)".
Definition COL_FAIXA_CO2 : str :=
  Eval vm_compute in U "Faixa CO2 Gasolina/Diesel (g/km)".
Definition COL_ZERO_EMISSAO : str :=
  Eval vm_compute in U "Zero Emissão (Elétrico Puro)".
Definition COL_ELETRIFICADO : str :=
  Eval vm_compute in U "Eletrificado (Elétrico/Híbrido/Plug-in)".

Definition SIM : str := Eval vm_compute in U "SIM".
Definition NAO : str := Eval vm_compute in U "NÃO".

Fixpoint mapa_get (k : str) (m : list (str * str)) : option str :=
  match m with
  | [] => None
  | (k', v) :: m' => if str_eqb k k' then Some v else mapa_get k m'
  end.

(** [mapa] of [pos_processar] *)
Definition mapa : list (str * str) := Eval vm_compute in
  [ (U "combustão", U "Combustão"); (U "híbrido", U "Híbrido");
    (U "plug-in", U "Plug-in"); (U "elétrico", U "Elétrico");
    (U "hibrido", U "Híbrido"); (U "eletrico", U "Elétrico") ].

(** [mapa_c] of [pos_processar] *)
Definition mapa_c : list (str * str) := Eval vm_compute in
  [ (U "E", U "Elétrico"); (U "G", U "Gasolina"); (U "F", U "Flex");
    (U "D", U "Diesel") ].

(** [df[c].str.lower().map(mapa).fillna(df[c])] on one value *)
Definition propulsao_padronizada (v : valor) : valor :=
  match v with
  | VStr s =>
      match mapa_get (lower s) mapa with
      | Some t => VStr t
      | None => VStr s
      end
  | _ => v
  end.

(** [df[c].map(mapa_c).fillna(df[c])] on one value *)
Definition combustivel_descricao (v : valor) : valor :=
  match v with
  | VStr s =>
      match mapa_get s mapa_c with
      | Some t => VStr t
      | None => VStr s
      end
  | _ => v
  end.

(** [\d] of a [str] pattern: a Unicode decimal digit. *)
Definition re_digit (c : char) : bool :=
  match PyFloat.to_decimal c with
  | Some _ => true
  | None => false
  end.

(** [re.sub(r'[-\d]', '', str(x)).strip() if pd.notna(x) else None] *)
Definition transmissao_tipo (v : valor) : valor :=
  match v with
  | VStr s =>
      VStr (strip (filter (fun c => negb ((c =? HYPHEN)%N || re_digit c)) s))
  | _ => VNone
  end.

(** The digits of the longest run of decimal digits at the head of [s]. *)
Fixpoint digitos_iniciais (s : str) : list N :=
  match s with
  | c :: s' =>
      match PyFloat.to_decimal c with
      | Some d => d :: digitos_iniciais s'
      | None => []
      end
  | [] => []
  end.

(** [re.search(r'(\d+)', s)]: the leftmost run of digits. *)
Fixpoint re_search_digitos (s : str) : option (list N) :=
  match s with
  | c :: s' =>
      if re_digit c then Some (digitos_iniciais s) else re_search_digitos s'
  | [] => None
  end.

(** [int(s)] for a run [s] of decimal digits.  CPython refuses to convert
    a text of more than 4300 digits, leading zeros included
    ([sys.int_info.default_max_str_digits]), with [ValueError]. *)
Definition MAX_STR_DIGITS : nat := 4300.

Definition int_de_digitos (ds : list N) : exc N :=
  if (List.length ds <=? MAX_STR_DIGITS)%nat
  then Ret (fold_left (fun a d => a * 10 + d)%N ds 0%N)
  else Raise ValueError.

(** [int(re.search(r'(\d+)', str(x)).group(1))] when [x] is not null and
    has a digit, else [None]: what the lambda returns for one value, an
    [int] that is not negative or [None]. *)
Definition transmissao_velocidades (v : valor) : exc (option N) :=
  match v with
  | VStr s =>
      match re_search_digitos s with
      | Some ds => n <- int_de_digitos ds ;; Ret (Some n)
      | None => Ret None
      end
  | _ => Ret None
  end.

(** [float(n)] for an [int]: the nearest float, and [OverflowError] when
    that is beyond the largest float. *)
Definition float_de_int (n : Z) : exc F64.float :=
  if (Z.abs n <? 2 ^ 1024 - 2 ^ 970)%Z
  then Ret (F64.of_Z n)
  else Raise OverflowError.

(** The type that [Series.apply] gives the column of the values of the
    lambda ([lib.maybe_convert_objects]).  The values are read in order,
    each [int] being first written as a float.  [None] and [int]s make a
    column of floats, [None] becoming NaN; [int]s alone make a column of
    integers; an [int] beyond 64 bits that comes before any [None] leaves
    the values as the objects they are, as does a column of [None] alone. *)
Inductive tipo_coluna := Objetos | Inteiros | Flutuantes.

Definition UINT64_MAX : N := 18446744073709551615%N.

Fixpoint inferir (nulo inteiro : bool) (xs : list (option N))
  : exc tipo_coluna :=
  match xs with
  | [] =>
      Ret (if nulo then (if inteiro then Flutuantes else Objetos)
           else (if inteiro then Inteiros else Objetos))
  | None :: xs' => inferir true inteiro xs'
  | Some n :: xs' =>
      _ <- float_de_int (Z.of_N n) ;;
      if negb nulo && (UINT64_MAX <? n)%N then Ret Objetos
      else inferir nulo true xs'
  end.

(** The value of the column of type [t] for the value [x] of the lambda. *)
Definition de_tipo (t : tipo_coluna) (x : option N) : valor :=
  match t, x with
  | Flutuantes, Some n => VNum (F64.of_Z (Z.of_N n))
  | Flutuantes, None => VNum F64.nan
  | _, Some n => VInt (Z.of_N n)
  | _, None => VNone
  end.

Definition maybe_convert_objects (xs : list (option N)) : exc (list valor) :=
  t <- inferir false false xs ;;
  Ret (map (de_tipo t) xs).

(** [df[col_trans].apply(lambda x: int(...) if ... else None)]: the lambda
    is called for every row, then the column is typed. *)
Definition apply_velocidades (trans : list valor) : exc (list valor) :=
  xs <- mapM transmissao_velocidades trans ;;
  maybe_convert_objects xs.

(** The literals [0.55], [0.45] and [2]. *)
Definition c_0_55 : F64.float := F64.of_decimal false 55 (-2).
Definition c_0_45 : F64.float := F64.of_decimal false 45 (-2).

(** [(0.55 * df[cid] + 0.45 * df[est]).round(2)] on one row *)
Definition consumo_combinado (cid est : F64.float) : F64.float :=
  F64.round (F64.add (F64.mul c_0_55 cid) (F64.mul c_0_45 est)) 2.

(** [pares] of [pos_processar]: city column, highway column, new column. *)
Definition pares : list (str * str * str) :=
  [ (coluna 19, coluna 20, COL_COMBINADO_GAS);
    (coluna 17, coluna 18, COL_COMBINADO_ETANOL);
    (coluna 21, coluna 22, COL_COMBINADO_ELETRICO) ].

(** The operand that a value of a column is in [0.55 * df[cid]]: a float
    or an integer of a numeric column; the product with [None] or with a
    text, in a column of objects, raises [TypeError]. *)
Definition float_da_celula (v : valor) : exc F64.float :=
  match v with
  | VNum x => Ret x
  | VInt n => float_de_int n
  | VBool b => Ret (F64.of_Z (if b then 1 else 0))
  | VNone | VStr _ => Raise TypeError
  end.

(** One turn of the loop over [pares], with its guard on the columns: the
    products of the city column, then those of the highway column, then
    the rounded sums. *)
Definition combinar (df : list registro) (par : str * str * str)
  : exc (list registro) :=
  let '(cid, est, nome_comb) := par in
  if df_has df cid && df_has df est
  then
    c <- df_get df cid ;;
    cs <- mapM float_da_celula c ;;
    e <- df_get df est ;;
    es <- mapM float_da_celula e ;;
    Ret (df_set nome_comb
           (map (fun p => VNum (consumo_combinado (fst p) (snd p)))
                (combine cs es))
           df)
  else Ret df.

Fixpoint combinar_pares (ps : list (str * str * str)) (df : list registro)
  : exc (list registro) :=
  match ps with
  | [] => Ret df
  | par :: ps' => df' <- combinar df par ;; combinar_pares ps' df'
  end.

(** [bins] and [labels] of [pos_processar] *)
Definition bins : list F64.float :=
  map F64.of_Z [0; 50; 100; 150; 200; 250; 999]%Z.
Definition labels : list str := Eval vm_compute in
  [ U "0-50"; U "51-100"; U "101-150"; U "151-200"; U "201-250"; U "250+" ].

(** [a.searchsorted(v, side='left')] on a sorted array: the number of
    entries below [v]; numpy orders NaN after every number. *)
Fixpoint searchsorted (a : list F64.float) (v : F64.float) : nat :=
  match a with
  | b :: a' =>
      if F64.ltb b v || (F64.is_nan v && negb (F64.is_nan b))
      then S (searchsorted a' v)
      else O
  | [] => O
  end.

(** [pd.cut(x, bins=bins, labels=labels, include_lowest=True)] on one
    value, with the default [right=True]: the bin index is found with
    [searchsorted], a value equal to the first edge is put in the first bin,
    and an index outside the bins or a null value gives no category. *)
Definition cut (bins : list F64.float) (labels : list str) (x : F64.float)
  : option str :=
  let ids := searchsorted bins x in
  let ids :=
    match bins with
    | b0 :: _ => if F64.eqb x b0 then 1%nat else ids
    | [] => ids
    end in
  if F64.is_nan x || Nat.eqb ids (List.length bins) || Nat.eqb ids 0
  then None
  else nth_error labels (ids - 1).

(** The number that [pd.cut] compares with the bins: [None] or a text, in
    a column of objects, cannot be compared and raises [TypeError]. *)
Definition numero_de_corte (v : valor) : exc F64.float :=
  match v with
  | VNum x => Ret x
  | VInt n => Ret (F64.of_Z n)
  | VBool b => Ret (F64.of_Z (if b then 1 else 0))
  | VNone | VStr _ => Raise TypeError
  end.

Definition faixa_co2 (v : valor) : exc valor :=
  x <- numero_de_corte v ;;
  Ret (de_celula (cut bins labels x)).

(** [df[c] == t] on one value *)
Definition igual_a (t : str) (v : valor) : bool :=
  match v with
  | VStr s => str_eqb s t
  | _ => false
  end.

Definition ELETRICO : str := Eval vm_compute in U "Elétrico".
Definition HIBRIDO : str := Eval vm_compute in U "Híbrido".
Definition PLUG_IN : str := Eval vm_compute in U "Plug-in".

(** [lambda x: 'SIM' if str(x).strip().upper() == 'SIM' else 'NÃO'] *)
Definition selo_conpet (v : valor) : valor :=
  if str_eqb (upper (strip (to_str (como_celula v)))) SIM
  then VStr SIM else VStr NAO.

(** [pos_processar(df)]: one assignment of a column after the other. *)
Definition pos_processar (df : list registro) : exc (list registro) :=
  let col_prop := coluna 5 in
  let col_trans := coluna 6 in
  let col_comb := coluna 9 in
  let col_selo := coluna 27 in
  prop <- df_get df col_prop ;;
  let df := df_set col_prop (map propulsao_padronizada prop) df in
  trans <- df_get df col_trans ;;
  let df := df_set COL_TRANS_TIPO (map transmissao_tipo trans) df in
  trans <- df_get df col_trans ;;
  vel <- apply_velocidades trans ;;
  let df := df_set COL_TRANS_VEL vel df in
  comb <- df_get df col_comb ;;
  let df := df_set COL_COMB_DESC (map combustivel_descricao comb) df in
  df <- combinar_pares pares df ;;
  let col_co2 := coluna 15 in
  co2 <- df_get df col_co2 ;;
  faixa <- mapM faixa_co2 co2 ;;
  let df := df_set COL_FAIXA_CO2 faixa df in
  prop <- df_get df col_prop ;;
  let df :=
    df_set COL_ZERO_EMISSAO
      (map (fun v => VBool (igual_a ELETRICO v)) prop) df in
  prop <- df_get df col_prop ;;
  let df :=
    df_set COL_ELETRIFICADO
      (map (fun v =>
              VBool (existsb (fun t => igual_a t v)
                             [ELETRICO; HIBRIDO; PLUG_IN]))
           prop)
      df in
  selo <- df_get df col_selo ;;
  Ret (df_set col_selo (map selo_conpet selo) df).

(** ** Assembly *)

(** Two values that [drop_duplicates] takes for the same: missing values
    are alike, floats are compared as numbers. *)
Definition valor_igual (a b : valor) : bool :=
  match a, b with
  | VNone, VNone => true
  | VStr s, VStr t => str_eqb s t
  | VNum x, VNum y => F64.eqb x y || (F64.is_nan x && F64.is_nan y)
  | VInt n, VInt m => (n =? m)%Z
  | VBool p, VBool q => Bool.eqb p q
  | _, _ => false
  end.

Fixpoint registro_igual (a b : registro) : bool :=
  match a, b with
  | [], [] => true
  | (k, v) :: a', (k', v') :: b' =>
      str_eqb k k' && valor_igual v v' && registro_igual a' b'
  | _, _ => false
  end.

(** [df.drop_duplicates()]: the first of equal rows is kept. *)
Fixpoint drop_duplicates_desde (vistos df : list registro) : list registro :=
  match df with
  | [] => []
  | r :: df' =>
      if existsb (registro_igual r) vistos
      then drop_duplicates_desde vistos df'
      else r :: drop_duplicates_desde (r :: vistos) df'
  end.

Definition drop_duplicates (df : list registro) : list registro :=
  drop_duplicates_desde [] df.

(** The order of [str]: by code points, a prefix first. *)
Fixpoint str_compare (s t : str) : comparison :=
  match s, t with
  | [], [] => Eq
  | [], _ :: _ => Lt
  | _ :: _, [] => Gt
  | c :: s', d :: t' =>
      match (c ?= d)%N with
      | Eq => str_compare s' t'
      | o => o
      end
  end.

(** Missing values sort last. *)
Definition cell_compare (a b : cell) : comparison :=
  match a, b with
  | None, None => Eq
  | None, Some _ => Gt
  | Some _, None => Lt
  | Some s, Some t => str_compare s t
  end.

Fixpoint chave_compare (a b : list cell) : comparison :=
  match a, b with
  | x :: a', y :: b' =>
      match cell_compare x y with
      | Eq => chave_compare a' b'
      | o => o
      end
  | _, _ => Eq
  end.

(** The sort key: [['Categoria', 'Marca', 'Modelo', 'Versão']]. *)
Definition chave (r : registro) : list cell :=
  map (fun i => match dict_get (coluna i) r with
                | Some v => como_celula v
                | None => None
                end)
      [0; 1; 2; 3]%nat.

Fixpoint inserir (r : registro) (df : list registro) : list registro :=
  match df with
  | [] => [r]
  | x :: df' =>
      match chave_compare (chave r) (chave x) with
      | Gt => x :: inserir r df'
      | _ => r :: df
      end
  end.

(** [df.sort_values([...])]: ascending, rows with equal keys keep their
    order. *)
Definition sort_values (df : list registro) : list registro :=
  fold_right inserir [] df.

(** [main], from the opened document to the frame that is exported.
    Steps 3 and 4 make each numeric column a column of floats; with no
    record the frame has no column at all, step 4 has nothing to convert
    and [pos_processar] fails on its first read. *)
Definition main (pdf : list pagina) : exc (list registro) :=
  let linhas := extrair pdf in
  registros <- parsear linhas ;;
  let df := map tipos_numericos registros in
  df <- pos_processar df ;;
  let df := drop_duplicates df in
  Ret (sort_values df).

End Pbev.

(* ====================================================================== *)
(** * The specification's wording *)
(* ====================================================================== *)

(** Definitions that follow the text of the specification where it differs
    in form from the script; the theorems compare them with the script. *)

Module Spec.
Import Py Pbev.

(** The placeholder tokens, as the specification lists them. *)
Definition TOKENS : list str := Eval vm_compute in
  [ []; [BACKSLASH]; U "-"; [BACKSLASH; BACKSLASH]; U "ND"; U "N.A.";
    U "N/A"; U "--" ].

(** "Join all non-null cells of the row into lowercase text". *)
Definition nao_nulo (c : cell) : bool :=
  match c with
  | Some _ => true
  | None => false
  end.

Definition texto_nao_nulo (row : list cell) : str :=
  lower (join [SP] (map to_str (filter nao_nulo row))).

(** The CO2 bins [0,50], (50,100], (100,150], (150,200], (200,250] and a
    last bin above 250, with no category for a null or negative value.
    The last bin ends at [topo], or nowhere. *)
Definition faixa_ate (topo : option F64.float) (x : F64.float) : option str :=
  if F64.is_nan x then None
  else if F64.ltb x (F64.of_Z 0) then None
  else if F64.leb x (F64.of_Z 50) then Some (U "0-50")
  else if F64.leb x (F64.of_Z 100) then Some (U "51-100")
  else if F64.leb x (F64.of_Z 150) then Some (U "101-150")
  else if F64.leb x (F64.of_Z 200) then Some (U "151-200")
  else if F64.leb x (F64.of_Z 250) then Some (U "201-250")
  else match topo with
       | None => Some (U "250+")
       | Some t => if F64.leb x t then Some (U "250+") else None
       end.

(** The bins as specified: the last one is (250, infinity). *)
Definition faixa : F64.float -> option str := faixa_ate None.

End Spec.

(* ====================================================================== *)
(** * Auxiliary notions for the proofs *)
(* ====================================================================== *)

Module Aux.
Import Py Pbev.

(** [sem_espacos s t]: [t] is [s] with some of its blanks deleted. *)
Inductive sem_espacos : str -> str -> Prop :=
| se_nil : sem_espacos [] []
| se_keep c s t : sem_espacos s t -> sem_espacos (c :: s) (c :: t)
| se_drop s t : sem_espacos s t -> sem_espacos (SP :: s) t.

Definition nao_vazia (s : str) : bool :=
  match s with
  | [] => false
  | _ :: _ => true
  end.

(** The value [parsear] stores for the cell [c] of the column at [idx]. *)
Definition valor_do_campo (idx : nat) (c : cell) : valor :=
  if existsb (Nat.eqb idx) COLUNAS_NUMERICAS
  then de_numero (match para_numero c with
                  | Ret x => x
                  | Raise _ => None
                  end)
  else de_celula (limpar c).

(** The record of a row: each column with the value of its cell, a cell
    beyond the end of the row counting as [None]. *)
Definition registro_de (row : linha) : registro :=
  map (fun p => (snd p, valor_do_campo (fst p) (nth (fst p) row None)))
      COLUNAS_PDF.

(** The cleaned brand cell of a row. *)
Definition marca_limpa (row : linha) : cell := limpar (nth 1 row None).

(** The records of the rows that have a brand. *)
Definition registros_de (linhas : list linha) : list registro :=
  flat_map (fun row => match marca_limpa row with
                       | Some _ => [registro_de row]
                       | None => []
                       end)
           linhas.

(** The value of a column of a row, null when the column is missing. *)
Definition valor_de (r : registro) (k : str) : valor :=
  match dict_get k r with
  | Some v => v
  | None => VNone
  end.

(** The value of the lambda of the number of gears when [int] accepts the
    digits. *)
Definition velocidade (v : valor) : option N :=
  match v with
  | VStr s =>
      match re_search_digitos s with
      | Some ds => Some (fold_left (fun a d => a * 10 + d)%N ds 0%N)
      | None => None
      end
  | _ => None
  end.

(** The float of a numeric value, when it has one. *)
Definition flutuante (v : valor) : F64.float :=
  match v with
  | VNum x => x
  | VInt n => F64.of_Z n
  | VBool b => F64.of_Z (if b then 1 else 0)
  | _ => F64.nan
  end.

(** The row that [pos_processar] builds from a row of a frame with the
    columns of the schema, when it returns and the column of the number of
    gears has the type [t]: the assignments of the function, in its
    order. *)
Definition derivado_em (t : tipo_coluna) (r : registro) : registro :=
  let prop := propulsao_padronizada (valor_de r (coluna 5)) in
  let trans := valor_de r (coluna 6) in
  dict_set (coluna 27) (selo_conpet (valor_de r (coluna 27)))
  (dict_set COL_ELETRIFICADO
     (VBool (existsb (fun t => igual_a t prop) [ELETRICO; HIBRIDO; PLUG_IN]))
  (dict_set COL_ZERO_EMISSAO (VBool (igual_a ELETRICO prop))
  (dict_set COL_FAIXA_CO2
     (de_celula (cut bins labels (flutuante (valor_de r (coluna 15)))))
  (dict_set COL_COMBINADO_ELETRICO
     (VNum (consumo_combinado (flutuante (valor_de r (coluna 21)))
                              (flutuante (valor_de r (coluna 22)))))
  (dict_set COL_COMBINADO_ETANOL
     (VNum (consumo_combinado (flutuante (valor_de r (coluna 17)))
                              (flutuante (valor_de r (coluna 18)))))
  (dict_set COL_COMBINADO_GAS
     (VNum (consumo_combinado (flutuante (valor_de r (coluna 19)))
                              (flutuante (valor_de r (coluna 20)))))
  (dict_set COL_COMB_DESC (combustivel_descricao (valor_de r (coluna 9)))
  (dict_set COL_TRANS_VEL (de_tipo t (velocidade trans))
  (dict_set COL_TRANS_TIPO (transmissao_tipo trans)
  (dict_set (coluna 5) prop r)))))))))).

(** The same for the frame of one row, whose number of gears stays the
    [int] or the [None] that the lambda returns. *)
Definition derivado (r : registro) : registro := derivado_em Objetos r.

(** The type of the column of the number of gears of a frame. *)
Definition tipo_velocidades (df : list registro) : exc tipo_coluna :=
  xs <- mapM transmissao_velocidades
          (map (fun r => valor_de r (coluna 6)) df) ;;
  inferir false false xs.

(** The columns that [pos_processar] computes with hold numbers. *)
Definition retorna {A} (m : exc A) : bool :=
  match m with
  | Ret _ => true
  | Raise _ => false
  end.

Definition numericas_validas (r : registro) : bool :=
  forallb (fun i => retorna (float_da_celula (valor_de r (coluna i))))
          [19; 20; 17; 18; 21; 22]
  && retorna (numero_de_corte (valor_de r (coluna 15))).

(** Every column of the schema is present in the record. *)
Definition colunas_presentes (r : registro) : bool :=
  forallb (fun p => dict_has (snd p) r) COLUNAS_PDF.

(** The brand of a record is a non-empty text. *)
Definition tem_marca (r : registro) : bool :=
  match dict_get (coluna 1) r with
  | Some (VStr (_ :: _)) => true
  | _ => false
  end.

End Aux.

(* ====================================================================== *)
(** * Sample rows *)
(* ====================================================================== *)

Module Exemplos.
Import Py Pbev.

(** A row of the report, with all its 28 cells. *)
Definition linha_argo : linha :=
  map Some
    [ U "Compacto"; U "Fiat"; U "Argo"; U "Drive 1.0"; U "1.0";
      U "Combustão"; U "M-5"; U "S"; U "E"; U "F"; U "10"; U "200";
      U "1,5"; U "A"; U "0"; U "98"; [BACKSLASH]; U "9,8"; U "11,2";
      U "14,0"; U "16,0"; U "ND"; U "ND"; U "1,45"; U "--"; U "B"; U "A";
      U "Sim" ].

(** The same row with 1000 g/km of fossil CO2. *)
Definition linha_co2_1000 : linha :=
  firstn 15 linha_argo ++ [Some (U "1000")] ++ skipn 16 linha_argo.

(** A row cut after its second cell. *)
Definition linha_curta : linha := firstn 2 linha_argo.

(** A row without a brand. *)
Definition linha_sem_marca : linha :=
  Some (U "Compacto") :: Some (U "-") :: skipn 2 linha_argo.

(** A vehicle row that also carries a header word. *)
Definition linha_categoria : linha :=
  Some (U "Compacto") :: Some (U "Categoria") :: repeat None 26.

End Exemplos.

(** Evaluate the comparisons of column names that are both known. *)
Ltac eval_keys :=
  repeat match goal with
  | |- context [Py.str_eqb ?a ?b] =>
      let r := eval vm_compute in (Py.str_eqb a b) in
      lazymatch r with
      | true => change (Py.str_eqb a b) with true
      | false => change (Py.str_eqb a b) with false
      end
  end.

(* ====================================================================== *)
(** * File names *)
(* ====================================================================== *)

Module Saida.
Import Py Pbev.

Definition SLASH : char := 47%N.

(** [os.path.basename(p)] on a POSIX system: what follows the last
    slash, [p[p.rfind('/') + 1:]]. *)
Fixpoint basename (p : str) : str :=
  match p with
  | [] => []
  | c :: p' =>
      if existsb (N.eqb SLASH) p' then basename p'
      else if (c =? SLASH)%N then p'
      else p
  end.

(** [re.match(r'20\d{2}', s)]: the four characters matched at the head of
    [s]. *)
Definition ano_no_inicio (s : str) : option str :=
  match s with
  | a :: b :: c :: d :: _ =>
      if (a =? 50)%N && (b =? 48)%N && re_digit c && re_digit d
      then Some [a; b; c; d]
      else None
  | _ => None
  end.

(** [re.search(r'20\d{2}', s)]: the leftmost match. *)
Fixpoint re_search_ano (s : str) : option str :=
  match ano_no_inicio s with
  | Some m => Some m
  | None =>
      match s with
      | [] => None
      | _ :: s' => re_search_ano s'
      end
  end.

(** [detectar_ano(pdf_path)] *)
Definition detectar_ano (pdf_path : str) : str :=
  let nome := basename pdf_path in
  match re_search_ano nome with
  | Some m => m
  | None => U "PBEV"
  end.

(** [os.path.join(a, b)] on a POSIX system: [b] alone when it is
    absolute, else [a] and [b] with one slash between them unless [a] is
    empty or ends with one. *)
Definition startswith_sep (b : str) : bool :=
  match b with
  | c :: _ => (c =? SLASH)%N
  | [] => false
  end.

Definition endswith_sep (a : str) : bool :=
  match rev a with
  | c :: _ => (c =? SLASH)%N
  | [] => false
  end.

Definition path_join (a b : str) : str :=
  if startswith_sep b then b
  else if match a with [] => true | _ :: _ => endswith_sep a end then a ++ b
  else a ++ [SLASH] ++ b.

(** [excel_path] and [csv_path] of [exportar] *)
Definition excel_path (ano pasta_saida : str) : str :=
  path_join pasta_saida (U "pbev_" ++ ano ++ U "_dados.xlsx").
Definition csv_path (ano pasta_saida : str) : str :=
  path_join pasta_saida (U "pbev_" ++ ano ++ U "_dados.csv").

End Saida.

(* ====================================================================== *)
(** * Notions for the further properties *)
(* ====================================================================== *)

Module Props.
Import Py Pbev.

(** No white space at either end. *)
Definition aparado (s : str) : bool :=
  match s with
  | [] => true
  | c :: _ => negb (isspace c)
  end
  && match rev s with
     | [] => true
     | c :: _ => negb (isspace c)
     end.

(** The characters of a numeral: ASCII digits, a point or a comma. *)
Definition de_numeral (c : char) : bool :=
  PyFloat.c_isdigit c || (c =? DOT)%N || (c =? COMMA)%N.

(** The names of the nine columns that [pos_processar] adds, in order. *)
Definition COLUNAS_DERIVADAS : list str :=
  [ COL_TRANS_TIPO; COL_TRANS_VEL; COL_COMB_DESC; COL_COMBINADO_GAS;
    COL_COMBINADO_ETANOL; COL_COMBINADO_ELETRICO; COL_FAIXA_CO2;
    COL_ZERO_EMISSAO; COL_ELETRIFICADO ].

(** A value of a numeric column of [parsear]: a float or null. *)
Definition valor_numerico (v : valor) : bool :=
  match v with
  | VNone | VNum _ => true
  | _ => false
  end.

(** A value of a textual column of [parsear]: null, or a text that is
    trimmed, has no line feed and is no placeholder. *)
Definition valor_textual (v : valor) : bool :=
  match v with
  | VNone => true
  | VStr s =>
      aparado s && Nat.eqb (count LF s) 0 && negb (str_in s TOKENS_VAZIOS)
  | _ => false
  end.

(** The keys of two rows are in ascending order. *)
Definition em_ordem (a b : registro) : bool :=
  match chave_compare (chave a) (chave b) with
  | Gt => false
  | _ => true
  end.

(** Adjacent rows are in order. *)
Fixpoint ordenado (df : list registro) : bool :=
  match df with
  | a :: (b :: _) as df' => em_ordem a b && ordenado df'
  | _ => true
  end.

(** [l] is [l'] with some of its members left out, the others in their
    order. *)
Inductive subsequencia {A : Type} : list A -> list A -> Prop :=
| sub_nil : subsequencia [] []
| sub_fica x l l' : subsequencia l l' -> subsequencia (x :: l) (x :: l')
| sub_sai x l l' : subsequencia l l' -> subsequencia l (x :: l').

(** The leftmost run of digits of a transmission code has at most [n]
    digits. *)
Definition digitos_ate (n : nat) (v : valor) : bool :=
  match v with
  | VStr s =>
      match re_search_digitos s with
      | Some ds => (List.length ds <=? n)%nat
      | None => true
      end
  | _ => true
  end.

(** No row equals an earlier one. *)
Fixpoint sem_duplicatas (df : list registro) : bool :=
  match df with
  | [] => true
  | r :: df' =>
      negb (existsb (fun x => registro_igual x r) df') && sem_duplicatas df'
  end.

End Props.

(* ====================================================================== *)
(** * Facts about Python strings *)
(* ====================================================================== *)

Module PyFacts.
Import Py.

Lemma str_eqb_eq (s t : str) : str_eqb s t = true <-> s = t.
Proof.
  revert t; induction s as [|c s IH]; intros [|d t]; simpl;
    try (split; discriminate); [tauto|].
  rewrite andb_true_iff, N.eqb_eq, IH.
  split; [intros [-> ->]; reflexivity | intros [= -> ->]; auto].
Qed.

Lemma str_eqb_refl (s : str) : str_eqb s s = true.
Proof. apply str_eqb_eq; reflexivity. Qed.

Lemma str_eqb_neq (s t : str) : str_eqb s t = false <-> s <> t.
Proof.
  rewrite <- str_eqb_eq. destruct (str_eqb s t); split; congruence.
Qed.

Lemma startswith_app (p s : str) :
  startswith p s = true <-> exists r, s = p ++ r.
Proof.
  revert s; induction p as [|c p IH]; intros s; simpl.
  - split; [intros _; exists s; reflexivity | reflexivity].
  - destruct s as [|d s].
    + split; [discriminate | intros [r [=]]].
    + rewrite andb_true_iff, N.eqb_eq, IH. split.
      * intros [-> [r ->]]. exists r; reflexivity.
      * intros [r [= -> ->]]. split; [reflexivity | exists r; reflexivity].
Qed.

(** [p in s] holds exactly when [s] splits around a copy of [p]. *)
Lemma contains_app (p s : str) :
  contains p s = true <-> exists a b, s = a ++ p ++ b.
Proof.
  induction s as [|d s IH].
  - simpl. rewrite orb_false_r, startswith_app. split.
    + intros [r E]. exists [], r. exact E.
    + intros [a [b E]]. destruct a as [|x a]; [exists b; exact E | discriminate].
  - cbn [contains]. rewrite orb_true_iff, startswith_app, IH. split.
    + intros [[r E] | [a [b E]]].
      * exists [], r. exact E.
      * exists (d :: a), b. rewrite E. reflexivity.
    + intros [a [b E]]. destruct a as [|x a].
      * left. exists b. exact E.
      * right. injection E as -> E. exists a, b. exact E.
Qed.

Lemma existsb_Permutation {A} (f : A -> bool) (l l' : list A) :
  Permutation l l' -> existsb f l = existsb f l'.
Proof.
  induction 1; simpl; try congruence.
  destruct (f x), (f y); reflexivity.
Qed.

Lemma lower_app (s t : str) : lower (s ++ t) = lower s ++ lower t.
Proof. apply flat_map_app. Qed.

Lemma lower_cp_not_nil (c : char) : lower_cp c <> [].
Proof.
  unfold lower_cp.
  repeat match goal with |- context [if ?b then _ else _] => destruct b end;
    discriminate.
Qed.

Lemma lower_nil_iff (s : str) : lower s = [] <-> s = [].
Proof.
  split; [|intros ->; reflexivity].
  destruct s as [|c s]; [reflexivity|]. unfold lower; simpl. intros E.
  apply app_eq_nil in E. destruct E as [E _].
  exfalso; exact (lower_cp_not_nil _ E).
Qed.

End PyFacts.

(* ====================================================================== *)
(** * Row classification and extraction *)
(* ====================================================================== *)

Module ExtracaoFacts.
Import Py Pbev PyFacts.

Lemma loop_linhas (table : tabela) (linhas : list linha) :
  fold_left (fun linhas row =>
               if linha_aceita row then linhas ++ [row] else linhas)
            table linhas
  = linhas ++ filter linha_aceita table.
Proof.
  revert linhas; induction table as [|row table IH]; intros linhas; simpl.
  - rewrite app_nil_r; reflexivity.
  - rewrite IH. destruct (linha_aceita row); [|reflexivity].
    rewrite <- app_assoc; reflexivity.
Qed.

Lemma loop_tabelas (page : pagina) (linhas : list linha) :
  fold_left (fun linhas table =>
               match table with
               | [] => linhas
               | _ :: _ =>
                   fold_left (fun linhas row =>
                                if linha_aceita row then linhas ++ [row]
                                else linhas)
                             table linhas
               end)
            page linhas
  = linhas ++ filter linha_aceita (concat page).
Proof.
  revert linhas; induction page as [|table page IH]; intros linhas; simpl.
  - rewrite app_nil_r; reflexivity.
  - rewrite IH, filter_app, app_assoc. f_equal.
    destruct table as [|row table]; [simpl; rewrite app_nil_r; reflexivity|].
    apply loop_linhas.
Qed.

(** The three loops of [extrair] keep, in document order, the rows that
    pass [linha_aceita]. *)
Lemma extrair_filter (pdf : list pagina) :
  extrair pdf = filter linha_aceita (concat (concat pdf)).
Proof.
  unfold extrair.
  enough (H : forall linhas,
             fold_left
               (fun linhas page =>
                  fold_left
                    (fun linhas table =>
                       match table with
                       | [] => linhas
                       | _ :: _ =>
                           fold_left
                             (fun linhas row =>
                                if linha_aceita row then linhas ++ [row]
                                else linhas)
                             table linhas
                       end)
                    page linhas)
               pdf linhas
             = linhas ++ filter linha_aceita (concat (concat pdf)))
    by apply (H []).
  induction pdf as [|page pdf IH]; intros linhas; simpl.
  - rewrite app_nil_r; reflexivity.
  - rewrite IH, loop_tabelas, concat_app, filter_app, app_assoc.
    reflexivity.
Qed.

Lemma linha_aceita_iff (row : linha) :
  linha_aceita row = true <->
  25 <= List.length row /\ eh_cabecalho row = false /\ eh_veiculo row = true.
Proof.
  unfold linha_aceita. destruct row as [|c row].
  - simpl. split; [discriminate | intros [H _]; lia].
  - destruct (Nat.leb_spec 25 (List.length (c :: row))) as [L|L].
    + rewrite andb_true_iff, negb_true_iff. tauto.
    + split; [discriminate | intros [H _]; lia].
Qed.

Lemma In_concat2 (pdf : list pagina) (row : linha) :
  In row (concat (concat pdf)) <->
  exists page table, In page pdf /\ In table page /\ In row table.
Proof.
  rewrite in_concat. split.
  - intros [table [H1 H2]]. apply in_concat in H1. destruct H1 as [page [H0 H1]].
    exists page, table; auto.
  - intros [page [table [H0 [H1 H2]]]]. exists table. split; [|exact H2].
    apply in_concat. exists page; auto.
Qed.

(** *** Deleting blanks keeps the words *)

Import Aux.

Lemma sem_espacos_refl (s : str) : sem_espacos s s.
Proof. induction s; constructor; auto. Qed.

Lemma sem_espacos_app (s s' t t' : str) :
  sem_espacos s t -> sem_espacos s' t' -> sem_espacos (s ++ s') (t ++ t').
Proof. induction 1; intros H'; simpl; try constructor; auto. Qed.

Lemma sem_espacos_app_nil (a b : str) :
  sem_espacos b [] -> sem_espacos (a ++ b) a.
Proof.
  intros H. rewrite <- (app_nil_r a) at 2.
  apply sem_espacos_app; [apply sem_espacos_refl | exact H].
Qed.

Lemma sem_espacos_app_inv (a b t : str) :
  sem_espacos (a ++ b) t ->
  exists t1 t2, t = t1 ++ t2 /\ sem_espacos a t1 /\ sem_espacos b t2.
Proof.
  revert t; induction a as [|c a IH]; intros t H; simpl in H.
  - exists [], t. repeat split; [constructor | exact H].
  - inversion H as [|c' s' t' H' | s' t' H']; subst.
    + destruct (IH _ H') as [t1 [t2 [-> [H1 H2]]]].
      exists (c :: t1), t2. repeat split; [constructor|]; auto.
    + destruct (IH _ H') as [t1 [t2 [-> [H1 H2]]]].
      exists t1, t2. repeat split; [constructor|]; auto.
Qed.

Lemma sem_espacos_palavra (p t : str) :
  ~ In SP p -> sem_espacos p t -> t = p.
Proof.
  intros N H; induction H; simpl in *.
  - reflexivity.
  - f_equal; tauto.
  - tauto.
Qed.

(** A word without blanks that occurs in [s] occurs in [s] with blanks
    deleted. *)
Lemma contains_sem_espacos (p s t : str) :
  ~ In SP p -> sem_espacos s t -> contains p s = true -> contains p t = true.
Proof.
  intros N H. rewrite !contains_app. intros [a [b ->]].
  apply sem_espacos_app_inv in H. destruct H as [ta [t2 [-> [Ha H]]]].
  apply sem_espacos_app_inv in H. destruct H as [tp [tb [-> [Hp Hb]]]].
  rewrite (sem_espacos_palavra p tp N Hp). exists ta, tb; reflexivity.
Qed.

Lemma join_cons (sep s : str) (l : list str) :
  l <> [] -> join sep (s :: l) = s ++ sep ++ join sep l.
Proof. destruct l; [congruence | reflexivity]. Qed.

Lemma join_sem_vazias (l : list str) :
  sem_espacos (join [SP] l) (join [SP] (filter nao_vazia l)).
Proof.
  induction l as [|s l IH]; [constructor|].
  destruct l as [|s' l].
  - destruct s; simpl; [constructor | apply sem_espacos_refl].
  - rewrite join_cons by discriminate.
    destruct s as [|c s].
    + cbn [filter nao_vazia app]. apply se_drop. exact IH.
    + change (filter nao_vazia ((c :: s) :: s' :: l))
        with ((c :: s) :: filter nao_vazia (s' :: l)).
      destruct (filter nao_vazia (s' :: l)) as [|x fl].
      * change (join [SP] [c :: s]) with (c :: s).
        apply sem_espacos_app_nil. apply se_drop. exact IH.
      * change (join [SP] ((c :: s) :: x :: fl))
          with ((c :: s) ++ [SP] ++ join [SP] (x :: fl)).
        apply sem_espacos_app; [apply sem_espacos_refl|].
        apply se_keep. exact IH.
Qed.

Lemma lower_join (l : list str) :
  lower (join [SP] l) = join [SP] (map lower l).
Proof.
  induction l as [|s l IH]; [reflexivity|].
  destruct l as [|s' l]; [reflexivity|].
  change (join [SP] (s :: s' :: l)) with (s ++ [SP] ++ join [SP] (s' :: l)).
  change (join [SP] (map lower (s :: s' :: l)))
    with (lower s ++ [SP] ++ join [SP] (map lower (s' :: l))).
  rewrite lower_app, lower_app, IH. reflexivity.
Qed.

Lemma filter_nao_vazia_lower (l : list str) :
  filter nao_vazia (map lower l) = map lower (filter nao_vazia l).
Proof.
  induction l as [|s l IH]; [reflexivity|]. cbn [map filter].
  rewrite IH. destruct s as [|c s]; [reflexivity|].
  destruct (lower (c :: s)) eqn:E.
  - pose proof (proj1 (lower_nil_iff _) E) as E'. discriminate E'.
  - cbn [nao_vazia map]. rewrite E. reflexivity.
Qed.

Lemma celulas_truthy (row : list cell) :
  map to_str (filter truthy row)
  = filter nao_vazia (map to_str (filter Spec.nao_nulo row)).
Proof.
  induction row as [|c row IH]; [reflexivity|].
  destruct c as [[|x s]|]; simpl; rewrite IH; reflexivity.
Qed.

(** The text the script searches is the text of the non-null cells with
    some blanks deleted: a keyword without blanks found in the one is found
    in the other. *)
Lemma texto_sem_espacos (row : list cell) :
  sem_espacos (Spec.texto_nao_nulo row) (texto_da_linha row).
Proof.
  unfold Spec.texto_nao_nulo, texto_da_linha.
  rewrite celulas_truthy, !lower_join, <- filter_nao_vazia_lower.
  apply join_sem_vazias.
Qed.

End ExtracaoFacts.

(* ====================================================================== *)
(** * Cell cleaning *)
(* ====================================================================== *)

Module LimparFacts.
Import Py Pbev PyFacts.

Lemma str_in_In (v : str) (l : list str) : str_in v l = true <-> In v l.
Proof.
  unfold str_in. rewrite existsb_exists. split.
  - intros [t [H E]]. apply str_eqb_eq in E. subst; exact H.
  - intros H. exists v. split; [exact H | apply str_eqb_refl].
Qed.

(** The cleaned text of a cell: trimmed, each line feed made a blank. *)
Lemma limpar_Some (s : str) :
  limpar (Some s)
  = let v := replace LF SP (strip s) in
    if str_in v TOKENS_VAZIOS then None else Some v.
Proof. reflexivity. Qed.

Lemma limpar_None_iff (s : str) :
  limpar (Some s) = None <-> In (replace LF SP (strip s)) TOKENS_VAZIOS.
Proof.
  rewrite limpar_Some; cbv zeta. rewrite <- str_in_In.
  destruct (str_in _ _); split; congruence.
Qed.

(** What [limpar] returns is never a token, so never the empty string. *)
Lemma limpar_not_token (c : cell) (v : str) :
  limpar c = Some v -> ~ In v TOKENS_VAZIOS.
Proof.
  destruct c as [s|]; [|discriminate]. rewrite limpar_Some; cbv zeta.
  destruct (str_in _ _) eqn:E; [discriminate|]. intros [= <-].
  rewrite <- str_in_In. congruence.
Qed.

Lemma limpar_not_nil (c : cell) : limpar c <> Some [].
Proof.
  intros E. apply limpar_not_token in E. apply E. left; reflexivity.
Qed.

(** The script's tokens are the specified ones and one more. *)
Lemma tokens_vazios (v : str) :
  In v TOKENS_VAZIOS <->
  In v Spec.TOKENS \/ v = [BACKSLASH; BACKSLASH; APOSTROPHE].
Proof.
  unfold TOKENS_VAZIOS, Spec.TOKENS; simpl. split; intros H.
  - repeat (destruct H as [H|H]; [subst; auto 12|]). contradiction.
  - destruct H as [H| ->]; [|auto 12].
    repeat (destruct H as [H|H]; [subst; auto 12|]). contradiction.
Qed.

End LimparFacts.


(* ====================================================================== *)
(** * Facts about [float(str)] and numeric cleaning *)
(* ====================================================================== *)

Module FloatFacts.
Import Py PyFloat Pbev PyFacts.

(** *** Counting a character *)

Lemma count_cons (a c : char) (s : str) :
  count a (c :: s) = ((if (a =? c)%N then 1 else 0) + count a s)%nat.
Proof. unfold count; simpl. destruct (a =? c)%N; reflexivity. Qed.

Lemma count_app (a : char) (s t : str) :
  count a (s ++ t) = (count a s + count a t)%nat.
Proof. unfold count. rewrite filter_app, length_app. reflexivity. Qed.

Lemma count_rev (a : char) (s : str) : count a (rev s) = count a s.
Proof.
  induction s as [|c s IH]; [reflexivity|].
  simpl rev. rewrite count_app, IH, !count_cons. unfold count at 2; simpl. lia.
Qed.

(** A map that sends [a], and nothing else, to [a] keeps its count. *)
Lemma count_map (f : char -> char) (a : char) (s : str) :
  (forall c, f c = a <-> c = a) -> count a (map f s) = count a s.
Proof.
  intros H. induction s as [|c s IH]; [reflexivity|].
  simpl map. rewrite !count_cons, IH. f_equal.
  destruct (N.eqb_spec a c) as [->|N].
  - rewrite (proj2 (H c) eq_refl), N.eqb_refl. reflexivity.
  - destruct (N.eqb_spec a (f c)) as [E|_]; [|reflexivity].
    pose proof (proj1 (H c) (eq_sym E)). congruence.
Qed.

(** A filter that keeps [a] keeps its count. *)
Lemma count_filter (p : char -> bool) (a : char) (s : str) :
  p a = true -> count a (filter p s) = count a s.
Proof.
  intros H. induction s as [|c s IH]; [reflexivity|]. simpl filter.
  destruct (p c) eqn:E; rewrite ?count_cons, IH; [reflexivity|].
  destruct (N.eqb_spec a c) as [->|_]; [congruence | reflexivity].
Qed.

Lemma count_lstrip (a : char) (s : str) :
  isspace a = false -> count a (lstrip s) = count a s.
Proof.
  intros H. induction s as [|c s IH]; [reflexivity|]. simpl lstrip.
  destruct (isspace c) eqn:E; [|reflexivity].
  rewrite IH, count_cons.
  destruct (N.eqb_spec a c) as [->|_]; [congruence | reflexivity].
Qed.

Lemma count_strip (a : char) (s : str) :
  isspace a = false -> count a (strip s) = count a s.
Proof.
  intros H. unfold strip, rstrip.
  rewrite count_rev, count_lstrip, count_rev, count_lstrip by exact H.
  reflexivity.
Qed.

Lemma count_c_lstrip (a : char) (s : str) :
  c_isspace a = false -> count a (c_lstrip s) = count a s.
Proof.
  intros H. induction s as [|c s IH]; [reflexivity|]. simpl c_lstrip.
  destruct (c_isspace c) eqn:E; [|reflexivity].
  rewrite IH, count_cons.
  destruct (N.eqb_spec a c) as [->|_]; [congruence | reflexivity].
Qed.

Lemma count_c_strip (a : char) (s : str) :
  c_isspace a = false -> count a (c_strip s) = count a s.
Proof.
  intros H. unfold c_strip.
  rewrite count_rev, count_c_lstrip, count_rev, count_c_lstrip by exact H.
  reflexivity.
Qed.

(** [replace a b] turns every [a] into [b]: none is left, and the [b]s
    are the old ones and the new ones. *)
Lemma count_replace_old (a b : char) (s : str) :
  a <> b -> count a (replace a b s) = 0%nat.
Proof.
  intros N. induction s as [|c s IH]; [reflexivity|].
  unfold replace in *; simpl map. rewrite count_cons, IH.
  destruct (N.eqb_spec c a) as [->|M].
  - destruct (N.eqb_spec a b); [contradiction | reflexivity].
  - destruct (N.eqb_spec a c); [congruence | reflexivity].
Qed.

Lemma count_replace_new (a b : char) (s : str) :
  a <> b -> count b (replace a b s) = (count a s + count b s)%nat.
Proof.
  intros N. induction s as [|c s IH]; [reflexivity|].
  unfold replace in *; simpl map. rewrite !count_cons, IH.
  destruct (N.eqb_spec c a) as [->|M].
  - rewrite !N.eqb_refl. destruct (N.eqb_spec b a); [congruence | lia].
  - destruct (N.eqb_spec a c); [congruence|]. lia.
Qed.

Lemma count_replace_other (a b x : char) (s : str) :
  x <> a -> x <> b -> count x (replace a b s) = count x s.
Proof.
  intros Na Nb. apply count_map. intros c.
  destruct (N.eqb_spec c a) as [->|M]; split; congruence.
Qed.

(** *** The syntax of floats has at most one point *)

Lemma to_ascii_dot (c : char) : to_ascii c = DOT <-> c = DOT.
Proof.
  unfold to_ascii, DOT.
  destruct (N.ltb_spec c 127) as [L|L]; [tauto|].
  split; [|intros ->; lia].
  destruct (isspace c); [discriminate|].
  destruct (to_decimal c); intros E; lia.
Qed.

Lemma sign_of_app (s : str) :
  exists p, s = p ++ snd (sign_of s) /\ count DOT p = 0%nat.
Proof.
  unfold sign_of.
  destruct s as [|c s]; [exists []; auto|].
  destruct (N.eq_dec c 45) as [->|N1]; [exists [45%N]; auto|].
  destruct (N.eq_dec c 43) as [->|N2]; [exists [43%N]; auto|].
  exists []. split; [|reflexivity].
  destruct c as [|p]; [reflexivity|].
  do 6 (destruct p as [p|p|]; try reflexivity); congruence.
Qed.

Lemma span_digits_app (s : str) :
  s = fst (span_digits s) ++ snd (span_digits s)
  /\ count DOT (fst (span_digits s)) = 0%nat.
Proof.
  induction s as [|c s [IH1 IH2]]; [split; reflexivity|]. simpl.
  destruct (c_isdigit c) eqn:E; [|split; reflexivity].
  destruct (span_digits s) as [d r]; simpl in *. split; [congruence|].
  rewrite count_cons, IH2.
  destruct (N.eqb_spec DOT c) as [<-|_]; [discriminate E | reflexivity].
Qed.

Lemma exponent_of_app (s : str) :
  exists p, s = p ++ snd (exponent_of s) /\ count DOT p = 0%nat.
Proof.
  unfold exponent_of. destruct s as [|c r]; [exists []; auto|].
  destruct ((c =? 101) || (c =? 69))%N eqn:E; [|exists []; auto].
  destruct (sign_of_app r) as [p1 [E1 C1]].
  destruct (sign_of r) as [eneg r1]; simpl in E1.
  destruct (span_digits_app r1) as [E2 C2].
  destruct (span_digits r1) as [ed r2]; simpl in E2, C2.
  destruct ed as [|d ed]; [exists []; auto|].
  exists (c :: p1 ++ d :: ed). simpl snd. split.
  - rewrite E1, E2 at 1. simpl. rewrite <- app_assoc. reflexivity.
  - rewrite count_cons, count_app, C1, C2.
    destruct (N.eqb_spec DOT c) as [<-|_]; [discriminate E | reflexivity].
Qed.

Lemma strtod_app (s r : str) (x : F64.float) :
  strtod s = Some (x, r) -> exists p, s = p ++ r /\ count DOT p <= 1.
Proof.
  unfold strtod.
  destruct (sign_of_app s) as [p0 [E0 C0]].
  destruct (sign_of s) as [neg s1]; simpl in E0.
  destruct (span_digits_app s1) as [E1 C1].
  destruct (span_digits s1) as [ip s2]; simpl in E1, C1.
  assert (F : exists pd,
             s2 = pd ++ snd (match s2 with
                             | 46%N :: r => span_digits r
                             | _ => ([], s2)
                             end)
             /\ count DOT pd <= 1).
  { destruct s2 as [|c s2']; [exists []; split; [reflexivity | unfold count; simpl; lia]|].
    destruct (N.eq_dec c 46) as [->|N].
    - destruct (span_digits_app s2') as [E2 C2].
      exists (46%N :: fst (span_digits s2')). split.
      + change (46%N :: s2'
                = 46%N :: fst (span_digits s2') ++ snd (span_digits s2')).
        f_equal. exact E2.
      + rewrite count_cons, C2. simpl. lia.
    - exists []. split; [|unfold count; simpl; lia].
      destruct c as [|p]; [reflexivity|].
      do 6 (destruct p as [p|p|]; try reflexivity); congruence. }
  destruct F as [pd [E2 C2]].
  destruct (match s2 with
            | 46%N :: r => span_digits r
            | _ => ([], s2)
            end) as [fp s3]; simpl in E2.
  destruct (ip ++ fp) as [|d ds]; [discriminate|].
  destruct (exponent_of_app s3) as [pe [E3 C3]].
  destruct (exponent_of s3) as [ex s4]; simpl in E3.
  intros [= _ <-].
  exists (p0 ++ ip ++ pd ++ pe). split.
  - rewrite E0, E1, E2, E3 at 1. rewrite <- !app_assoc. reflexivity.
  - rewrite !count_app. lia.
Qed.

Lemma match_nocase_app (t s r : str) :
  ~ In DOT t -> match_nocase t s = Some r ->
  exists p, s = p ++ r /\ count DOT p = 0%nat.
Proof.
  revert s; induction t as [|c t IH]; intros s N; simpl.
  - intros [= ->]. exists []; auto.
  - destruct s as [|d s]; [discriminate|].
    destruct (N.eqb_spec (c_tolower d) c) as [E|_]; [|discriminate].
    intros H. destruct (IH s) as [p [-> C]]; [simpl in N; tauto | exact H|].
    exists (d :: p). split; [reflexivity|].
    rewrite count_cons, C.
    destruct (N.eqb_spec DOT d) as [<-|_]; [|reflexivity].
    exfalso. apply N. left. rewrite <- E. reflexivity.
Qed.

Lemma parse_inf_or_nan_app (s r : str) (x : F64.float) :
  parse_inf_or_nan s = Some (x, r) ->
  exists p, s = p ++ r /\ count DOT p = 0%nat.
Proof.
  unfold parse_inf_or_nan.
  destruct (sign_of_app s) as [p0 [E0 C0]].
  destruct (sign_of s) as [neg s1]; simpl in E0.
  assert (Ni : ~ In DOT (U "inf")) by (vm_compute; intuition discriminate).
  assert (Ny : ~ In DOT (U "inity")) by (vm_compute; intuition discriminate).
  assert (Nn : ~ In DOT (U "nan")) by (vm_compute; intuition discriminate).
  destruct (match_nocase (U "inf") s1) as [r1|] eqn:M1.
  - destruct (match_nocase_app _ _ _ Ni M1) as [p1 [E1 C1]].
    destruct (match_nocase (U "inity") r1) as [r2|] eqn:M2.
    + destruct (match_nocase_app _ _ _ Ny M2) as [p2 [E2 C2]].
      intros [= _ <-]. exists (p0 ++ p1 ++ p2). split.
      * rewrite E0, E1, E2 at 1. rewrite <- !app_assoc. reflexivity.
      * rewrite !count_app. lia.
    + intros [= _ <-]. exists (p0 ++ p1). split.
      * rewrite E0, E1 at 1. rewrite <- !app_assoc. reflexivity.
      * rewrite !count_app. lia.
  - destruct (match_nocase (U "nan") s1) as [r1|] eqn:M2; [|discriminate].
    destruct (match_nocase_app _ _ _ Nn M2) as [p1 [E1 C1]].
    intros [= _ <-]. exists (p0 ++ p1). split.
    + rewrite E0, E1 at 1. rewrite <- !app_assoc. reflexivity.
    + rewrite !count_app. lia.
Qed.

(** A text that [float] accepts has at most one point. *)
Lemma float_of_str_dots (s : str) (x : F64.float) :
  float_of_str s = Ret x -> count DOT s <= 1.
Proof.
  unfold float_of_str.
  destruct (underscores_ok 0%N (c_strip (map to_ascii s))); [|discriminate].
  destruct (string_to_double _) as [[y [|c r]]|] eqn:E; try discriminate.
  intros _.
  assert (C : count DOT (drop_underscores (c_strip (map to_ascii s))) <= 1).
  { unfold string_to_double in E.
    destruct (strtod _) as [[y' r']|] eqn:S.
    - injection E as -> ->. apply strtod_app in S.
      destruct S as [p [-> C]]. rewrite app_nil_r. exact C.
    - apply parse_inf_or_nan_app in E.
      destruct E as [p [-> C]]. rewrite app_nil_r, C. lia. }
  unfold drop_underscores in C.
  rewrite count_filter, count_c_strip, count_map in C
    by (reflexivity || apply to_ascii_dot).
  exact C.
Qed.

(** [float] fails with [ValueError] only. *)
Lemma float_of_str_error (s : str) (e : error) :
  float_of_str s = Raise e -> e = ValueError.
Proof.
  unfold float_of_str.
  destruct (underscores_ok _ _); [|congruence].
  destruct (string_to_double _) as [[y [|c r]]|]; congruence.
Qed.

(** *** [para_numero] *)

(** [para_numero] on a cleaned text: the float, or null for a text that
    [float] rejects. *)
Lemma para_numero_limpo (val : cell) (v : str) :
  limpar val = Some v ->
  para_numero val
  = Ret (match float_of_str (replace COMMA DOT v) with
         | Ret x => Some x
         | Raise _ => None
         end).
Proof.
  intros E. unfold para_numero. rewrite E.
  destruct (float_of_str _) as [x|e] eqn:F; [reflexivity|].
  apply float_of_str_error in F. subst e. reflexivity.
Qed.

Lemma para_numero_nulo (val : cell) :
  limpar val = None -> para_numero val = Ret None.
Proof. intros E. unfold para_numero. rewrite E. reflexivity. Qed.

Lemma para_numero_total (val : cell) : exists r, para_numero val = Ret r.
Proof.
  destruct (limpar val) as [v|] eqn:E.
  - rewrite (para_numero_limpo _ _ E). eexists; reflexivity.
  - rewrite (para_numero_nulo _ E). eexists; reflexivity.
Qed.

Lemma para_numero_virgulas (s : str) :
  2 <= count COMMA s -> para_numero (Some s) = Ret None.
Proof.
  intros H. destruct (limpar (Some s)) as [v|] eqn:E.
  - rewrite (para_numero_limpo _ _ E).
    destruct (float_of_str _) as [x|e] eqn:F; [|reflexivity].
    apply float_of_str_dots in F. exfalso.
    rewrite count_replace_new in F by discriminate.
    rewrite LimparFacts.limpar_Some in E; cbv zeta in E.
    destruct (str_in _ _); [discriminate|]. injection E as <-.
    rewrite count_replace_other, count_strip in F
      by (reflexivity || discriminate).
    lia.
  - apply para_numero_nulo. exact E.
Qed.

(** *** Commas and points are read alike *)

Lemma lstrip_map (f : char -> char) (s : str) :
  (forall c, isspace (f c) = isspace c) ->
  lstrip (map f s) = map f (lstrip s).
Proof.
  intros H. induction s as [|c s IH]; [reflexivity|]. simpl.
  rewrite H. destruct (isspace c); [exact IH | reflexivity].
Qed.

Lemma strip_map (f : char -> char) (s : str) :
  (forall c, isspace (f c) = isspace c) ->
  strip (map f s) = map f (strip s).
Proof.
  intros H. unfold strip, rstrip.
  rewrite lstrip_map, <- map_rev, lstrip_map, map_rev by exact H.
  reflexivity.
Qed.

Lemma replace_espaco (a b : char) (c : char) :
  isspace a = false -> isspace b = false ->
  isspace (if (c =? a)%N then b else c) = isspace c.
Proof.
  intros A B. destruct (N.eqb_spec c a) as [->|_]; congruence.
Qed.

Lemma replace_idem (a b : char) (s : str) :
  a <> b -> replace a b (replace a b s) = replace a b s.
Proof.
  intros N. unfold replace. rewrite map_map. apply map_ext. intros c.
  destruct (N.eqb_spec c a) as [->|M].
  - destruct (N.eqb_spec b a); [congruence | reflexivity].
  - destruct (N.eqb_spec c a); [contradiction | reflexivity].
Qed.

Lemma limpo_virgula_ponto (s : str) :
  replace LF SP (strip (replace COMMA DOT s))
  = replace COMMA DOT (replace LF SP (strip s)).
Proof.
  unfold replace at 2. rewrite strip_map
    by (intros c; apply replace_espaco; reflexivity).
  unfold replace. rewrite !map_map. apply map_ext. intros c.
  destruct (N.eqb_spec c COMMA) as [->|N1]; [reflexivity|].
  destruct (N.eqb_spec c LF) as [->|N2]; [reflexivity|].
  destruct (N.eqb_spec c COMMA); [contradiction | reflexivity].
Qed.

(** No token has a comma, and no token is a number. *)
Lemma tokens_vazios_sem_numero (t : str) :
  str_in t TOKENS_VAZIOS = true ->
  replace COMMA DOT t = t /\ float_of_str t = Raise ValueError.
Proof.
  intros H. apply LimparFacts.str_in_In in H. unfold TOKENS_VAZIOS in H.
  repeat (destruct H as [<-|H]; [split; reflexivity|]). destruct H.
Qed.

Lemma para_numero_virgula_ponto (s : str) :
  para_numero (Some (replace COMMA DOT s)) = para_numero (Some s).
Proof.
  unfold para_numero. rewrite !LimparFacts.limpar_Some; cbv zeta.
  rewrite limpo_virgula_ponto.
  set (v := replace LF SP (strip s)).
  destruct (str_in v TOKENS_VAZIOS) eqn:E1.
  - destruct (tokens_vazios_sem_numero v E1) as [-> _]. rewrite E1.
    reflexivity.
  - destruct (str_in (replace COMMA DOT v) TOKENS_VAZIOS) eqn:E2.
    + destruct (tokens_vazios_sem_numero _ E2) as [_ ->]. reflexivity.
    + rewrite replace_idem by discriminate. reflexivity.
Qed.

End FloatFacts.

(* ====================================================================== *)
(** * Records and the row to record mapper *)
(* ====================================================================== *)

Module ParsearFacts.
Import Py Pbev Aux PyFacts.

Lemma str_eqb_spec (s t : str) : reflect (s = t) (str_eqb s t).
Proof.
  destruct (str_eqb s t) eqn:E; constructor.
  - apply str_eqb_eq; exact E.
  - apply str_eqb_neq; exact E.
Qed.

(** *** [dict] *)

Lemma dict_get_set (k k' : str) (v : valor) (d : registro) :
  dict_get k (dict_set k' v d)
  = if str_eqb k k' then Some v else dict_get k d.
Proof.
  induction d as [|[k'' v''] d IH]; simpl.
  - reflexivity.
  - destruct (str_eqb_spec k' k'') as [<-|N]; simpl.
    + destruct (str_eqb k k'); reflexivity.
    + rewrite IH. destruct (str_eqb_spec k k'') as [<-|M]; [|reflexivity].
      destruct (str_eqb_spec k k'); [congruence | reflexivity].
Qed.

Lemma dict_has_set (k k' : str) (v : valor) (d : registro) :
  dict_has k (dict_set k' v d) = str_eqb k k' || dict_has k d.
Proof.
  unfold dict_has. rewrite dict_get_set. destruct (str_eqb k k'); reflexivity.
Qed.

(** *** Padding *)

Lemma n_colunas_esperadas_28 : n_colunas_esperadas = 28.
Proof. reflexivity. Qed.

Lemma completar_repeat (k : nat) (row : linha) :
  completar k row = row ++ repeat None k.
Proof.
  revert row; induction k as [|k IH]; intros row; simpl.
  - rewrite app_nil_r; reflexivity.
  - rewrite IH, <- app_assoc. reflexivity.
Qed.

Lemma normalizar_repeat (row : linha) :
  normalizar row = row ++ repeat None (28 - List.length row).
Proof. unfold normalizar. rewrite completar_repeat. reflexivity. Qed.

Lemma normalizar_length (row : linha) :
  List.length (normalizar row) = Nat.max 28 (List.length row).
Proof. rewrite normalizar_repeat, length_app, repeat_length. lia. Qed.

(** Within the schema, [row[idx]] on the padded row is the cell of the raw
    row, or [None] beyond its end: no [IndexError]. *)
Lemma item_normalizar (row : linha) (idx : nat) :
  idx < 28 -> item (normalizar row) idx = Ret (nth idx row None).
Proof.
  intros L. unfold item. rewrite normalizar_repeat.
  destruct (Nat.lt_ge_cases idx (List.length row)) as [I|I].
  - rewrite nth_error_app1 by exact I.
    rewrite (nth_error_nth' row None I). reflexivity.
  - rewrite nth_error_app2 by exact I.
    rewrite (nth_overflow row None I).
    rewrite nth_error_repeat by lia. reflexivity.
Qed.

Lemma campo_normalizar (row : linha) (idx : nat) :
  idx < 28 ->
  campo (normalizar row) idx = Ret (valor_do_campo idx (nth idx row None)).
Proof.
  intros L. unfold campo, valor_do_campo. rewrite (item_normalizar row idx L).
  cbn [bind]. destruct (existsb _ _); [|reflexivity].
  destruct (FloatFacts.para_numero_total (nth idx row None)) as [x ->].
  reflexivity.
Qed.

Lemma preencher_normalizar (cols : list (nat * str)) (row : linha)
      (reg : registro) :
  Forall (fun p => fst p < 28) cols ->
  preencher cols (normalizar row) reg
  = Ret (fold_left
           (fun reg p =>
              dict_set (snd p) (valor_do_campo (fst p) (nth (fst p) row None))
                       reg)
           cols reg).
Proof.
  intros F. revert reg. induction F as [|[idx nome] cols L F IH]; intros reg.
  - reflexivity.
  - simpl in L. cbn [preencher fold_left fst snd].
    rewrite (campo_normalizar row idx L). cbn [bind]. apply IH.
Qed.

Lemma colunas_no_esquema : Forall (fun p => fst p < 28) COLUNAS_PDF.
Proof. unfold COLUNAS_PDF. repeat constructor. Qed.

(** The names of the schema are distinct, so each assignment adds a key:
    the record lists the columns in the order of the schema. *)
Lemma preencher_registro (row : linha) :
  preencher COLUNAS_PDF (normalizar row) [] = Ret (registro_de row).
Proof.
  rewrite preencher_normalizar by apply colunas_no_esquema.
  reflexivity.
Qed.

End ParsearFacts.

(* ====================================================================== *)
(** * Records of [parsear] and derived columns *)
(* ====================================================================== *)

Module RegistroFacts.
Import Py Pbev Aux PyFacts ParsearFacts.

Lemma marca_do_registro (row : linha) :
  dict_get (coluna 1) (registro_de row) = Some (de_celula (marca_limpa row)).
Proof. reflexivity. Qed.

Lemma parsear_linha_registro (row : linha) :
  parsear_linha row
  = Ret (match marca_limpa row with
         | Some _ => Some (registro_de row)
         | None => None
         end).
Proof.
  unfold parsear_linha. rewrite preencher_registro. cbn [bind].
  rewrite marca_do_registro.
  destruct (marca_limpa row) as [[|c v]|] eqn:E; try reflexivity.
  exfalso. exact (LimparFacts.limpar_not_nil _ E).
Qed.

Lemma parsear_desde_registros (linhas : list linha) (acc : list registro) :
  parsear_desde acc linhas = Ret (acc ++ registros_de linhas).
Proof.
  revert acc; induction linhas as [|row linhas IH]; intros acc; simpl.
  - rewrite app_nil_r; reflexivity.
  - rewrite parsear_linha_registro. cbn [bind].
    destruct (marca_limpa row); rewrite IH; [|reflexivity].
    rewrite <- app_assoc. reflexivity.
Qed.

(** [parsear] never raises: it returns the records of the rows that have
    a brand, in order. *)
Lemma parsear_registros (linhas : list linha) :
  parsear linhas = Ret (registros_de linhas).
Proof. apply parsear_desde_registros. Qed.

Lemma registro_de_presentes (row : linha) :
  colunas_presentes (registro_de row) = true.
Proof. reflexivity. Qed.

Lemma In_registros_de (linhas : list linha) (reg : registro) :
  In reg (registros_de linhas) <->
  exists row, In row linhas /\ marca_limpa row <> None
              /\ reg = registro_de row.
Proof.
  unfold registros_de. rewrite in_flat_map. split.
  - intros [row [I H]]. exists row. destruct (marca_limpa row); simpl in H.
    + destruct H as [<-|[]]. repeat split; [exact I | discriminate].
    + contradiction.
  - intros [row [I [N ->]]]. exists row. split; [exact I|].
    destruct (marca_limpa row); [left; reflexivity | congruence].
Qed.

Lemma registro_tem_marca (row : linha) :
  marca_limpa row <> None -> tem_marca (registro_de row) = true.
Proof.
  intros N. unfold tem_marca. rewrite marca_do_registro.
  destruct (marca_limpa row) as [[|c v]|] eqn:E; [|reflexivity|congruence].
  exfalso. exact (LimparFacts.limpar_not_nil _ E).
Qed.

(** *** Numeric columns *)

Lemma to_numeric_idem (v : valor) : to_numeric (to_numeric v) = to_numeric v.
Proof. destruct v; reflexivity. Qed.

Lemma to_numeric_numero (v : valor) : to_numeric v = VNum (numero v).
Proof. destruct v; reflexivity. Qed.

Lemma dict_get_passo (k : str) (r : registro) (idx : nat) :
  dict_get k (passo_numerico r idx)
  = if str_eqb k (coluna idx) then option_map to_numeric (dict_get k r)
    else dict_get k r.
Proof.
  unfold passo_numerico; cbv zeta.
  destruct (str_eqb_spec k (coluna idx)) as [->|N].
  - destruct (dict_get (coluna idx) r) as [v|] eqn:E; [|rewrite E; reflexivity].
    rewrite dict_get_set, str_eqb_refl. reflexivity.
  - destruct (dict_get (coluna idx) r) as [v|]; [|reflexivity].
    rewrite dict_get_set.
    destruct (str_eqb_spec k (coluna idx)); [contradiction | reflexivity].
Qed.

Lemma dict_get_passos (k : str) (l : list nat) (r : registro) :
  dict_get k (fold_left passo_numerico l r)
  = if existsb (fun idx => str_eqb k (coluna idx)) l
    then option_map to_numeric (dict_get k r)
    else dict_get k r.
Proof.
  revert r; induction l as [|idx l IH]; intros r; [reflexivity|].
  cbn [fold_left existsb]. rewrite IH, dict_get_passo.
  destruct (str_eqb k (coluna idx)); cbn [orb].
  - destruct (dict_get k r) as [v|]; cbn [option_map];
      rewrite ?to_numeric_idem; destruct (existsb _ l); reflexivity.
  - reflexivity.
Qed.

(** After step 4 a numeric column holds floats, and any other column is
    as [parsear] left it. *)
Lemma dict_get_tipos_numericos (k : str) (r : registro) :
  dict_get k (tipos_numericos r)
  = if existsb (fun idx => str_eqb k (coluna idx)) COLUNAS_NUMERICAS
    then option_map to_numeric (dict_get k r)
    else dict_get k r.
Proof. apply dict_get_passos. Qed.

Lemma dict_has_tipos_numericos (k : str) (r : registro) :
  dict_has k (tipos_numericos r) = dict_has k r.
Proof.
  unfold dict_has. rewrite dict_get_tipos_numericos.
  destruct (existsb _ _); [|reflexivity].
  destruct (dict_get k r); reflexivity.
Qed.

Lemma tipos_numericos_presentes (r : registro) :
  colunas_presentes (tipos_numericos r) = colunas_presentes r.
Proof.
  unfold colunas_presentes.
  generalize COLUNAS_PDF as cols. induction cols as [|p cols IH]; simpl.
  - reflexivity.
  - rewrite IH, dict_has_tipos_numericos. reflexivity.
Qed.

(** *** Frames *)

Lemma mapM_total {A B} (g : A -> exc B) (g' : A -> B) (l : list A) :
  (forall x, In x l -> g x = Ret (g' x)) -> mapM g l = Ret (map g' l).
Proof.
  induction l as [|x l IH]; intros H; [reflexivity|].
  cbn [mapM map]. rewrite (H x (or_introl eq_refl)). cbn [bind].
  rewrite IH by (intros y I; apply H; right; exact I). reflexivity.
Qed.

Lemma mapM_Ret {A B} (g : A -> exc B) (g' : A -> B) (l : list A)
      (ys : list B) :
  (forall x y, g x = Ret y -> y = g' x) ->
  mapM g l = Ret ys ->
  ys = map g' l /\ forall x, In x l -> g x = Ret (g' x).
Proof.
  intros T. revert ys. induction l as [|x l IH]; intros ys E.
  - injection E as <-. split; [reflexivity | intros x []].
  - cbn [mapM] in E. destruct (g x) as [y|e] eqn:G; [|discriminate E].
    cbn [bind] in E. destruct (mapM g l) as [ys'|e]; [|discriminate E].
    injection E as <-. destruct (IH _ eq_refl) as [-> H].
    pose proof (T _ _ G) as Y. subst y. split; [reflexivity|].
    intros z [<-|I]; [exact G | exact (H z I)].
Qed.

Lemma mapM_length {A B} (g : A -> exc B) (l : list A) (ys : list B) :
  mapM g l = Ret ys -> List.length ys = List.length l.
Proof.
  revert ys. induction l as [|x l IH]; intros ys E.
  - injection E as <-. reflexivity.
  - cbn [mapM] in E. destruct (g x) as [y|e]; [|discriminate E].
    cbn [bind] in E. destruct (mapM g l) as [ys'|e]; [|discriminate E].
    injection E as <-. cbn [List.length]. rewrite (IH _ eq_refl).
    reflexivity.
Qed.

Lemma mapM_faixa_co2 (l : list valor) :
  mapM faixa_co2 l
  = (xs <- mapM numero_de_corte l ;;
     Ret (map (fun x => de_celula (cut bins labels x)) xs)).
Proof.
  induction l as [|v l IH]; [reflexivity|].
  cbn [mapM]. unfold faixa_co2 at 1.
  destruct (numero_de_corte v) as [x|e]; [|reflexivity]. cbn [bind].
  rewrite IH. destruct (mapM numero_de_corte l); reflexivity.
Qed.

Lemma combine_map {A B C} (f : A -> B) (g : A -> C) (l : list A) :
  combine (map f l) (map g l) = map (fun x => (f x, g x)) l.
Proof.
  induction l as [|x l IH]; [reflexivity|]. cbn [map combine].
  rewrite IH. reflexivity.
Qed.

(** A frame as the rows [F x] for the [x] of a list: reading and
    assigning a column. *)
Lemma df_get_map {X} (F : X -> registro) (G : X -> valor) (k : str)
      (L : list X) :
  L <> [] ->
  (forall x, In x L -> dict_get k (F x) = Some (G x)) ->
  df_get (map F L) k = Ret (map G L).
Proof.
  intros N H.
  assert (M : mapM (fun r => df_col r k) (map F L) = Ret (map G L)).
  { clear N. induction L as [|x L IH]; [reflexivity|].
    cbn [map mapM]. unfold df_col at 1.
    rewrite (H x (or_introl eq_refl)). cbn [bind].
    rewrite IH by (intros y I; apply H; right; exact I). reflexivity. }
  destruct L as [|x0 L0]; [congruence | exact M].
Qed.

Lemma df_set_map {X} (F : X -> registro) (G : X -> valor) (k : str)
      (L : list X) :
  df_set k (map G L) (map F L) = map (fun x => dict_set k (G x) (F x)) L.
Proof.
  induction L as [|x L IH]; [reflexivity|]. cbn [map df_set].
  rewrite IH. reflexivity.
Qed.

Lemma df_has_map {X} (F : X -> registro) (k : str) (L : list X) :
  L <> [] ->
  (forall x, In x L -> dict_has k (F x) = true) ->
  df_has (map F L) k = true.
Proof.
  intros N H.
  assert (M : forallb (dict_has k) (map F L) = true).
  { apply forallb_forall. intros r I. apply in_map_iff in I.
    destruct I as [x [<- I]]. exact (H x I). }
  destruct L as [|x0 L0]; [congruence | exact M].
Qed.

(** *** The lambdas and their total forms *)

Lemma transmissao_velocidades_Ret (v : valor) (x : option N) :
  transmissao_velocidades v = Ret x -> x = velocidade v.
Proof.
  unfold transmissao_velocidades, velocidade, int_de_digitos.
  destruct v as [|s|y|n|b]; try (intros [= <-]; reflexivity).
  destruct (re_search_digitos s) as [ds|]; [|intros [= <-]; reflexivity].
  destruct (_ <=? _)%nat; [|discriminate]. intros [= <-]. reflexivity.
Qed.

Lemma float_da_celula_Ret (v : valor) (x : F64.float) :
  float_da_celula v = Ret x -> x = flutuante v.
Proof.
  unfold float_da_celula, float_de_int, flutuante.
  destruct v as [|s|y|n|b]; try discriminate;
    try (intros [= <-]; reflexivity).
  destruct (_ <? _)%Z; [|discriminate]. intros [= <-]. reflexivity.
Qed.

Lemma numero_de_corte_Ret (v : valor) (x : F64.float) :
  numero_de_corte v = Ret x -> x = flutuante v.
Proof.
  destruct v as [|s|y|n|b]; try discriminate; intros [= <-]; reflexivity.
Qed.

(** *** Derived columns *)

Lemma presentes_get (r : registro) (i : nat) :
  colunas_presentes r = true -> i < 28 ->
  dict_get (coluna i) r = Some (valor_de r (coluna i)).
Proof.
  intros P L. unfold colunas_presentes in P. rewrite forallb_forall in P.
  assert (I : In (i, coluna i) COLUNAS_PDF).
  { do 28 (destruct i as [|i]; [vm_compute; auto 40|]). lia. }
  specialize (P _ I). cbn [snd] in P. unfold dict_has in P. unfold valor_de.
  destruct (dict_get (coluna i) r); [reflexivity | discriminate].
Qed.

Lemma presentes_has (r : registro) (i : nat) :
  colunas_presentes r = true -> i < 28 -> dict_has (coluna i) r = true.
Proof.
  intros P L. unfold dict_has. rewrite (presentes_get r i P L). reflexivity.
Qed.

(** Read a column through the assignments made before. *)
Ltac ler_coluna P :=
  intros; rewrite ?dict_get_set; eval_keys; cbv iota;
  first [ reflexivity
        | apply presentes_get; [apply P; assumption | lia] ].

Ltac tem_coluna P :=
  intros; rewrite ?dict_has_set; eval_keys; cbn [orb];
  first [ reflexivity
        | apply presentes_has; [apply P; assumption | lia] ].

(** [pos_processar] on a frame with the columns of the schema: the
    calls that may raise, in the order of the function, and the rows that
    it returns. *)
Lemma pos_processar_map {X} (F : X -> registro) (L : list X) :
  L <> [] ->
  (forall x, In x L -> colunas_presentes (F x) = true) ->
  pos_processar (map F L)
  = (xs <- mapM transmissao_velocidades
             (map (fun x => valor_de (F x) (coluna 6)) L) ;;
     t <- inferir false false xs ;;
     _ <- mapM float_da_celula (map (fun x => valor_de (F x) (coluna 19)) L) ;;
     _ <- mapM float_da_celula (map (fun x => valor_de (F x) (coluna 20)) L) ;;
     _ <- mapM float_da_celula (map (fun x => valor_de (F x) (coluna 17)) L) ;;
     _ <- mapM float_da_celula (map (fun x => valor_de (F x) (coluna 18)) L) ;;
     _ <- mapM float_da_celula (map (fun x => valor_de (F x) (coluna 21)) L) ;;
     _ <- mapM float_da_celula (map (fun x => valor_de (F x) (coluna 22)) L) ;;
     _ <- mapM numero_de_corte (map (fun x => valor_de (F x) (coluna 15)) L) ;;
     Ret (map (fun x => derivado_em t (F x)) L)).
Proof.
  intros N P. unfold pos_processar; cbv zeta.
  (* propulsion *)
  rewrite (df_get_map F (fun x => valor_de (F x) (coluna 5)) _ L N)
    by ler_coluna P.
  cbn [bind]. rewrite map_map, df_set_map.
  (* transmission type *)
  rewrite (df_get_map _ (fun x => valor_de (F x) (coluna 6)) _ L N)
    by ler_coluna P.
  cbn [bind]. rewrite map_map, df_set_map.
  (* number of gears *)
  rewrite (df_get_map _ (fun x => valor_de (F x) (coluna 6)) _ L N)
    by ler_coluna P.
  cbn [bind]. unfold apply_velocidades, maybe_convert_objects.
  destruct (mapM transmissao_velocidades _) as [xs|e] eqn:E;
    cbn [bind]; [|reflexivity].
  apply (mapM_Ret _ velocidade _ _ transmissao_velocidades_Ret) in E.
  destruct E as [-> _].
  destruct (inferir false false _) as [t|e]; cbn [bind]; [|reflexivity].
  rewrite !map_map, df_set_map.
  (* fuel *)
  rewrite (df_get_map _ (fun x => valor_de (F x) (coluna 9)) _ L N)
    by ler_coluna P.
  cbn [bind]. rewrite map_map, df_set_map.
  (* combined consumption *)
  unfold pares. cbn [combinar_pares].
  unfold combinar at 1.
  rewrite (df_has_map _ (coluna 19) L N) by tem_coluna P.
  rewrite (df_has_map _ (coluna 20) L N) by tem_coluna P.
  cbn [andb].
  rewrite (df_get_map _ (fun x => valor_de (F x) (coluna 19)) _ L N)
    by ler_coluna P.
  cbn [bind].
  destruct (mapM float_da_celula
              (map (fun x => valor_de (F x) (coluna 19)) L))
    as [cs|e] eqn:E; cbn [bind]; [|reflexivity].
  apply (mapM_Ret _ flutuante _ _ float_da_celula_Ret) in E.
  destruct E as [-> _].
  rewrite (df_get_map _ (fun x => valor_de (F x) (coluna 20)) _ L N)
    by ler_coluna P.
  cbn [bind].
  destruct (mapM float_da_celula
              (map (fun x => valor_de (F x) (coluna 20)) L))
    as [es|e] eqn:E; cbn [bind]; [|reflexivity].
  apply (mapM_Ret _ flutuante _ _ float_da_celula_Ret) in E.
  destruct E as [-> _].
  rewrite !map_map, combine_map, map_map, df_set_map. cbn [fst snd].
  unfold combinar at 1.
  rewrite (df_has_map _ (coluna 17) L N) by tem_coluna P.
  rewrite (df_has_map _ (coluna 18) L N) by tem_coluna P.
  cbn [andb].
  rewrite (df_get_map _ (fun x => valor_de (F x) (coluna 17)) _ L N)
    by ler_coluna P.
  cbn [bind].
  destruct (mapM float_da_celula
              (map (fun x => valor_de (F x) (coluna 17)) L))
    as [cs|e] eqn:E; cbn [bind]; [|reflexivity].
  apply (mapM_Ret _ flutuante _ _ float_da_celula_Ret) in E.
  destruct E as [-> _].
  rewrite (df_get_map _ (fun x => valor_de (F x) (coluna 18)) _ L N)
    by ler_coluna P.
  cbn [bind].
  destruct (mapM float_da_celula
              (map (fun x => valor_de (F x) (coluna 18)) L))
    as [es|e] eqn:E; cbn [bind]; [|reflexivity].
  apply (mapM_Ret _ flutuante _ _ float_da_celula_Ret) in E.
  destruct E as [-> _].
  rewrite !map_map, combine_map, map_map, df_set_map. cbn [fst snd].
  unfold combinar at 1.
  rewrite (df_has_map _ (coluna 21) L N) by tem_coluna P.
  rewrite (df_has_map _ (coluna 22) L N) by tem_coluna P.
  cbn [andb].
  rewrite (df_get_map _ (fun x => valor_de (F x) (coluna 21)) _ L N)
    by ler_coluna P.
  cbn [bind].
  destruct (mapM float_da_celula
              (map (fun x => valor_de (F x) (coluna 21)) L))
    as [cs|e] eqn:E; cbn [bind]; [|reflexivity].
  apply (mapM_Ret _ flutuante _ _ float_da_celula_Ret) in E.
  destruct E as [-> _].
  rewrite (df_get_map _ (fun x => valor_de (F x) (coluna 22)) _ L N)
    by ler_coluna P.
  cbn [bind].
  destruct (mapM float_da_celula
              (map (fun x => valor_de (F x) (coluna 22)) L))
    as [es|e] eqn:E; cbn [bind]; [|reflexivity].
  apply (mapM_Ret _ flutuante _ _ float_da_celula_Ret) in E.
  destruct E as [-> _].
  rewrite !map_map, combine_map, map_map, df_set_map. cbn [fst snd].
  (* CO2 bins *)
  rewrite (df_get_map _ (fun x => valor_de (F x) (coluna 15)) _ L N)
    by ler_coluna P.
  cbn [bind]. rewrite mapM_faixa_co2.
  destruct (mapM numero_de_corte
              (map (fun x => valor_de (F x) (coluna 15)) L))
    as [zs|e] eqn:E; cbn [bind]; [|reflexivity].
  apply (mapM_Ret _ flutuante _ _ numero_de_corte_Ret) in E.
  destruct E as [-> _].
  rewrite !map_map, df_set_map.
  (* flags *)
  rewrite (df_get_map _ (fun x => propulsao_padronizada
                                    (valor_de (F x) (coluna 5))) _ L N)
    by ler_coluna P.
  cbn [bind]. rewrite map_map, df_set_map.
  rewrite (df_get_map _ (fun x => propulsao_padronizada
                                    (valor_de (F x) (coluna 5))) _ L N)
    by ler_coluna P.
  cbn [bind]. rewrite map_map, df_set_map.
  (* seal *)
  rewrite (df_get_map _ (fun x => valor_de (F x) (coluna 27)) _ L N)
    by ler_coluna P.
  cbn [bind]. rewrite map_map, df_set_map.
  reflexivity.
Qed.

End RegistroFacts.

(* ====================================================================== *)
(** * The frame after [pos_processar], and the pipeline *)
(* ====================================================================== *)

Module PipelineFacts.
Import Py Pbev Aux PyFacts ParsearFacts RegistroFacts.

(** No step after [parsear] assigns the brand column. *)
Lemma marca_tipos_numericos (r : registro) :
  dict_get (coluna 1) (tipos_numericos r) = dict_get (coluna 1) r.
Proof. rewrite dict_get_tipos_numericos. reflexivity. Qed.

Lemma marca_derivado_em (t : tipo_coluna) (r : registro) :
  dict_get (coluna 1) (derivado_em t r) = dict_get (coluna 1) r.
Proof.
  unfold derivado_em; cbv zeta. rewrite !dict_get_set. eval_keys.
  reflexivity.
Qed.

Lemma marca_derivado (r : registro) :
  dict_get (coluna 1) (derivado r) = dict_get (coluna 1) r.
Proof. apply marca_derivado_em. Qed.

Lemma tem_marca_etapas (t : tipo_coluna) (r : registro) :
  tem_marca (derivado_em t (tipos_numericos r)) = tem_marca r.
Proof.
  unfold tem_marca. rewrite marca_derivado_em, marca_tipos_numericos.
  reflexivity.
Qed.

(** The frame without rows has no column. *)
Lemma pos_processar_nil : pos_processar [] = Raise KeyError.
Proof. reflexivity. Qed.

Lemma pos_processar_passos (df : list registro) :
  df <> [] ->
  Forall (fun r => colunas_presentes r = true) df ->
  pos_processar df
  = (t <- tipo_velocidades df ;;
     _ <- mapM float_da_celula (map (fun r => valor_de r (coluna 19)) df) ;;
     _ <- mapM float_da_celula (map (fun r => valor_de r (coluna 20)) df) ;;
     _ <- mapM float_da_celula (map (fun r => valor_de r (coluna 17)) df) ;;
     _ <- mapM float_da_celula (map (fun r => valor_de r (coluna 18)) df) ;;
     _ <- mapM float_da_celula (map (fun r => valor_de r (coluna 21)) df) ;;
     _ <- mapM float_da_celula (map (fun r => valor_de r (coluna 22)) df) ;;
     _ <- mapM numero_de_corte (map (fun r => valor_de r (coluna 15)) df) ;;
     Ret (map (derivado_em t) df)).
Proof.
  intros N P.
  assert (P' : forall x, In x df -> colunas_presentes x = true)
    by (apply Forall_forall; exact P).
  pose proof (pos_processar_map (fun r => r) df N P') as H.
  rewrite map_id in H. rewrite H. unfold tipo_velocidades.
  destruct (mapM transmissao_velocidades _); reflexivity.
Qed.

(** The numeric columns that [pos_processar] reads can be computed
    with. *)
Lemma validas_float (df : list registro) (i : nat) :
  forallb numericas_validas df = true ->
  In i [19; 20; 17; 18; 21; 22] ->
  mapM float_da_celula (map (fun r => valor_de r (coluna i)) df)
  = Ret (map flutuante (map (fun r => valor_de r (coluna i)) df)).
Proof.
  intros V I. apply mapM_total. intros v J. apply in_map_iff in J.
  destruct J as [r [<- J]]. rewrite forallb_forall in V.
  specialize (V r J). unfold numericas_validas in V.
  apply andb_true_iff in V. destruct V as [V _].
  rewrite forallb_forall in V. specialize (V i I).
  destruct (float_da_celula (valor_de r (coluna i))) as [x|e] eqn:E;
    [|discriminate V].
  rewrite (float_da_celula_Ret _ _ E). reflexivity.
Qed.

Lemma validas_corte (df : list registro) :
  forallb numericas_validas df = true ->
  mapM numero_de_corte (map (fun r => valor_de r (coluna 15)) df)
  = Ret (map flutuante (map (fun r => valor_de r (coluna 15)) df)).
Proof.
  intros V. apply mapM_total. intros v J. apply in_map_iff in J.
  destruct J as [r [<- J]]. rewrite forallb_forall in V.
  specialize (V r J). unfold numericas_validas in V.
  apply andb_true_iff in V. destruct V as [_ V].
  destruct (numero_de_corte (valor_de r (coluna 15))) as [x|e] eqn:E;
    [|discriminate V].
  rewrite (numero_de_corte_Ret _ _ E). reflexivity.
Qed.

(** [pos_processar] returns when the lambda of the number of gears
    returns for every row, its column can be typed and the numeric columns
    hold numbers. *)
Lemma pos_processar_retorna (df : list registro) (t : tipo_coluna) :
  df <> [] ->
  Forall (fun r => colunas_presentes r = true) df ->
  tipo_velocidades df = Ret t ->
  forallb numericas_validas df = true ->
  pos_processar df = Ret (map (derivado_em t) df).
Proof.
  intros N P T V. rewrite (pos_processar_passos df N P), T. cbn [bind].
  rewrite !(validas_float df _ V) by (cbn [In]; tauto).
  rewrite (validas_corte df V). reflexivity.
Qed.

Lemma mapM_validas {A} (g : valor -> exc A) (df : list registro) (i : nat)
      (ys : list A) :
  mapM g (map (fun r => valor_de r (coluna i)) df) = Ret ys ->
  forall r, In r df -> retorna (g (valor_de r (coluna i))) = true.
Proof.
  revert ys. induction df as [|r0 df IH]; intros ys E r I; [destruct I|].
  cbn [map mapM] in E.
  destruct (g (valor_de r0 (coluna i))) as [y|e] eqn:G; [|discriminate E].
  cbn [bind] in E.
  destruct (mapM g (map (fun r => valor_de r (coluna i)) df)) as [ys'|e];
    [|discriminate E].
  destruct I as [<-|I]; [rewrite G; reflexivity | exact (IH _ eq_refl r I)].
Qed.

(** And only then. *)
Lemma pos_processar_Ret (df df' : list registro) :
  Forall (fun r => colunas_presentes r = true) df ->
  pos_processar df = Ret df' ->
  df <> []
  /\ exists t,
      tipo_velocidades df = Ret t
      /\ forallb numericas_validas df = true
      /\ df' = map (derivado_em t) df.
Proof.
  intros P E.
  assert (N : df <> []) by (intros ->; discriminate E).
  split; [exact N|].
  rewrite (pos_processar_passos df N P) in E.
  destruct (tipo_velocidades df) as [t|e]; [|discriminate E].
  cbn [bind] in E. exists t. split; [reflexivity|].
  destruct (mapM float_da_celula (map (fun r => valor_de r (coluna 19)) df))
    as [y19|e] eqn:E19; [|discriminate E]. cbn [bind] in E.
  destruct (mapM float_da_celula (map (fun r => valor_de r (coluna 20)) df))
    as [y20|e] eqn:E20; [|discriminate E]. cbn [bind] in E.
  destruct (mapM float_da_celula (map (fun r => valor_de r (coluna 17)) df))
    as [y17|e] eqn:E17; [|discriminate E]. cbn [bind] in E.
  destruct (mapM float_da_celula (map (fun r => valor_de r (coluna 18)) df))
    as [y18|e] eqn:E18; [|discriminate E]. cbn [bind] in E.
  destruct (mapM float_da_celula (map (fun r => valor_de r (coluna 21)) df))
    as [y21|e] eqn:E21; [|discriminate E]. cbn [bind] in E.
  destruct (mapM float_da_celula (map (fun r => valor_de r (coluna 22)) df))
    as [y22|e] eqn:E22; [|discriminate E]. cbn [bind] in E.
  destruct (mapM numero_de_corte (map (fun r => valor_de r (coluna 15)) df))
    as [y15|e] eqn:E15; [|discriminate E]. cbn [bind] in E.
  injection E as <-. split; [|reflexivity].
  apply forallb_forall. intros r I. unfold numericas_validas.
  cbn [forallb].
  rewrite (mapM_validas _ _ _ _ E19 r I), (mapM_validas _ _ _ _ E20 r I),
    (mapM_validas _ _ _ _ E17 r I), (mapM_validas _ _ _ _ E18 r I),
    (mapM_validas _ _ _ _ E21 r I), (mapM_validas _ _ _ _ E22 r I),
    (mapM_validas _ _ _ _ E15 r I).
  reflexivity.
Qed.

(** After step 4 the numeric columns hold floats, and the transmission
    column is as it was. *)
Lemma valor_tipos_numericos (r : registro) (i : nat) :
  valor_de (tipos_numericos r) (coluna i)
  = if existsb (fun idx => str_eqb (coluna i) (coluna idx)) COLUNAS_NUMERICAS
    then match dict_get (coluna i) r with
         | Some v => VNum (numero v)
         | None => VNone
         end
    else valor_de r (coluna i).
Proof.
  unfold valor_de. rewrite dict_get_tipos_numericos.
  destruct (existsb _ _); [|reflexivity].
  destruct (dict_get (coluna i) r) as [v|]; [|reflexivity].
  cbn [option_map]. rewrite to_numeric_numero. reflexivity.
Qed.

Lemma tipos_numericos_validas (r : registro) :
  colunas_presentes r = true ->
  numericas_validas (tipos_numericos r) = true.
Proof.
  intros P. unfold numericas_validas. cbn [forallb].
  rewrite !valor_tipos_numericos.
  rewrite !(presentes_get r _ P) by lia.
  reflexivity.
Qed.

Lemma tipo_velocidades_tipos_numericos (df : list registro) :
  tipo_velocidades (map tipos_numericos df) = tipo_velocidades df.
Proof.
  unfold tipo_velocidades. rewrite map_map.
  rewrite (map_ext (fun r => valor_de (tipos_numericos r) (coluna 6))
                   (fun r => valor_de r (coluna 6))); [reflexivity|].
  intros r. rewrite valor_tipos_numericos. reflexivity.
Qed.

Lemma presentes_tipos_numericos (df : list registro) :
  Forall (fun r => colunas_presentes r = true) df ->
  Forall (fun r => colunas_presentes r = true) (map tipos_numericos df).
Proof.
  intros P. apply Forall_forall. intros r I. apply in_map_iff in I.
  destruct I as [r0 [<- I]]. rewrite tipos_numericos_presentes.
  rewrite Forall_forall in P. exact (P r0 I).
Qed.

Lemma validas_tipos_numericos (df : list registro) :
  Forall (fun r => colunas_presentes r = true) df ->
  forallb numericas_validas (map tipos_numericos df) = true.
Proof.
  intros P. apply forallb_forall. intros r I. apply in_map_iff in I.
  destruct I as [r0 [<- I]]. apply tipos_numericos_validas.
  rewrite Forall_forall in P. exact (P r0 I).
Qed.

Lemma presentes_registros_de (linhas : list linha) :
  Forall (fun r => colunas_presentes r = true) (registros_de linhas).
Proof.
  apply Forall_forall. intros r I. apply In_registros_de in I.
  destruct I as [row [_ [_ ->]]]. apply registro_de_presentes.
Qed.

(** The frame of step 4, through [pos_processar]. *)
Lemma quadro_Ret (df0 df' : list registro) :
  Forall (fun r => colunas_presentes r = true) df0 ->
  pos_processar (map tipos_numericos df0) = Ret df' ->
  df0 <> []
  /\ exists t,
      tipo_velocidades df0 = Ret t
      /\ df' = map (derivado_em t) (map tipos_numericos df0).
Proof.
  intros P E.
  destruct (pos_processar_Ret _ _ (presentes_tipos_numericos df0 P) E)
    as [N [t [T [_ ->]]]].
  split; [intros ->; apply N; reflexivity|].
  exists t. rewrite tipo_velocidades_tipos_numericos in T.
  split; [exact T | reflexivity].
Qed.

Lemma quadro_retorna (df0 : list registro) (t : tipo_coluna) :
  df0 <> [] ->
  Forall (fun r => colunas_presentes r = true) df0 ->
  tipo_velocidades df0 = Ret t ->
  pos_processar (map tipos_numericos df0)
  = Ret (map (derivado_em t) (map tipos_numericos df0)).
Proof.
  intros N P T. apply pos_processar_retorna.
  - destruct df0; [congruence | discriminate].
  - apply presentes_tipos_numericos; exact P.
  - rewrite tipo_velocidades_tipos_numericos. exact T.
  - apply validas_tipos_numericos; exact P.
Qed.

Lemma In_inserir (x r : registro) (df : list registro) :
  In x (inserir r df) <-> x = r \/ In x df.
Proof.
  induction df as [|y df IH]; cbn [inserir].
  - simpl. intuition (subst; auto).
  - destruct (chave_compare (chave r) (chave y)); cbn [In]; rewrite ?IH;
      intuition (subst; auto).
Qed.

Lemma In_sort_values (x : registro) (df : list registro) :
  In x (sort_values df) <-> In x df.
Proof.
  induction df as [|r df IH]; [reflexivity|].
  unfold sort_values in *. cbn [fold_right]. rewrite In_inserir, IH.
  simpl. intuition (subst; auto).
Qed.

Lemma In_drop_duplicates_desde (x : registro) (vistos df : list registro) :
  In x (drop_duplicates_desde vistos df) -> In x df.
Proof.
  revert vistos; induction df as [|r df IH]; intros vistos; simpl; [tauto|].
  destruct (existsb _ vistos); simpl; intros H.
  - right. exact (IH _ H).
  - destruct H as [H|H]; [left; exact H | right; exact (IH _ H)].
Qed.

Lemma In_drop_duplicates (x : registro) (df : list registro) :
  In x (drop_duplicates df) -> In x df.
Proof. apply In_drop_duplicates_desde. Qed.

Lemma Forall2_map {A B} (R : A -> B -> Prop) (f : A -> B) (l : list A) :
  (forall x, In x l -> R x (f x)) -> Forall2 R l (map f l).
Proof.
  induction l as [|x l IH]; intros H; [constructor|].
  cbn [map]. constructor; [apply H; left; reflexivity|].
  apply IH. intros y I. apply H. right. exact I.
Qed.

Lemma Forall2_cabeca {A B} (R : A -> B -> Prop) (a : A) (b : B)
      (l : list A) (l' : list B) :
  Forall2 R (a :: l) (b :: l') -> R a b.
Proof. intros H. inversion H; assumption. Qed.

(** The float that [pos_processar] computes with, after step 4, is the
    float of the record, NaN for a null. *)
Lemma flutuante_tipos_numericos (r : registro) (i : nat) :
  colunas_presentes r = true -> i < 28 ->
  existsb (fun idx => str_eqb (coluna i) (coluna idx)) COLUNAS_NUMERICAS
  = true ->
  flutuante (valor_de (tipos_numericos r) (coluna i))
  = numero (valor_de r (coluna i)).
Proof.
  intros P L E. rewrite valor_tipos_numericos, E.
  rewrite (presentes_get r i P L). reflexivity.
Qed.

(** [main], step by step: the frame is built from the records of the rows
    with a brand. *)
Lemma main_vazio (pdf : list pagina) :
  registros_de (extrair pdf) = [] -> main pdf = Raise KeyError.
Proof.
  intros E. unfold main; cbv zeta. rewrite parsear_registros, E.
  reflexivity.
Qed.

Lemma main_Ret (pdf : list pagina) (tabela : list registro) :
  main pdf = Ret tabela ->
  registros_de (extrair pdf) <> []
  /\ exists t,
      tipo_velocidades (registros_de (extrair pdf)) = Ret t
      /\ pos_processar (map tipos_numericos (registros_de (extrair pdf)))
         = Ret (map (derivado_em t)
                    (map tipos_numericos (registros_de (extrair pdf))))
      /\ tabela
         = sort_values
             (drop_duplicates
                (map (derivado_em t)
                     (map tipos_numericos (registros_de (extrair pdf))))).
Proof.
  unfold main; cbv zeta. rewrite parsear_registros. cbn [bind].
  destruct (pos_processar _) as [df|e] eqn:E; [|discriminate].
  cbn [bind]. intros [= <-].
  destruct (quadro_Ret _ _ (presentes_registros_de _) E) as [N [t [T ->]]].
  split; [exact N|]. exists t. repeat split. exact T.
Qed.

Lemma main_retorna (pdf : list pagina) (t : tipo_coluna) :
  registros_de (extrair pdf) <> [] ->
  tipo_velocidades (registros_de (extrair pdf)) = Ret t ->
  main pdf
  = Ret (sort_values
           (drop_duplicates
              (map (derivado_em t)
                   (map tipos_numericos (registros_de (extrair pdf)))))).
Proof.
  intros N T. unfold main; cbv zeta. rewrite parsear_registros.
  cbn [bind].
  rewrite (quadro_retorna _ t N (presentes_registros_de _) T).
  reflexivity.
Qed.

End PipelineFacts.

(* ====================================================================== *)
(** * CO2 bins and combined consumption *)
(* ====================================================================== *)

Module DerivadosFacts.
Import Py Pbev Aux.

(** Two positive finite floats compare in opposite ways from the two
    sides. *)
Lemma compare_finitos (m1 m2 : positive) (e1 e2 : Z) :
  exists k,
    SFcompare (S754_finite false m1 e1) (S754_finite false m2 e2) = Some k
    /\ SFcompare (S754_finite false m2 e2) (S754_finite false m1 e1)
       = Some (CompOpp k).
Proof.
  unfold SFcompare. eexists. split; [reflexivity|]. f_equal.
  rewrite (Z.compare_antisym e1 e2).
  destruct (e1 ?= e2)%Z; simpl; try reflexivity.
  symmetry. apply (Pos.compare_cont_antisym m1 m2 Eq).
Qed.

(** The bins of the script are the specified ones, except that the last
    bin ends at 999. *)
Lemma cut_faixa_ate (x : F64.float) :
  cut bins labels x = Spec.faixa_ate (Some (F64.of_Z 999)) x.
Proof.
  destruct x as [s|s| |s m e]; try (destruct s; reflexivity); try reflexivity.
  destruct s; [reflexivity|].
  unfold cut, Spec.faixa_ate, bins, labels, searchsorted.
  cbn [map F64.is_nan andb orb].
  repeat match goal with
  | |- context [F64.of_Z ?z] =>
      let v := eval vm_compute in (F64.of_Z z) in
      change (F64.of_Z z) with v
  end.
  unfold F64.ltb, F64.leb, F64.eqb, SFltb, SFleb, SFeqb.
  change (SFcompare (S754_zero false) (S754_finite false m e)) with (Some Lt).
  change (SFcompare (S754_finite false m e) (S754_zero false)) with (Some Gt).
  repeat match goal with
  | |- context [SFcompare (S754_finite false ?mb ?eb) (S754_finite false m e)] =>
      let k := fresh "k" in
      let A := fresh "A" in
      let B := fresh "B" in
      destruct (compare_finitos mb m eb e) as [k [A B]];
      rewrite ?A, ?B; clear A B
  end.
  cbv iota.
  repeat match goal with
  | k : comparison |- _ => destruct k; try reflexivity
  end.
Qed.

(** Up to 999 the script follows the specification. *)
Lemma cut_faixa (x : F64.float) :
  F64.leb x (F64.of_Z 999) = true -> cut bins labels x = Spec.faixa x.
Proof.
  intros H. rewrite cut_faixa_ate. unfold Spec.faixa, Spec.faixa_ate.
  rewrite H. reflexivity.
Qed.

(** A null input makes the combined consumption null. *)
Lemma consumo_combinado_nan_l (est : F64.float) :
  consumo_combinado F64.nan est = F64.nan.
Proof. destruct est; reflexivity. Qed.

Lemma consumo_combinado_nan_r (cid : F64.float) :
  consumo_combinado cid F64.nan = F64.nan.
Proof.
  unfold consumo_combinado.
  replace (F64.mul c_0_45 F64.nan) with F64.nan by reflexivity.
  replace (F64.add (F64.mul c_0_55 cid) F64.nan) with F64.nan
    by (destruct (F64.mul c_0_55 cid); reflexivity).
  reflexivity.
Qed.

Lemma is_nan_eq (x : F64.float) : F64.is_nan x = true -> x = F64.nan.
Proof. destruct x; try discriminate; reflexivity. Qed.

End DerivadosFacts.

(* ====================================================================== *)
(** * Properties of the specification *)
(* ====================================================================== *)

Import Py Pbev Aux.

(** C1. A row of a table of the document is kept by [extrair] exactly when
    it has at least 25 cells, is not a header for [eh_cabecalho] and is a
    vehicle row for [eh_veiculo].  A row whose non-null cells, joined by
    blanks and lowered, contain "categoria" is a header and is never kept,
    whatever its first cell. *)
Theorem C1_extrair_keeps :
  (forall (pdf : list pagina) (row : linha),
      In row (extrair pdf) <->
      (exists page table, In page pdf /\ In table page /\ In row table)
      /\ 25 <= List.length row
      /\ eh_cabecalho row = false
      /\ eh_veiculo row = true)
  /\ (forall row : linha,
         contains (U "categoria") (Spec.texto_nao_nulo row) = true ->
         contains (U "categoria") (texto_da_linha row) = true
         /\ eh_cabecalho row = true
         /\ forall pdf, ~ In row (extrair pdf)).
Proof.
  split.
  - intros pdf row.
    rewrite ExtracaoFacts.extrair_filter, filter_In,
      ExtracaoFacts.In_concat2, ExtracaoFacts.linha_aceita_iff.
    tauto.
  - intros row H.
    assert (T : contains (U "categoria") (texto_da_linha row) = true).
    { revert H. apply ExtracaoFacts.contains_sem_espacos.
      - vm_compute. intuition discriminate.
      - apply ExtracaoFacts.texto_sem_espacos. }
    assert (C : eh_cabecalho row = true).
    { unfold eh_cabecalho. apply existsb_exists.
      exists (U "categoria"). split; [left; reflexivity | exact T]. }
    repeat split; auto.
    intros pdf I.
    rewrite ExtracaoFacts.extrair_filter, filter_In,
      ExtracaoFacts.linha_aceita_iff in I.
    destruct I as [_ [_ [I _]]]. congruence.
Qed.

(** A row of 28 cells whose first cell is a category and whose second cell
    says "Categoria": a vehicle row for [eh_veiculo], and dropped. *)
Lemma C1_extrair_keeps_witness :
  eh_veiculo Exemplos.linha_categoria = true
  /\ 25 <= List.length Exemplos.linha_categoria
  /\ eh_cabecalho Exemplos.linha_categoria = true
  /\ ~ In Exemplos.linha_categoria (extrair [[[Exemplos.linha_categoria]]]).
Proof.
  split; [reflexivity|]. split; [simpl; lia|].
  destruct (proj2 C1_extrair_keeps Exemplos.linha_categoria eq_refl)
    as [_ [H1 H2]].
  split; [exact H1 | apply H2].
Defined.

(** C3, as stated, fails: the text made of two backslashes and an
    apostrophe is none of the eight specified tokens, and [limpar] maps it
    to null. *)
Lemma C3_limpar_counterexample :
  ~ In (replace LF SP (strip [BACKSLASH; BACKSLASH; APOSTROPHE])) Spec.TOKENS
  /\ limpar (Some [BACKSLASH; BACKSLASH; APOSTROPHE]) = None.
Proof.
  split; [|reflexivity].
  vm_compute. intuition discriminate.
Qed.

(** C3, amended.  [limpar] maps null to null, and a string to null exactly
    when its trimmed text, line feeds made blanks, is one of the eight
    specified tokens or two backslashes followed by an apostrophe; the
    match is on the whole text.  Any other string gives that text. *)
Theorem C3_limpar_tokens :
  limpar None = None
  /\ forall s : str,
      let v := replace LF SP (strip s) in
      (limpar (Some s) = None <->
       In v Spec.TOKENS \/ v = [BACKSLASH; BACKSLASH; APOSTROPHE])
      /\ (~ (In v Spec.TOKENS \/ v = [BACKSLASH; BACKSLASH; APOSTROPHE]) ->
          limpar (Some s) = Some v).
Proof.
  split; [reflexivity|]. intros s v.
  rewrite <- LimparFacts.tokens_vazios. split.
  - apply LimparFacts.limpar_None_iff.
  - intros N. rewrite LimparFacts.limpar_Some; cbv zeta. fold v.
    destruct (str_in v TOKENS_VAZIOS) eqn:E; [|reflexivity].
    apply LimparFacts.str_in_In in E. contradiction.
Qed.

(** " N/A " is cleaned to null, " a(line feed)b " to "a b". *)
Lemma C3_limpar_tokens_witness :
  limpar (Some (U " N/A ")) = None
  /\ limpar (Some (U " a" ++ [LF] ++ U "b ")) = Some (U "a b").
Proof.
  split.
  - apply (proj2 C3_limpar_tokens (U " N/A ")). left.
    vm_compute. auto 10.
  - apply (proj2 C3_limpar_tokens (U " a" ++ [LF] ++ U "b ")).
    vm_compute. intuition discriminate.
Defined.

(** C4. [eh_veiculo] accepts a row exactly when the row has a first cell,
    that cell is a non-empty string, and its trimmed lowered text contains
    one of the 15 category names.  The order of the names does not matter:
    with any reordering of the list the test gives the same answer, so
    "Utilitário Esportivo Grande 4x4", "picape" and "picape compacta" are
    accepted under every order. *)
Theorem C4_eh_veiculo_iff :
  List.length CATEGORIAS = 15
  /\ (forall row : linha,
         eh_veiculo row = true <->
         exists s rest,
           row = Some s :: rest /\ s <> []
           /\ exists cat, In cat CATEGORIAS
                          /\ contains cat (lower (strip s)) = true)
  /\ (forall (cats : list str) (row : linha),
         Permutation CATEGORIAS cats ->
         eh_veiculo_com cats row = eh_veiculo row)
  /\ (forall (cats : list str) (rest : linha),
         Permutation CATEGORIAS cats ->
         eh_veiculo_com cats
           (Some (U "Utilitário Esportivo Grande 4x4") :: rest) = true
         /\ eh_veiculo_com cats (Some (U "picape") :: rest) = true
         /\ eh_veiculo_com cats (Some (U "picape compacta") :: rest) = true).
Proof.
  assert (P : forall cats row, Permutation CATEGORIAS cats ->
                               eh_veiculo_com cats row = eh_veiculo row).
  { intros cats row H. unfold eh_veiculo, eh_veiculo_com.
    destruct row as [|c0 row]; [reflexivity|].
    destruct (negb (truthy c0)); [reflexivity|].
    symmetry. apply PyFacts.existsb_Permutation. exact H. }
  split; [reflexivity|]. split; [|split; [exact P|]].
  - intros row. unfold eh_veiculo, eh_veiculo_com.
    destruct row as [|c0 row].
    { split; [discriminate | intros [s [rest [[=] _]]]]. }
    destruct c0 as [[|x s]|]; simpl negb; cbv iota.
    + split; [discriminate | intros [s [rest [[= <- <-] [N _]]]]; congruence].
    + rewrite existsb_exists. split.
      * intros [cat [I C]]. exists (x :: s), row.
        repeat split; [discriminate | exists cat; auto].
      * intros [s' [rest [[= <- <-] [_ [cat [I C]]]]]]. exists cat; auto.
    + split; [discriminate | intros [s [rest [[=] _]]]].
  - intros cats rest H. rewrite !(P cats _ H). repeat split; reflexivity.
Qed.

(** The category list reversed is a reordering of it. *)
Lemma C4_eh_veiculo_iff_witness :
  eh_veiculo_com (rev CATEGORIAS)
    [Some (U "Utilitário Esportivo Grande 4x4")] = true
  /\ eh_veiculo_com (rev CATEGORIAS) [Some (U "picape")] = true
  /\ eh_veiculo_com (rev CATEGORIAS) [Some (U "picape compacta")] = true.
Proof.
  apply (proj2 (proj2 (proj2 C4_eh_veiculo_iff)) (rev CATEGORIAS) []).
  apply Permutation_rev.
Defined.

(** C2.  The script's bins follow the specification up to 999 g/km
    ([DerivadosFacts.cut_faixa]), but its last bin ends at 999: the cell
    "1000" is read as the float 1000, which is above 250, and the row gets
    no CO2 category where the specification gives "250+". *)
Theorem C2_faixa_co2_1000 :
  para_numero (Some (U "1000")) = Ret (Some (F64.of_Z 1000))
  /\ F64.ltb (F64.of_Z 250) (F64.of_Z 1000) = true
  /\ Spec.faixa (F64.of_Z 1000) = Some (U "250+")
  /\ cut bins labels (F64.of_Z 1000) = None
  /\ exists r,
       main [[[Exemplos.linha_co2_1000]]] = Ret [r]
       /\ dict_get (coluna 15) r = Some (VNum (F64.of_Z 1000))
       /\ dict_get COL_FAIXA_CO2 r = Some VNone.
Proof.
  repeat split; try reflexivity.
  eexists. split; [vm_compute; reflexivity|]. split; reflexivity.
Qed.

(** C5.  On the frame that [main] passes to [pos_processar], whenever
    [pos_processar] returns, the combined consumption of every row and of
    each of the three fuel families is [0.55 * city + 0.45 * highway] in
    binary64 arithmetic, rounded to 2 decimals as numpy does, and it is
    null as soon as the city or the highway value of the record is null.
    City 10.0 and highway 12.0 give 10.9. *)
Theorem C5_consumo_combinado :
  (forall df0 df' : list registro,
      Forall (fun r => colunas_presentes r = true) df0 ->
      pos_processar (map tipos_numericos df0) = Ret df' ->
      Forall2
        (fun r0 r' =>
           forall cid est nome,
             In (cid, est, nome) pares ->
             exists vc ve,
               dict_get cid r0 = Some vc /\ dict_get est r0 = Some ve
               /\ dict_get nome r'
                  = Some (VNum (F64.round
                                  (F64.add (F64.mul c_0_55 (numero vc))
                                           (F64.mul c_0_45 (numero ve)))
                                  2))
               /\ (isna vc = true \/ isna ve = true ->
                   dict_get nome r' = Some (VNum F64.nan)))
        df0 df')
  /\ consumo_combinado (F64.of_Z 10) (F64.of_Z 12)
     = F64.of_decimal false 109 (-1).
Proof.
  split; [|reflexivity].
  intros df0 df' P E.
  destruct (PipelineFacts.quadro_Ret df0 df' P E) as [_ [t [_ ->]]].
  rewrite map_map. apply PipelineFacts.Forall2_map. intros r0 I0.
  rewrite Forall_forall in P. specialize (P r0 I0).
  assert (N : forall v, isna v = true -> numero v = F64.nan).
  { intros [| | x | |]; try discriminate; try reflexivity.
    apply DerivadosFacts.is_nan_eq. }
  assert (V : forall i, i < 28 ->
                existsb (fun idx => str_eqb (coluna i) (coluna idx))
                        COLUNAS_NUMERICAS = true ->
                flutuante (valor_de (tipos_numericos r0) (coluna i))
                = numero (valor_de r0 (coluna i)))
    by (intros i; apply PipelineFacts.flutuante_tipos_numericos; exact P).
  intros cid est nome I.
  destruct I as [[= <- <- <-]|[[= <- <- <-]|[[= <- <- <-]|[]]]].
  - exists (valor_de r0 (coluna 19)), (valor_de r0 (coluna 20)).
    rewrite !(RegistroFacts.presentes_get r0 _ P) by lia.
    assert (G : dict_get COL_COMBINADO_GAS
                  (derivado_em t (tipos_numericos r0))
                = Some (VNum (consumo_combinado
                                (numero (valor_de r0 (coluna 19)))
                                (numero (valor_de r0 (coluna 20)))))).
    { unfold derivado_em; cbv zeta.
      rewrite !ParsearFacts.dict_get_set. eval_keys. cbv iota.
      rewrite !V by (reflexivity || lia). reflexivity. }
    repeat split; [exact G|]. rewrite G.
    intros [H|H]; apply N in H; rewrite H;
      [rewrite DerivadosFacts.consumo_combinado_nan_l
      |rewrite DerivadosFacts.consumo_combinado_nan_r]; reflexivity.
  - exists (valor_de r0 (coluna 17)), (valor_de r0 (coluna 18)).
    rewrite !(RegistroFacts.presentes_get r0 _ P) by lia.
    assert (G : dict_get COL_COMBINADO_ETANOL
                  (derivado_em t (tipos_numericos r0))
                = Some (VNum (consumo_combinado
                                (numero (valor_de r0 (coluna 17)))
                                (numero (valor_de r0 (coluna 18)))))).
    { unfold derivado_em; cbv zeta.
      rewrite !ParsearFacts.dict_get_set. eval_keys. cbv iota.
      rewrite !V by (reflexivity || lia). reflexivity. }
    repeat split; [exact G|]. rewrite G.
    intros [H|H]; apply N in H; rewrite H;
      [rewrite DerivadosFacts.consumo_combinado_nan_l
      |rewrite DerivadosFacts.consumo_combinado_nan_r]; reflexivity.
  - exists (valor_de r0 (coluna 21)), (valor_de r0 (coluna 22)).
    rewrite !(RegistroFacts.presentes_get r0 _ P) by lia.
    assert (G : dict_get COL_COMBINADO_ELETRICO
                  (derivado_em t (tipos_numericos r0))
                = Some (VNum (consumo_combinado
                                (numero (valor_de r0 (coluna 21)))
                                (numero (valor_de r0 (coluna 22)))))).
    { unfold derivado_em; cbv zeta.
      rewrite !ParsearFacts.dict_get_set. eval_keys. cbv iota.
      rewrite !V by (reflexivity || lia). reflexivity. }
    repeat split; [exact G|]. rewrite G.
    intros [H|H]; apply N in H; rewrite H;
      [rewrite DerivadosFacts.consumo_combinado_nan_l
      |rewrite DerivadosFacts.consumo_combinado_nan_r]; reflexivity.
Qed.

(** The frame of the sample row: [pos_processar] returns, city 14.0 and
    highway 16.0 give 14.9, and the electric consumption, null in the
    record, stays null. *)
Lemma C5_consumo_combinado_witness :
  exists r',
    pos_processar (map tipos_numericos [registro_de Exemplos.linha_argo])
    = Ret [r']
    /\ dict_get COL_COMBINADO_GAS r'
       = Some (VNum (F64.of_decimal false 149 (-1)))
    /\ dict_get COL_COMBINADO_ELETRICO r' = Some (VNum F64.nan).
Proof.
  assert (E : exists r',
             pos_processar
               (map tipos_numericos [registro_de Exemplos.linha_argo])
             = Ret [r'])
    by (eexists; vm_compute; reflexivity).
  destruct E as [r' E]. exists r'. split; [exact E|].
  assert (P : Forall (fun r => colunas_presentes r = true)
                     [registro_de Exemplos.linha_argo])
    by (constructor; [vm_compute; reflexivity | constructor]).
  pose proof (proj1 C5_consumo_combinado
                [registro_de Exemplos.linha_argo] [r'] P E) as H.
  pose proof (PipelineFacts.Forall2_cabeca _ _ _ _ _ H) as H1.
  cbv beta in H1. split.
  - destruct (H1 _ _ _ (or_introl eq_refl)) as [vc [ve [A [B [C _]]]]].
    vm_compute in A, B. injection A as <-. injection B as <-.
    rewrite C. reflexivity.
  - destruct (H1 _ _ _ (or_intror (or_intror (or_introl eq_refl))))
      as [vc [ve [A [B [_ C]]]]].
    vm_compute in A, B. injection A as <-. injection B as <-.
    apply C. left. reflexivity.
Defined.

(** C6.  [para_numero] cleans the cell first and gives null for a null
    result; otherwise it turns the commas of the cleaned text into points
    and gives the float that [float] reads, or null when [float] raises; it
    never raises itself.  "12,3" and "12.3" both give the float 12.3. *)
Theorem C6_para_numero :
  (forall val : cell, exists r, para_numero val = Ret r)
  /\ (forall val : cell, limpar val = None -> para_numero val = Ret None)
  /\ (forall (val : cell) (v : str),
         limpar val = Some v ->
         para_numero val
         = Ret (match PyFloat.float_of_str (replace COMMA DOT v) with
                | Ret x => Some x
                | Raise _ => None
                end))
  /\ para_numero (Some (U "12,3")) = Ret (Some (F64.of_decimal false 123 (-1)))
  /\ para_numero (Some (U "12.3")) = Ret (Some (F64.of_decimal false 123 (-1)))
  /\ para_numero (Some (U "doze")) = Ret None.
Proof.
  split; [exact FloatFacts.para_numero_total|].
  split; [exact FloatFacts.para_numero_nulo|].
  split; [exact FloatFacts.para_numero_limpo|].
  repeat split; reflexivity.
Qed.

(** The cells "ND" and " 9,8 ": null, and 9.8. *)
Lemma C6_para_numero_witness :
  para_numero (Some (U "ND")) = Ret None
  /\ para_numero (Some (U " 9,8 ")) = Ret (Some (F64.of_decimal false 98 (-1))).
Proof.
  split.
  - apply (proj1 (proj2 C6_para_numero) (Some (U "ND"))). reflexivity.
  - rewrite (proj1 (proj2 (proj2 C6_para_numero)) (Some (U " 9,8 ")) (U "9,8"))
      by reflexivity.
    reflexivity.
Defined.

(** C10.  [para_numero] turns every comma of the cleaned text into a
    point, so a text and the same text with points for commas are read
    alike.  A text with two commas or more gives null, as "1,234,5" does,
    and "1,234" gives 1.234, which is not 1234. *)
Theorem C10_para_numero_commas :
  (forall v : str,
      count COMMA (replace COMMA DOT v) = 0
      /\ count DOT (replace COMMA DOT v) = count COMMA v + count DOT v)
  /\ (forall s : str,
         para_numero (Some (replace COMMA DOT s)) = para_numero (Some s))
  /\ (forall s : str, 2 <= count COMMA s -> para_numero (Some s) = Ret None)
  /\ para_numero (Some (U "1,234,5")) = Ret None
  /\ para_numero (Some (U "1,234"))
     = Ret (Some (F64.of_decimal false 1234 (-3)))
  /\ F64.eqb (F64.of_decimal false 1234 (-3)) (F64.of_Z 1234) = false.
Proof.
  split.
  { intros v. split.
    - apply FloatFacts.count_replace_old. discriminate.
    - apply FloatFacts.count_replace_new. discriminate. }
  split; [exact FloatFacts.para_numero_virgula_ponto|].
  split; [exact FloatFacts.para_numero_virgulas|].
  repeat split; reflexivity.
Qed.

(** "1,234,5" has two commas. *)
Lemma C10_para_numero_commas_witness :
  para_numero (Some (U "1,234,5")) = Ret None.
Proof.
  apply (proj1 (proj2 (proj2 C10_para_numero_commas)) (U "1,234,5")).
  vm_compute. lia.
Defined.

(** C7.  A row shorter than the 28 columns of the schema is padded with
    nulls to 28 cells before it is mapped, so that every index of the
    schema is in range.  [parsear] does not raise on it: the record that it
    builds for the row has the 28 fields of the schema, each with the
    cleaned value of its cell and null for a cell that was missing, and
    this record is what [parsear] returns for the row, among the records of
    the rows before and after it, when its brand is not null. *)
Theorem C7_parsear_pads :
  forall row : linha,
    List.length row < 28 ->
    normalizar row = row ++ repeat None (28 - List.length row)
    /\ List.length (normalizar row) = 28
    /\ (forall idx, idx < 28 ->
                    item (normalizar row) idx = Ret (nth idx row None))
    /\ exists reg,
        map fst reg = map snd COLUNAS_PDF
        /\ (forall idx nome,
               In (idx, nome) COLUNAS_PDF ->
               dict_get nome reg
               = Some (valor_do_campo idx (nth idx row None))
               /\ (List.length row <= idx -> dict_get nome reg = Some VNone))
        /\ parsear_linha row
           = Ret (match limpar (nth 1 row None) with
                  | Some _ => Some reg
                  | None => None
                  end)
        /\ forall antes depois : list linha,
            exists ra rd,
              parsear antes = Ret ra /\ parsear depois = Ret rd
              /\ parsear (antes ++ [row] ++ depois)
                 = Ret (ra
                        ++ match limpar (nth 1 row None) with
                           | Some _ => [reg]
                           | None => []
                           end
                        ++ rd).
Proof.
  intros row L.
  split; [apply ParsearFacts.normalizar_repeat|].
  split; [rewrite ParsearFacts.normalizar_length; lia|].
  split; [intros idx; apply ParsearFacts.item_normalizar|].
  exists (registro_de row).
  split; [reflexivity|]. split; [|split].
  - intros idx nome I.
    assert (G : dict_get nome (registro_de row)
                = Some (valor_do_campo idx (nth idx row None))).
    { unfold COLUNAS_PDF in I.
      repeat (destruct I as [[= <- <-]|I]; [reflexivity|]). destruct I. }
    split; [exact G|]. intros O. rewrite G, (nth_overflow row None O).
    unfold valor_do_campo. destruct (existsb _ _); reflexivity.
  - apply RegistroFacts.parsear_linha_registro.
  - intros antes depois.
    exists (registros_de antes), (registros_de depois).
    rewrite !RegistroFacts.parsear_registros.
    split; [reflexivity|]. split; [reflexivity|].
    unfold registros_de. rewrite !flat_map_app. cbn [flat_map].
    rewrite app_nil_r. reflexivity.
Qed.

(** A row of two cells, "Compacto" and "Fiat": [parsear] returns its
    record, with the brand and a null seal. *)
Lemma C7_parsear_pads_witness :
  exists reg,
    parsear [Exemplos.linha_curta] = Ret [reg]
    /\ dict_get (coluna 1) reg = Some (VStr (U "Fiat"))
    /\ dict_get (coluna 27) reg = Some VNone.
Proof.
  assert (L : List.length Exemplos.linha_curta < 28) by (simpl; lia).
  destruct (C7_parsear_pads Exemplos.linha_curta L)
    as [_ [_ [_ [reg [_ [F [_ P]]]]]]].
  exists reg. destruct (P [] []) as [ra [rd [A [D E]]]].
  injection A as <-. injection D as <-. split; [exact E|]. split.
  - exact (proj1 (F 1 (coluna 1) (or_intror (or_introl eq_refl)))).
  - apply (proj2 (F 27 (coluna 27)
                    ltac:(unfold COLUNAS_PDF; cbn [In]; tauto))).
    simpl. lia.
Defined.

(** C8.  [parsear] returns the records of the rows whose brand cell is
    not null after cleaning, and leaves the other rows out; the brand of
    every record it returns is a non-empty text.  Step 4 of [main] and
    [pos_processar] do not assign the brand column, and removing
    duplicates and sorting only select and reorder rows: every row of the
    final frame has its brand. *)
Theorem C8_marca_nao_nula :
  (forall linhas : list linha,
      parsear linhas = Ret (registros_de linhas)
      /\ (forall reg, In reg (registros_de linhas) -> tem_marca reg = true)
      /\ (forall reg,
             In reg (registros_de linhas) <->
             exists row, In row linhas /\ limpar (nth 1 row None) <> None
                         /\ reg = registro_de row))
  /\ (forall r : registro,
         dict_get (coluna 1) (tipos_numericos r) = dict_get (coluna 1) r
         /\ dict_get (coluna 1) (derivado r) = dict_get (coluna 1) r)
  /\ (forall (pdf : list pagina) (tabela : list registro),
         main pdf = Ret tabela ->
         forall r, In r tabela -> tem_marca r = true).
Proof.
  split; [|split].
  - intros linhas. split; [apply RegistroFacts.parsear_registros|]. split.
    + intros reg I. apply RegistroFacts.In_registros_de in I.
      destruct I as [row [_ [N ->]]].
      apply RegistroFacts.registro_tem_marca. exact N.
    + intros reg. apply RegistroFacts.In_registros_de.
  - intros r. split.
    + apply PipelineFacts.marca_tipos_numericos.
    + apply PipelineFacts.marca_derivado.
  - intros pdf tabela M r I.
    destruct (PipelineFacts.main_Ret pdf tabela M) as [_ [t [_ [_ ->]]]].
    assert (I' : In r (map (derivado_em t)
                         (map tipos_numericos (registros_de (extrair pdf))))).
    { apply PipelineFacts.In_drop_duplicates.
      apply (proj1 (PipelineFacts.In_sort_values _ _)). exact I. }
    rewrite map_map in I'. apply in_map_iff in I'.
    destruct I' as [r0 [<- I']]. rewrite PipelineFacts.tem_marca_etapas.
    apply (proj1 (RegistroFacts.In_registros_de _ _)) in I'.
    destruct I' as [row [_ [N ->]]].
    apply RegistroFacts.registro_tem_marca. exact N.
Qed.

(** A document with one table: a row without a brand and a full row.  One
    record comes out, with the brand "Fiat". *)
Lemma C8_marca_nao_nula_witness :
  exists r,
    main [[[Exemplos.linha_sem_marca; Exemplos.linha_argo]]] = Ret [r]
    /\ tem_marca r = true.
Proof.
  assert (M : exists r,
             main [[[Exemplos.linha_sem_marca; Exemplos.linha_argo]]]
             = Ret [r])
    by (eexists; vm_compute; reflexivity).
  destruct M as [r M]. exists r. split; [exact M|].
  apply (proj2 (proj2 C8_marca_nao_nula) _ _ M). left. reflexivity.
Defined.

(** C9.  Whenever [pos_processar] returns, the seal of every row of its
    frame is "SIM" exactly when the raw value of the row is a text whose
    trimmed, upper-cased form is "SIM"; in every other case, a null raw
    value included, it is "NÃO".  In the frame that [main] returns every
    seal is "SIM" or "NÃO". *)
Theorem C9_selo_conpet :
  (forall df df' : list registro,
      Forall (fun r => colunas_presentes r = true) df ->
      pos_processar df = Ret df' ->
      Forall2
        (fun r r' =>
           exists bruto,
             dict_get (coluna 27) r = Some bruto
             /\ (dict_get (coluna 27) r' = Some (VStr SIM)
                 \/ dict_get (coluna 27) r' = Some (VStr NAO))
             /\ (dict_get (coluna 27) r' = Some (VStr SIM) <->
                 exists s, bruto = VStr s /\ upper (strip s) = SIM)
             /\ (bruto = VNone -> dict_get (coluna 27) r' = Some (VStr NAO)))
        df df')
  /\ (forall (pdf : list pagina) (tabela : list registro),
         main pdf = Ret tabela ->
         forall r, In r tabela ->
                   dict_get (coluna 27) r = Some (VStr SIM)
                   \/ dict_get (coluna 27) r = Some (VStr NAO)).
Proof.
  assert (G : forall t r,
             dict_get (coluna 27) (derivado_em t r)
             = Some (selo_conpet (valor_de r (coluna 27)))).
  { intros t r. unfold derivado_em; cbv zeta.
    rewrite ParsearFacts.dict_get_set.
    rewrite PyFacts.str_eqb_refl. reflexivity. }
  assert (S : forall v, selo_conpet v = VStr SIM \/ selo_conpet v = VStr NAO).
  { intros v. unfold selo_conpet. destruct (str_eqb _ SIM); auto. }
  split.
  - intros df df' P E.
    destruct (PipelineFacts.pos_processar_Ret df df' P E)
      as [_ [t [_ [_ ->]]]].
    apply PipelineFacts.Forall2_map. intros r I.
    rewrite Forall_forall in P. specialize (P r I).
    exists (valor_de r (coluna 27)).
    split; [apply RegistroFacts.presentes_get; [exact P | lia]|].
    rewrite G. unfold selo_conpet.
    destruct (valor_de r (coluna 27)) as [|s|x|n|b];
      cbn [como_celula to_str].
    2: { destruct (ParsearFacts.str_eqb_spec (upper (strip s)) SIM)
           as [Q|Q].
         - repeat split; auto; [exists s; auto | discriminate].
         - repeat split; auto; try discriminate.
           intros [s' [[= <-] Q']]. contradiction. }
    all: change (str_eqb (upper (strip (U "None"))) SIM) with false;
      cbv iota.
    all: repeat split; auto; try discriminate.
    all: intros [s' [[=] _]].
  - intros pdf tabela M r I.
    destruct (PipelineFacts.main_Ret pdf tabela M) as [_ [t [_ [_ ->]]]].
    apply (proj1 (PipelineFacts.In_sort_values _ _)) in I.
    apply PipelineFacts.In_drop_duplicates in I.
    apply in_map_iff in I. destruct I as [r0 [<- _]].
    rewrite G. destruct (S (valor_de r0 (coluna 27))) as [-> | ->]; auto.
Qed.

(** The frame of the sample row, whose seal is " Sim": [pos_processar]
    returns and the seal becomes "SIM". *)
Lemma C9_selo_conpet_witness :
  exists r',
    pos_processar (map tipos_numericos [registro_de Exemplos.linha_argo])
    = Ret [r']
    /\ dict_get (coluna 27) r' = Some (VStr SIM).
Proof.
  assert (E : exists r',
             pos_processar
               (map tipos_numericos [registro_de Exemplos.linha_argo])
             = Ret [r'])
    by (eexists; vm_compute; reflexivity).
  destruct E as [r' E]. exists r'. split; [exact E|].
  assert (P : Forall (fun r => colunas_presentes r = true)
                     (map tipos_numericos [registro_de Exemplos.linha_argo]))
    by (constructor; [vm_compute; reflexivity | constructor]).
  pose proof (proj1 C9_selo_conpet
                (map tipos_numericos [registro_de Exemplos.linha_argo]) [r']
                P E) as H.
  destruct (PipelineFacts.Forall2_cabeca _ _ _ _ _ H)
    as [bruto [B [_ [K _]]]].
  apply K. vm_compute in B. injection B as <-.
  eexists. split; reflexivity.
Defined.

(* ====================================================================== *)
(** * Trimming *)
(* ====================================================================== *)

Module StripFacts.
Import Py Pbev Props.

Lemma lstrip_cabeca (s : str) :
  match lstrip s with
  | [] => True
  | c :: _ => isspace c = false
  end.
Proof.
  induction s as [|c s IH]; simpl; [exact I|].
  destruct (isspace c) eqn:E; [exact IH | exact E].
Qed.

(** [lstrip] removes a prefix of white space. *)
Lemma lstrip_sufixo (s : str) :
  exists p, s = p ++ lstrip s /\ forallb isspace p = true.
Proof.
  induction s as [|c s [p [E F]]]; simpl.
  - exists []. split; reflexivity.
  - destruct (isspace c) eqn:W.
    + exists (c :: p). simpl. rewrite W, F. split; [congruence | reflexivity].
    + exists []. split; reflexivity.
Qed.

Lemma lstrip_id (s : str) :
  match s with
  | [] => True
  | c :: _ => isspace c = false
  end ->
  lstrip s = s.
Proof. destruct s as [|c s]; simpl; [reflexivity|]. intros ->. reflexivity. Qed.

(** White space in front of a text is removed with the text's own. *)
Lemma lstrip_espacos (w s : str) :
  forallb isspace w = true -> lstrip (w ++ s) = lstrip s.
Proof.
  induction w as [|c w IH]; simpl; [reflexivity|].
  destruct (isspace c); [exact IH | discriminate].
Qed.

(** When [s] has a character that is not white space, what follows that
    character survives [lstrip]. *)
Lemma lstrip_app (s t : str) :
  lstrip s <> [] -> lstrip (s ++ t) = lstrip s ++ t.
Proof.
  induction s as [|c s IH]; simpl; [congruence|].
  destruct (isspace c); [exact IH | reflexivity].
Qed.

Lemma lstrip_todo_espaco (w : str) :
  forallb isspace w = true -> lstrip w = [].
Proof.
  intros H. rewrite <- (app_nil_r w). rewrite lstrip_espacos by exact H.
  reflexivity.
Qed.

Lemma forallb_rev (f : char -> bool) (w : str) :
  forallb f (rev w) = forallb f w.
Proof.
  induction w as [|c w IH]; [reflexivity|].
  simpl. rewrite forallb_app, IH. simpl. rewrite andb_true_r.
  apply andb_comm.
Qed.

Lemma aparado_cabeca (s : str) :
  aparado s = true ->
  match s with
  | [] => True
  | c :: _ => isspace c = false
  end.
Proof.
  unfold aparado. destruct s as [|c s]; [trivial|].
  rewrite andb_true_iff, negb_true_iff. tauto.
Qed.

Lemma aparado_cauda (s : str) :
  aparado s = true ->
  match rev s with
  | [] => True
  | c :: _ => isspace c = false
  end.
Proof.
  unfold aparado. rewrite andb_true_iff. intros [_ H].
  destruct (rev s) as [|c r]; [trivial|].
  apply negb_true_iff. exact H.
Qed.

(** A trimmed text is left as it is by [strip]. *)
Lemma strip_aparado (s : str) : aparado s = true -> strip s = s.
Proof.
  intros H. unfold strip, rstrip.
  rewrite (lstrip_id s (aparado_cabeca s H)).
  rewrite (lstrip_id (rev s) (aparado_cauda s H)).
  apply rev_involutive.
Qed.

(** The result of [strip] is trimmed. *)
Lemma aparado_strip (s : str) : aparado (strip s) = true.
Proof.
  unfold strip, rstrip, aparado. rewrite rev_involutive.
  pose proof (lstrip_cabeca (rev (lstrip s))) as T.
  apply andb_true_iff. split.
  - destruct (lstrip_sufixo (rev (lstrip s))) as [p [E _]].
    remember (lstrip (rev (lstrip s))) as u eqn:Hu.
    pose proof (lstrip_cabeca s) as C.
    apply (f_equal (@rev char)) in E.
    rewrite rev_involutive, rev_app_distr in E.
    destruct (rev u) as [|c r] eqn:R; [reflexivity|].
    rewrite E in C. simpl in C. rewrite C. reflexivity.
  - destruct (lstrip (rev (lstrip s))) as [|c r]; [reflexivity|].
    rewrite T. reflexivity.
Qed.

(** [strip] is idempotent. *)
Lemma strip_strip (s : str) : strip (strip s) = strip s.
Proof. apply strip_aparado, aparado_strip. Qed.

(** White space around a text does not change what [strip] returns. *)
Lemma strip_espacos (w1 w2 s : str) :
  forallb isspace w1 = true -> forallb isspace w2 = true ->
  strip (w1 ++ s ++ w2) = strip s.
Proof.
  intros H1 H2. unfold strip, rstrip. rewrite lstrip_espacos by exact H1.
  destruct (lstrip s) as [|c t] eqn:E.
  - destruct (lstrip_sufixo s) as [p [Es Fp]]. rewrite E, app_nil_r in Es.
    subst p. rewrite (lstrip_todo_espaco (s ++ w2))
      by (rewrite forallb_app, Fp, H2; reflexivity).
    reflexivity.
  - rewrite lstrip_app by congruence. rewrite E, rev_app_distr.
    rewrite lstrip_espacos by (rewrite forallb_rev; exact H2).
    reflexivity.
Qed.

(** A map that keeps every character that is not white space, and sends
    white space to white space, keeps a text trimmed. *)
Lemma aparado_map (f : char -> char) (s : str) :
  (forall c, isspace (f c) = isspace c) ->
  aparado (map f s) = aparado s.
Proof.
  intros H. unfold aparado. rewrite <- map_rev.
  destruct s as [|c s]; [reflexivity|].
  cbn [map]. rewrite H. f_equal.
  destruct (rev (c :: s)) as [|d r]; [reflexivity|].
  cbn [map]. rewrite H. reflexivity.
Qed.

End StripFacts.

(* ====================================================================== *)
(** * Further properties of cleaning *)
(* ====================================================================== *)

Module LimpezaFacts.
Import Py Pbev Props StripFacts.

Lemma replace_LF_espaco (c : char) :
  isspace (if (c =? LF)%N then SP else c) = isspace c.
Proof. destruct (N.eqb_spec c LF) as [->|_]; reflexivity. Qed.

(** The text that [limpar] returns is trimmed and has no line feed. *)
Lemma limpo_aparado (s : str) : aparado (replace LF SP (strip s)) = true.
Proof.
  unfold replace. rewrite aparado_map by apply replace_LF_espaco.
  apply aparado_strip.
Qed.

Lemma limpo_sem_LF (s : str) : count LF (replace LF SP (strip s)) = 0.
Proof. apply FloatFacts.count_replace_old. discriminate. Qed.

(** Cleaning a cleaned text changes nothing. *)
Lemma limpo_limpo (s : str) :
  replace LF SP (strip (replace LF SP (strip s))) = replace LF SP (strip s).
Proof.
  rewrite (strip_aparado _ (limpo_aparado s)).
  apply FloatFacts.replace_idem. discriminate.
Qed.

Lemma limpar_idem (c : cell) : limpar (limpar c) = limpar c.
Proof.
  destruct c as [s|]; [|reflexivity].
  rewrite LimparFacts.limpar_Some; cbv zeta.
  destruct (str_in (replace LF SP (strip s)) TOKENS_VAZIOS) eqn:E;
    [reflexivity|].
  rewrite LimparFacts.limpar_Some; cbv zeta. rewrite limpo_limpo, E.
  reflexivity.
Qed.

End LimpezaFacts.

(* ====================================================================== *)
(** * Numerals *)
(* ====================================================================== *)

Module NumeralFacts.
Import Py PyFloat Pbev Props StripFacts.

Lemma digito_faixa (c : char) : c_isdigit c = true -> (48 <= c <= 57)%N.
Proof.
  unfold c_isdigit. rewrite andb_true_iff, !N.leb_le. tauto.
Qed.

Lemma de_numeral_faixa (c : char) :
  de_numeral c = true -> (44 <= c <= 57)%N.
Proof.
  unfold de_numeral. rewrite !orb_true_iff, !N.eqb_eq. unfold DOT, COMMA.
  intros [[H| ->]| ->]; [apply digito_faixa in H|..]; lia.
Qed.

Lemma de_numeral_app (a b : str) (x : char) :
  forallb c_isdigit a = true -> forallb c_isdigit b = true ->
  de_numeral x = true ->
  forallb de_numeral (a ++ [x] ++ b) = true.
Proof.
  intros A B X. rewrite !forallb_app. cbn [forallb]. rewrite X.
  assert (D : forall l, forallb c_isdigit l = true ->
                        forallb de_numeral l = true).
  { intros l. rewrite !forallb_forall. intros H c I. unfold de_numeral.
    rewrite (H c I). reflexivity. }
  rewrite (D a A), (D b B). reflexivity.
Qed.

Lemma isspace_numeral (c : char) : de_numeral c = true -> isspace c = false.
Proof.
  intros H. apply de_numeral_faixa in H. unfold isspace.
  repeat match goal with
  | |- context [(?x <=? ?y)%N] => destruct (N.leb_spec x y); try lia
  | |- context [(?x =? ?y)%N] => destruct (N.eqb_spec x y); try lia
  end; reflexivity.
Qed.

Lemma c_isspace_numeral (c : char) :
  de_numeral c = true -> c_isspace c = false.
Proof.
  intros H. apply de_numeral_faixa in H. unfold c_isspace.
  repeat match goal with
  | |- context [(?x <=? ?y)%N] => destruct (N.leb_spec x y); try lia
  | |- context [(?x =? ?y)%N] => destruct (N.eqb_spec x y); try lia
  end; reflexivity.
Qed.

(** A text without white space is trimmed. *)
Lemma aparado_numeral (s : str) :
  forallb de_numeral s = true -> aparado s = true.
Proof.
  intros H. unfold aparado. apply andb_true_iff. split.
  - destruct s as [|c s]; [reflexivity|]. simpl in H.
    apply andb_true_iff in H. rewrite (isspace_numeral c (proj1 H)).
    reflexivity.
  - rewrite <- forallb_rev in H. destruct (rev s) as [|c r]; [reflexivity|].
    simpl in H. apply andb_true_iff in H.
    rewrite (isspace_numeral c (proj1 H)). reflexivity.
Qed.

Lemma replace_ausente (x y : char) (s : str) :
  forallb (fun c => negb (c =? x)%N) s = true -> replace x y s = s.
Proof.
  induction s as [|c s IH]; [reflexivity|]. simpl.
  rewrite andb_true_iff, negb_true_iff. intros [N H].
  rewrite N, (IH H). reflexivity.
Qed.

Lemma replace_app (x y : char) (s t : str) :
  replace x y (s ++ t) = replace x y s ++ replace x y t.
Proof. apply map_app. Qed.

Lemma numeral_sem_LF (s : str) :
  forallb de_numeral s = true -> replace LF SP s = s.
Proof.
  intros H. apply replace_ausente. rewrite forallb_forall in *.
  intros c I. specialize (H c I). apply de_numeral_faixa in H.
  apply negb_true_iff, N.eqb_neq. unfold LF. lia.
Qed.

Lemma digitos_sem_virgula (s : str) :
  forallb c_isdigit s = true -> replace COMMA DOT s = s.
Proof.
  intros H. apply replace_ausente. rewrite forallb_forall in *.
  intros c I. specialize (H c I). apply digito_faixa in H.
  apply negb_true_iff, N.eqb_neq. unfold COMMA. lia.
Qed.

(** No placeholder token starts with a digit. *)
Lemma numeral_nao_token (d : char) (s : str) :
  c_isdigit d = true -> str_in (d :: s) TOKENS_VAZIOS = false.
Proof.
  intros H. apply digito_faixa in H.
  unfold str_in, TOKENS_VAZIOS. cbn [existsb str_eqb].
  repeat match goal with
  | |- context [(d =? ?y)%N] => destruct (N.eqb_spec d y); try lia
  end;
  reflexivity.
Qed.

(** A numeral is cleaned to itself. *)
Lemma limpar_numeral (d : char) (s : str) :
  c_isdigit d = true -> forallb de_numeral s = true ->
  limpar (Some (d :: s)) = Some (d :: s).
Proof.
  intros D H.
  assert (H' : forallb de_numeral (d :: s) = true).
  { simpl. unfold de_numeral at 1. rewrite D, H. reflexivity. }
  rewrite LimparFacts.limpar_Some; cbv zeta.
  rewrite (strip_aparado _ (aparado_numeral _ H')), (numeral_sem_LF _ H').
  rewrite (numeral_nao_token d s D). reflexivity.
Qed.

(** *** [float] on a numeral *)

Lemma to_ascii_numeral (s : str) :
  forallb de_numeral s = true -> map to_ascii s = s.
Proof.
  intros H. rewrite <- (map_id s) at 2. apply map_ext_in. intros c I.
  rewrite forallb_forall in H. specialize (H c I).
  apply de_numeral_faixa in H. unfold to_ascii.
  destruct (N.ltb_spec c 127); [reflexivity | lia].
Qed.

Lemma c_lstrip_id (s : str) :
  match s with
  | [] => True
  | c :: _ => c_isspace c = false
  end ->
  c_lstrip s = s.
Proof. destruct s as [|c s]; simpl; [reflexivity|]. intros ->. reflexivity. Qed.

Lemma c_strip_numeral (s : str) :
  forallb de_numeral s = true -> c_strip s = s.
Proof.
  intros H. unfold c_strip.
  assert (C : forall t, forallb de_numeral t = true ->
                        match t with
                        | [] => True
                        | c :: _ => c_isspace c = false
                        end).
  { intros [|c t]; [trivial|]. simpl. rewrite andb_true_iff.
    intros [X _]. apply c_isspace_numeral. exact X. }
  rewrite (c_lstrip_id s (C s H)).
  rewrite (c_lstrip_id (rev s)) by (apply C; rewrite forallb_rev; exact H).
  apply rev_involutive.
Qed.

Lemma underscores_ok_numeral (s : str) (prev : char) :
  forallb de_numeral s = true -> prev <> 95%N ->
  underscores_ok prev s = true.
Proof.
  revert prev; induction s as [|c s IH]; intros prev H P; simpl.
  - apply negb_true_iff, N.eqb_neq. exact P.
  - simpl in H. apply andb_true_iff in H. destruct H as [X H].
    apply de_numeral_faixa in X.
    destruct (N.eqb_spec c 95); [lia|].
    destruct (N.eqb_spec prev 95); [contradiction|].
    simpl. apply IH; [exact H | lia].
Qed.

Lemma drop_underscores_numeral (s : str) :
  forallb de_numeral s = true -> drop_underscores s = s.
Proof.
  intros H. unfold drop_underscores.
  induction s as [|c s IH]; [reflexivity|]. simpl in *.
  apply andb_true_iff in H. destruct H as [X H].
  apply de_numeral_faixa in X.
  destruct (N.eqb_spec c 95); [lia|]. simpl. rewrite (IH H). reflexivity.
Qed.

Lemma sign_of_digito (d : char) (s : str) :
  c_isdigit d = true -> sign_of (d :: s) = (false, d :: s).
Proof.
  intros H. apply digito_faixa in H. unfold sign_of.
  destruct d as [|p]; [reflexivity|].
  do 6 (destruct p as [p|p|]; try reflexivity); lia.
Qed.

(** The digits in front of a character that is not one are the longest
    run of digits. *)
Lemma span_digits_digitos (a r : str) :
  forallb c_isdigit a = true ->
  match r with
  | [] => True
  | c :: _ => c_isdigit c = false
  end ->
  span_digits (a ++ r) = (a, r).
Proof.
  intros A R. induction a as [|c a IH]; cbn [app span_digits].
  - destruct r as [|c r]; [reflexivity|]. cbn [span_digits].
    rewrite R. reflexivity.
  - cbn [forallb] in A. apply andb_true_iff in A. destruct A as [C A].
    rewrite C, (IH A). reflexivity.
Qed.

Lemma span_digits_todos (a : str) :
  forallb c_isdigit a = true -> span_digits a = (a, []).
Proof.
  intros A. rewrite <- (app_nil_r a) at 1. apply span_digits_digitos; trivial.
Qed.

(** [_Py_dg_strtod] on digits, a point and digits. *)
Lemma strtod_decimal (d : char) (a b : str) :
  c_isdigit d = true -> forallb c_isdigit a = true ->
  forallb c_isdigit b = true ->
  strtod ((d :: a) ++ [DOT] ++ b)
  = Some (F64.of_decimal false (digits_value ((d :: a) ++ b))
            (- Z.of_nat (List.length b)), []).
Proof.
  intros D A B. unfold strtod.
  change ((d :: a) ++ [DOT] ++ b) with (d :: (a ++ DOT :: b)).
  rewrite (sign_of_digito d _ D).
  change (d :: a ++ DOT :: b) with ((d :: a) ++ DOT :: b).
  rewrite span_digits_digitos
    by (cbn [forallb]; rewrite ?D, ?A; reflexivity).
  change (DOT :: b) with (46%N :: b). cbv iota.
  rewrite (span_digits_todos b B).
  cbn [app exponent_of]. reflexivity.
Qed.

Lemma strtod_inteiro (d : char) (a : str) :
  c_isdigit d = true -> forallb c_isdigit a = true ->
  strtod (d :: a)
  = Some (F64.of_decimal false (digits_value (d :: a)) 0, []).
Proof.
  intros D A. unfold strtod. rewrite (sign_of_digito d _ D).
  rewrite (span_digits_todos (d :: a))
    by (cbn [forallb]; rewrite D, A; reflexivity).
  cbn [app exponent_of]. rewrite app_nil_r. reflexivity.
Qed.

Lemma float_of_str_numeral (s : str) (x : F64.float) :
  forallb de_numeral s = true ->
  strtod s = Some (x, []) ->
  float_of_str s = Ret x.
Proof.
  intros H S. unfold float_of_str.
  rewrite (to_ascii_numeral s H), (c_strip_numeral s H).
  rewrite (underscores_ok_numeral s 0%N H) by discriminate.
  rewrite (drop_underscores_numeral s H).
  unfold string_to_double. rewrite S. reflexivity.
Qed.

End NumeralFacts.

(* ====================================================================== *)
(** * Further properties of classification and mapping *)
(* ====================================================================== *)

Module ClassificacaoFacts.
Import Py Pbev Aux Props PyFacts.

Lemma filter_idem {A} (f : A -> bool) (l : list A) :
  filter f (filter f l) = filter f l.
Proof.
  induction l as [|x l IH]; [reflexivity|]. simpl.
  destruct (f x) eqn:E; [|exact IH]. simpl. rewrite E, IH. reflexivity.
Qed.

(** A text that is joined occurs in the result. *)
Lemma In_join (sep s : str) (l : list str) :
  In s l -> exists a b, join sep l = a ++ s ++ b.
Proof.
  induction l as [|t l IH]; [intros []|].
  intros [->|I].
  - destruct l as [|t' l].
    + exists [], []. simpl. rewrite app_nil_r. reflexivity.
    + exists [], (sep ++ join sep (t' :: l)). reflexivity.
  - destruct (IH I) as [a [b E]]. destruct l as [|t' l]; [destruct I|].
    exists (t ++ sep ++ a), b.
    change (join sep (t :: t' :: l)) with (t ++ sep ++ join sep (t' :: l)).
    rewrite E, <- !app_assoc. reflexivity.
Qed.

(** A word found in a part of a text is found in the text. *)
Lemma contains_parte (p a s b : str) :
  contains p s = true -> contains p (a ++ s ++ b) = true.
Proof.
  rewrite !contains_app. intros [x [y ->]].
  exists (a ++ x), (y ++ b). rewrite <- !app_assoc. reflexivity.
Qed.

(** A keyword found in the lowered text of a cell is found in the text of
    the row. *)
Lemma palavra_na_linha (row : linha) (cel kw : str) :
  In (Some cel) row -> kw <> [] ->
  contains kw (lower cel) = true ->
  contains kw (texto_da_linha row) = true.
Proof.
  intros I N C.
  assert (V : cel <> []).
  { intros ->. apply N. apply contains_app in C.
    destruct C as [a [b E]]. simpl in E. symmetry in E.
    apply app_eq_nil in E. destruct E as [_ E].
    apply app_eq_nil in E. tauto. }
  assert (J : In cel (map to_str (filter truthy row))).
  { apply in_map_iff. exists (Some cel). split; [reflexivity|].
    apply filter_In. split; [exact I|].
    destruct cel; [congruence | reflexivity]. }
  destruct (In_join [SP] cel _ J) as [a [b E]].
  unfold texto_da_linha. rewrite E, !lower_app.
  apply contains_parte. exact C.
Qed.

(** The text of a row whose only truthy cell is the first. *)
Lemma texto_so_primeira (c : char) (s : str) (resto : linha) :
  forallb (fun x => negb (truthy x)) resto = true ->
  texto_da_linha (Some (c :: s) :: resto) = lower (c :: s).
Proof.
  intros H. unfold texto_da_linha. cbn [filter truthy].
  assert (F : filter truthy resto = []).
  { induction resto as [|x resto IH]; [reflexivity|]. simpl in *.
    apply andb_true_iff in H. destruct H as [X H].
    apply negb_true_iff in X. rewrite X. exact (IH H). }
  rewrite F. reflexivity.
Qed.

(** *** Records *)

Lemma registro_de_firstn (row : linha) :
  registro_de (firstn 28 row) = registro_de row.
Proof.
  unfold registro_de. apply map_ext_in. intros [idx nome] I. cbn [fst snd].
  assert (L : idx < 28).
  { pose proof ParsearFacts.colunas_no_esquema as F.
    rewrite Forall_forall in F. exact (F _ I). }
  rewrite nth_firstn. destruct (Nat.ltb_spec idx 28); [reflexivity | lia].
Qed.

Lemma marca_limpa_firstn (row : linha) :
  marca_limpa (firstn 28 row) = marca_limpa row.
Proof.
  unfold marca_limpa. rewrite nth_firstn. reflexivity.
Qed.

Lemma registros_de_app (l1 l2 : list linha) :
  registros_de (l1 ++ l2) = registros_de l1 ++ registros_de l2.
Proof. apply flat_map_app. Qed.

Lemma registros_de_firstn (linhas : list linha) :
  registros_de (map (firstn 28) linhas) = registros_de linhas.
Proof.
  induction linhas as [|row linhas IH]; [reflexivity|].
  cbn [map]. change (row :: linhas) with ([row] ++ linhas).
  change (firstn 28 row :: map (firstn 28) linhas)
    with ([firstn 28 row] ++ map (firstn 28) linhas).
  rewrite !registros_de_app, IH. f_equal.
  unfold registros_de. cbn [flat_map].
  rewrite marca_limpa_firstn, registro_de_firstn. reflexivity.
Qed.

Lemma dict_get_registro_de (row : linha) (idx : nat) (nome : str) :
  In (idx, nome) COLUNAS_PDF ->
  dict_get nome (registro_de row)
  = Some (valor_do_campo idx (nth idx row None)).
Proof.
  intros I. unfold COLUNAS_PDF in I.
  repeat (destruct I as [[= <- <-]|I]; [reflexivity|]). destruct I.
Qed.

Lemma parsear_linha_Some (row : linha) (reg : registro) :
  parsear_linha row = Ret (Some reg) ->
  marca_limpa row <> None /\ reg = registro_de row.
Proof.
  rewrite RegistroFacts.parsear_linha_registro.
  destruct (marca_limpa row); [|discriminate].
  intros [= <-]. split; [discriminate | reflexivity].
Qed.

(** The values of a record of [parsear] have the kind of their column. *)
Lemma valor_do_campo_tipo (idx : nat) (c : cell) :
  if existsb (Nat.eqb idx) COLUNAS_NUMERICAS
  then valor_numerico (valor_do_campo idx c) = true
  else valor_textual (valor_do_campo idx c) = true.
Proof.
  unfold valor_do_campo. destruct (existsb _ _).
  - destruct (para_numero c) as [[x|]|e]; reflexivity.
  - destruct (limpar c) as [v|] eqn:E; [|reflexivity].
    cbn [de_celula valor_textual].
    destruct c as [s|]; [|discriminate].
    rewrite LimparFacts.limpar_Some in E; cbv zeta in E.
    destruct (str_in _ _) eqn:T; [discriminate|]. injection E as <-.
    rewrite LimpezaFacts.limpo_aparado, LimpezaFacts.limpo_sem_LF, T.
    reflexivity.
Qed.

End ClassificacaoFacts.

(* ====================================================================== *)
(** * Further properties of the frame *)
(* ====================================================================== *)

Module QuadroFacts.
Import Py Pbev Aux Props PyFacts ParsearFacts RegistroFacts.

(** Assigning to a key the value it has changes nothing. *)
Lemma dict_set_same (k : str) (v : valor) (d : registro) :
  dict_get k d = Some v -> dict_set k v d = d.
Proof.
  induction d as [|[k' v'] d IH]; simpl; [discriminate|].
  destruct (str_eqb_spec k k') as [->|N].
  - intros [= ->]. reflexivity.
  - intros H. rewrite (IH H). reflexivity.
Qed.

Lemma valor_de_get (r : registro) (k : str) (v : valor) :
  dict_get k r = Some v -> valor_de r k = v.
Proof. unfold valor_de. intros ->. reflexivity. Qed.

(** *** Numeric columns *)

Lemma passos_sem_efeito (l : list nat) (d : registro) :
  (forall idx v, In idx l -> dict_get (coluna idx) d = Some v ->
                 to_numeric v = v) ->
  fold_left passo_numerico l d = d.
Proof.
  induction l as [|idx l IH]; intros H; [reflexivity|].
  cbn [fold_left].
  assert (P : passo_numerico d idx = d).
  { unfold passo_numerico; cbv zeta.
    destruct (dict_get (coluna idx) d) as [v|] eqn:E; [|reflexivity].
    rewrite (H idx v (or_introl eq_refl) E).
    apply dict_set_same. exact E. }
  rewrite P. apply IH. intros i v I. apply H. right. exact I.
Qed.

Lemma tipos_numericos_idem (r : registro) :
  tipos_numericos (tipos_numericos r) = tipos_numericos r.
Proof.
  unfold tipos_numericos at 1. apply passos_sem_efeito.
  intros idx v I. rewrite dict_get_tipos_numericos.
  assert (E : existsb (fun i => str_eqb (coluna idx) (coluna i))
                      COLUNAS_NUMERICAS = true).
  { apply existsb_exists. exists idx. split; [exact I|].
    apply str_eqb_refl. }
  rewrite E. destruct (dict_get (coluna idx) r) as [v0|]; [|discriminate].
  intros [= <-]. apply to_numeric_idem.
Qed.

(** A column is numeric by its name exactly when it is by its position. *)
Lemma numerica_por_nome (idx : nat) (nome : str) :
  In (idx, nome) COLUNAS_PDF ->
  existsb (fun i => str_eqb nome (coluna i)) COLUNAS_NUMERICAS
  = existsb (Nat.eqb idx) COLUNAS_NUMERICAS.
Proof.
  intros I. unfold COLUNAS_PDF in I.
  repeat (destruct I as [[= <- <-]|I]; [reflexivity|]). destruct I.
Qed.

(** *** Derived columns *)

Lemma propulsao_padronizada_idem (v : valor) :
  propulsao_padronizada (propulsao_padronizada v) = propulsao_padronizada v.
Proof.
  destruct v as [|s| | |]; try reflexivity.
  unfold propulsao_padronizada at 2 3.
  destruct (mapa_get (lower s) mapa) as [t|] eqn:E.
  - unfold mapa in E. cbn [mapa_get] in E.
    repeat match type of E with
    | (if ?b then _ else _) = _ => destruct b; [injection E as <-; reflexivity|]
    end.
    discriminate.
  - unfold propulsao_padronizada. rewrite E. reflexivity.
Qed.

Lemma selo_conpet_idem (v : valor) :
  selo_conpet (selo_conpet v) = selo_conpet v.
Proof.
  unfold selo_conpet at 2 3. destruct (str_eqb _ SIM); reflexivity.
Qed.

(** The columns that [pos_processar] reads, after it has run. *)
Lemma derivado_prop (t : tipo_coluna) (r : registro) :
  dict_get (coluna 5) (derivado_em t r)
  = Some (propulsao_padronizada (valor_de r (coluna 5))).
Proof.
  unfold derivado_em; cbv zeta. rewrite !dict_get_set. eval_keys. reflexivity.
Qed.

Lemma derivado_selo (t : tipo_coluna) (r : registro) :
  dict_get (coluna 27) (derivado_em t r)
  = Some (selo_conpet (valor_de r (coluna 27))).
Proof.
  unfold derivado_em; cbv zeta. rewrite !dict_get_set. eval_keys. reflexivity.
Qed.

(** The columns of the schema that [pos_processar] leaves alone. *)
Lemma derivado_coluna (t : tipo_coluna) (r : registro) (idx : nat) :
  idx < 28 -> idx <> 5 -> idx <> 27 ->
  dict_get (coluna idx) (derivado_em t r) = dict_get (coluna idx) r.
Proof.
  intros L N5 N27. unfold derivado_em; cbv zeta.
  do 28 (destruct idx as [|idx];
         [try congruence; rewrite !dict_get_set; eval_keys; reflexivity|]).
  lia.
Qed.

Lemma derivado_valor (t : tipo_coluna) (r : registro) (idx : nat) :
  idx < 28 -> idx <> 5 -> idx <> 27 ->
  valor_de (derivado_em t r) (coluna idx) = valor_de r (coluna idx).
Proof.
  intros L N5 N27. unfold valor_de.
  rewrite derivado_coluna by assumption. reflexivity.
Qed.

Lemma derivado_presentes (t : tipo_coluna) (r : registro) :
  colunas_presentes r = true -> colunas_presentes (derivado_em t r) = true.
Proof.
  unfold colunas_presentes. rewrite !forallb_forall. intros H p I.
  specialize (H p I). unfold derivado_em; cbv zeta.
  rewrite !dict_has_set, H, !orb_true_r. reflexivity.
Qed.

(** Running the assignments of [pos_processar] on their own result
    changes nothing. *)
Lemma derivado_idem (t : tipo_coluna) (r : registro) : derivado_em t (derivado_em t r) = derivado_em t r.
Proof.
  unfold derivado_em at 1; cbv zeta.
  rewrite !(derivado_valor t r 6), !(derivado_valor t r 9),
    !(derivado_valor t r 15), !(derivado_valor t r 17), !(derivado_valor t r 18),
    !(derivado_valor t r 19), !(derivado_valor t r 20), !(derivado_valor t r 21),
    !(derivado_valor t r 22) by lia.
  rewrite (valor_de_get _ _ _ (derivado_prop t r)).
  rewrite (valor_de_get _ _ _ (derivado_selo t r)).
  rewrite propulsao_padronizada_idem, selo_conpet_idem.
  repeat (rewrite dict_set_same;
          [|unfold derivado_em; cbv zeta; rewrite !dict_get_set; eval_keys;
            reflexivity]).
  reflexivity.
Qed.

(** The columns that [pos_processar] computes with are those of the
    frame it was given. *)
Lemma numericas_validas_derivado (t : tipo_coluna) (r : registro) :
  numericas_validas (derivado_em t r) = numericas_validas r.
Proof.
  unfold numericas_validas. cbn [forallb].
  rewrite !(derivado_valor t r) by lia. reflexivity.
Qed.

Lemma tipo_velocidades_derivado (t : tipo_coluna) (df : list registro) :
  tipo_velocidades (map (derivado_em t) df) = tipo_velocidades df.
Proof.
  unfold tipo_velocidades. rewrite map_map.
  rewrite (map_ext (fun r => valor_de (derivado_em t r) (coluna 6))
                   (fun r => valor_de r (coluna 6))); [reflexivity|].
  intros r. apply derivado_valor; lia.
Qed.

End QuadroFacts.

(* ====================================================================== *)
(** * Transmission codes and propulsion labels *)
(* ====================================================================== *)

Module TransmissaoFacts.
Import Py PyFloat Pbev Aux Props PyFacts StripFacts.

Lemma forallb_lstrip (p : char -> bool) (s : str) :
  forallb p s = true -> forallb p (lstrip s) = true.
Proof.
  induction s as [|c s IH]; [reflexivity|]. simpl.
  rewrite andb_true_iff. intros [C H].
  destruct (isspace c); [exact (IH H)|]. simpl. rewrite C, H. reflexivity.
Qed.

(** [strip] keeps a property that all characters have. *)
Lemma forallb_strip (p : char -> bool) (s : str) :
  forallb p s = true -> forallb p (strip s) = true.
Proof.
  intros H. unfold strip, rstrip. rewrite forallb_rev.
  apply forallb_lstrip. rewrite forallb_rev. apply forallb_lstrip. exact H.
Qed.

Lemma forallb_filter (p : char -> bool) (s : str) :
  forallb p (filter p s) = true.
Proof.
  induction s as [|c s IH]; [reflexivity|]. simpl.
  destruct (p c) eqn:E; [|exact IH]. simpl. rewrite E, IH. reflexivity.
Qed.

Lemma filter_todos (p : char -> bool) (s : str) :
  forallb p s = true -> filter p s = s.
Proof.
  induction s as [|c s IH]; [reflexivity|]. simpl.
  rewrite andb_true_iff. intros [C H]. rewrite C, (IH H). reflexivity.
Qed.

Lemma filter_nenhum (p : char -> bool) (s : str) :
  forallb (fun c => negb (p c)) s = true -> filter p s = [].
Proof.
  induction s as [|c s IH]; [reflexivity|]. simpl.
  rewrite andb_true_iff, negb_true_iff. intros [C H].
  rewrite C. exact (IH H).
Qed.

(** An ASCII digit is a decimal digit, with its value. *)
Lemma to_decimal_ascii (c : char) :
  c_isdigit c = true -> to_decimal c = Some (c - 48)%N.
Proof.
  intros H. apply NumeralFacts.digito_faixa in H.
  assert (E : (c = 48 \/ c = 49 \/ c = 50 \/ c = 51 \/ c = 52 \/ c = 53
               \/ c = 54 \/ c = 55 \/ c = 56 \/ c = 57)%N) by lia.
  repeat (destruct E as [->|E]; [reflexivity|]). subst c. reflexivity.
Qed.

Lemma re_digit_ascii (c : char) : c_isdigit c = true -> re_digit c = true.
Proof.
  intros H. unfold re_digit. rewrite (to_decimal_ascii c H). reflexivity.
Qed.

Lemma digitos_iniciais_ascii (d : str) :
  forallb c_isdigit d = true ->
  digitos_iniciais d = map (fun c => c - 48)%N d.
Proof.
  induction d as [|c d IH]; [reflexivity|]. cbn [forallb].
  rewrite andb_true_iff. intros [C H]. cbn [digitos_iniciais map].
  rewrite (to_decimal_ascii c C), (IH H). reflexivity.
Qed.

Lemma fold_left_map {A B C} (f : A -> B -> A) (g : C -> B) (l : list C)
      (a : A) :
  fold_left f (map g l) a = fold_left (fun x c => f x (g c)) l a.
Proof. revert a; induction l as [|c l IH]; intros a; simpl; auto. Qed.

(** The search skips what is not a digit. *)
Lemma re_search_digitos_app (l s : str) :
  forallb (fun c => negb (re_digit c)) l = true ->
  re_search_digitos (l ++ s) = re_search_digitos s.
Proof.
  induction l as [|c l IH]; [reflexivity|]. cbn [forallb].
  rewrite andb_true_iff, negb_true_iff. intros [C H].
  cbn [app re_search_digitos]. rewrite C. exact (IH H).
Qed.

Lemma re_search_digitos_None (s : str) :
  re_search_digitos s = None <->
  forallb (fun c => negb (re_digit c)) s = true.
Proof.
  induction s as [|c s IH]; [simpl; tauto|].
  cbn [re_search_digitos forallb].
  destruct (re_digit c); simpl; [split; discriminate | exact IH].
Qed.

(** *** The number of gears *)

Lemma to_decimal_lt (c : char) (d : N) :
  to_decimal c = Some d -> (d < 10)%N.
Proof.
  unfold to_decimal.
  destruct (find _ decimal_zeros) as [z|] eqn:E; [|discriminate].
  apply find_some in E. destruct E as [_ E].
  apply andb_true_iff in E. destruct E as [E1 E2].
  apply N.leb_le in E1. apply N.ltb_lt in E2. intros [= <-]. lia.
Qed.

Lemma digitos_iniciais_lt (s : str) :
  Forall (fun d => (d < 10)%N) (digitos_iniciais s).
Proof.
  induction s as [|c s IH]; cbn [digitos_iniciais]; [constructor|].
  destruct (to_decimal c) as [d|] eqn:E; constructor; [|exact IH].
  exact (to_decimal_lt c d E).
Qed.

Lemma re_search_digitos_lt (s : str) (ds : list N) :
  re_search_digitos s = Some ds -> Forall (fun d => (d < 10)%N) ds.
Proof.
  induction s as [|c s IH]; cbn [re_search_digitos]; [discriminate|].
  destruct (re_digit c); [|exact IH].
  intros [= E]. rewrite <- E. apply (digitos_iniciais_lt (c :: s)).
Qed.

(** A run of [k] digits writes a number below [10 ^ k]. *)
Lemma valor_dos_digitos (ds : list N) (a : N) :
  Forall (fun d => (d < 10)%N) ds ->
  (fold_left (fun a d => a * 10 + d) ds a
   < (a + 1) * 10 ^ N.of_nat (List.length ds))%N.
Proof.
  intros F. revert a. induction F as [|d ds D F IH]; intros a.
  - cbn [fold_left List.length]. change (10 ^ N.of_nat 0)%N with 1%N. lia.
  - cbn [fold_left List.length]. rewrite Nat2N.inj_succ, N.pow_succ_r'.
    specialize (IH (a * 10 + d)%N).
    assert (0 < 10 ^ N.of_nat (List.length ds))%N
      by (apply N.neq_0_lt_0, N.pow_nonzero; discriminate).
    nia.
Qed.

Lemma velocidade_curta (k : nat) (v : valor) (n : N) :
  digitos_ate k v = true -> velocidade v = Some n ->
  (n < 10 ^ N.of_nat k)%N.
Proof.
  unfold digitos_ate, velocidade. destruct v as [|s| | |]; try discriminate.
  destruct (re_search_digitos s) as [ds|] eqn:E; [|discriminate].
  intros L [= <-]. apply Nat.leb_le in L.
  pose proof (valor_dos_digitos ds 0 (re_search_digitos_lt s ds E)) as H.
  assert (10 ^ N.of_nat (List.length ds) <= 10 ^ N.of_nat k)%N
    by (apply N.pow_le_mono_r; lia).
  lia.
Qed.

(** [int] accepts a run of at most 4300 digits and refuses a longer one;
    the lambda raises nothing else. *)
Lemma transmissao_velocidades_curta (v : valor) :
  digitos_ate MAX_STR_DIGITS v = true ->
  transmissao_velocidades v = Ret (velocidade v).
Proof.
  unfold digitos_ate, transmissao_velocidades, velocidade, int_de_digitos.
  destruct v as [|s| | |]; try reflexivity.
  destruct (re_search_digitos s) as [ds|]; [|reflexivity].
  intros ->. reflexivity.
Qed.

Lemma transmissao_velocidades_longa (v : valor) :
  digitos_ate MAX_STR_DIGITS v = false ->
  transmissao_velocidades v = Raise ValueError.
Proof.
  unfold digitos_ate, transmissao_velocidades, int_de_digitos.
  destruct v as [|s| | |]; try discriminate.
  destruct (re_search_digitos s) as [ds|]; [|discriminate].
  intros ->. reflexivity.
Qed.

Lemma transmissao_velocidades_erro (v : valor) (e : error) :
  transmissao_velocidades v = Raise e -> e = ValueError.
Proof.
  unfold transmissao_velocidades, int_de_digitos.
  destruct v as [|s| | |]; try discriminate.
  destruct (re_search_digitos s) as [ds|]; [|discriminate].
  destruct (_ <=? _)%nat; [discriminate|]. intros [= <-]. reflexivity.
Qed.

Lemma digitos_ate_mono (k k' : nat) (v : valor) :
  k <= k' -> digitos_ate k v = true -> digitos_ate k' v = true.
Proof.
  intros L. unfold digitos_ate. destruct v as [|s| | |]; try reflexivity.
  destruct (re_search_digitos s) as [ds|]; [|reflexivity].
  intros H. apply Nat.leb_le in H. apply Nat.leb_le. lia.
Qed.

(** The column of integers that can all be written as floats has a
    type. *)
Lemma inferir_retorna (xs : list (option N)) (nulo inteiro : bool) :
  (forall n, In (Some n) xs -> (Z.of_N n < 2 ^ 1024 - 2 ^ 970)%Z) ->
  exists t, inferir nulo inteiro xs = Ret t.
Proof.
  revert nulo inteiro. induction xs as [|[n|] xs IH]; intros nulo inteiro H.
  - eexists. reflexivity.
  - cbn [inferir]. unfold float_de_int.
    assert (L : (Z.abs (Z.of_N n) <? 2 ^ 1024 - 2 ^ 970)%Z = true).
    { apply Z.ltb_lt. rewrite Z.abs_eq by lia.
      apply H. left. reflexivity. }
    rewrite L. cbn [bind].
    destruct (negb nulo && (UINT64_MAX <? n)%N); [eexists; reflexivity|].
    apply IH. intros m I. apply H. right. exact I.
  - cbn [inferir]. apply IH. intros m I. apply H. right. exact I.
Qed.

Lemma tipo_velocidades_retorna (df : list registro) :
  Forall (fun r => digitos_ate 308 (valor_de r (coluna 6)) = true) df ->
  exists t, tipo_velocidades df = Ret t.
Proof.
  intros F. unfold tipo_velocidades.
  rewrite (RegistroFacts.mapM_total _ velocidade).
  - cbn [bind]. apply inferir_retorna. intros n I.
    rewrite map_map in I. apply in_map_iff in I. destruct I as [r [E I]].
    rewrite Forall_forall in F. specialize (F r I).
    pose proof (velocidade_curta 308 _ n F E) as B.
    assert (C : (10 ^ N.of_nat 308 < 2 ^ 1024 - 2 ^ 970)%N)
      by (vm_compute; reflexivity).
    change (2 ^ 1024 - 2 ^ 970)%Z
      with (Z.of_N (2 ^ 1024 - 2 ^ 970)%N). lia.
  - intros v I. apply in_map_iff in I. destruct I as [r [<- I]].
    rewrite Forall_forall in F. specialize (F r I).
    apply transmissao_velocidades_curta.
    apply (digitos_ate_mono 308); [unfold MAX_STR_DIGITS; lia | exact F].
Qed.

Lemma tipo_velocidades_longa (df : list registro) :
  Exists (fun r => digitos_ate MAX_STR_DIGITS (valor_de r (coluna 6)) = false)
         df ->
  tipo_velocidades df = Raise ValueError.
Proof.
  intros H. unfold tipo_velocidades.
  assert (M : mapM transmissao_velocidades
                (map (fun r => valor_de r (coluna 6)) df)
              = Raise ValueError).
  { induction H as [r df H|r df H IH]; cbn [map mapM].
    - rewrite (transmissao_velocidades_longa _ H). reflexivity.
    - destruct (transmissao_velocidades (valor_de r (coluna 6)))
        as [x|e] eqn:E.
      + cbn [bind]. rewrite IH. reflexivity.
      + rewrite (transmissao_velocidades_erro _ _ E). reflexivity. }
  rewrite M. reflexivity.
Qed.

(** *** The type of the column *)

Lemma inferir_nulo (xs : list (option N)) (inteiro : bool) :
  (forall n, In (Some n) xs -> (n <= UINT64_MAX)%N) ->
  inferir true inteiro xs
  = Ret (if inteiro || existsb (fun x => match x with
                                         | Some _ => true
                                         | None => false
                                         end) xs
         then Flutuantes else Objetos).
Proof.
  revert inteiro. induction xs as [|[n|] xs IH]; intros inteiro H.
  - cbn [inferir existsb]. rewrite orb_false_r. reflexivity.
  - cbn [inferir existsb]. unfold float_de_int.
    assert (L : (Z.abs (Z.of_N n) <? 2 ^ 1024 - 2 ^ 970)%Z = true).
    { apply Z.ltb_lt. rewrite Z.abs_eq by lia.
      specialize (H n (or_introl eq_refl)).
      assert (C : (UINT64_MAX < 2 ^ 1024 - 2 ^ 970)%N)
        by (vm_compute; reflexivity).
      change (2 ^ 1024 - 2 ^ 970)%Z
        with (Z.of_N (2 ^ 1024 - 2 ^ 970)%N). lia. }
    rewrite L. cbn [bind negb andb].
    rewrite IH by (intros m I; apply H; right; exact I).
    rewrite orb_true_r. reflexivity.
  - cbn [inferir existsb]. apply IH. intros m I. apply H. right. exact I.
Qed.

Lemma inferir_inteiros (xs : list (option N)) (inteiro : bool) :
  (forall n, In (Some n) xs -> (n <= UINT64_MAX)%N) ->
  inferir false inteiro xs
  = Ret (if existsb (fun x => match x with
                              | Some _ => false
                              | None => true
                              end) xs
         then (if inteiro || existsb (fun x => match x with
                                               | Some _ => true
                                               | None => false
                                               end) xs
               then Flutuantes else Objetos)
         else (if inteiro || existsb (fun x => match x with
                                               | Some _ => true
                                               | None => false
                                               end) xs
               then Inteiros else Objetos)).
Proof.
  revert inteiro. induction xs as [|[n|] xs IH]; intros inteiro H.
  - cbn [inferir existsb]. rewrite orb_false_r. reflexivity.
  - cbn [inferir existsb]. unfold float_de_int.
    assert (L : (Z.abs (Z.of_N n) <? 2 ^ 1024 - 2 ^ 970)%Z = true).
    { apply Z.ltb_lt. rewrite Z.abs_eq by lia.
      specialize (H n (or_introl eq_refl)).
      assert (C : (UINT64_MAX < 2 ^ 1024 - 2 ^ 970)%N)
        by (vm_compute; reflexivity).
      change (2 ^ 1024 - 2 ^ 970)%Z
        with (Z.of_N (2 ^ 1024 - 2 ^ 970)%N). lia. }
    rewrite L. cbn [bind negb andb].
    assert (U : (UINT64_MAX <? n)%N = false)
      by (apply N.ltb_ge; apply H; left; reflexivity).
    rewrite U.
    rewrite IH by (intros m I; apply H; right; exact I).
    rewrite !orb_true_r. reflexivity.
  - cbn [inferir existsb].
    rewrite inferir_nulo by (intros m I; apply H; right; exact I).
    reflexivity.
Qed.

End TransmissaoFacts.

(* ====================================================================== *)
(** * Order of floats *)
(* ====================================================================== *)

Module OrdemFacts.
Import Py Pbev Aux Props.

(** Two floats compare in opposite ways from the two sides. *)
Lemma compare_antisym (x b : F64.float) :
  SFcompare x b
  = match SFcompare b x with
    | Some k => Some (CompOpp k)
    | None => None
    end.
Proof.
  destruct x as [s|s| |s m e], b as [s'|s'| |s' m' e'];
    try destruct s; try destruct s'; try reflexivity.
  - unfold SFcompare. f_equal. rewrite (Z.compare_antisym e' e).
    destruct (e' ?= e)%Z; cbn [CompOpp]; try reflexivity.
    rewrite CompOpp_involutive.
    apply (Pos.compare_cont_antisym m m' Eq).
  - unfold SFcompare. f_equal. rewrite (Z.compare_antisym e' e).
    destruct (e' ?= e)%Z; cbn [CompOpp]; try reflexivity.
    symmetry. apply (Pos.compare_cont_antisym m' m Eq).
Qed.

(** What is below [x] is not above or equal to it. *)
Lemma ltb_leb (b x : F64.float) :
  F64.ltb b x = true -> F64.leb x b = false.
Proof.
  unfold F64.ltb, F64.leb, SFltb, SFleb.
  rewrite (compare_antisym x b).
  destruct (SFcompare b x) as [[| |]|]; simpl; congruence.
Qed.

(** A float above 999 is above the lower edges of the bins. *)
Lemma acima_de_999 (x : F64.float) (z : Z) :
  F64.ltb (F64.of_Z 999) x = true ->
  In z [50; 100; 150; 200; 250]%Z ->
  F64.ltb (F64.of_Z z) x = true.
Proof.
  intros G I.
  destruct x as [s|s| |s m e]; try destruct s; try discriminate G.
  - repeat (destruct I as [<-|I]; [reflexivity|]). destruct I.
  - revert G. unfold F64.ltb, SFltb.
    repeat (destruct I as [<-|I];
            [vm_compute (F64.of_Z _); unfold SFcompare;
             destruct (Z.compare_spec (-43) e);
             destruct (Z.compare_spec (-47) e);
             destruct (Z.compare_spec (-46) e);
             destruct (Z.compare_spec (-45) e);
             try lia; try congruence; try reflexivity|]).
    destruct I.
Qed.

End OrdemFacts.

(* ====================================================================== *)
(** * Duplicates and order *)
(* ====================================================================== *)

Module MontagemFacts.
Import Py Pbev Aux Props PyFacts.

(** *** Equal rows *)

Lemma eqb_refl (x : F64.float) :
  F64.eqb x x || (F64.is_nan x && F64.is_nan x) = true.
Proof.
  destruct x as [s|s| |s m e]; try destruct s; try reflexivity.
  all: unfold F64.eqb, SFeqb, SFcompare;
    rewrite Z.compare_refl, (Pos.compare_cont_refl m Eq); reflexivity.
Qed.

Lemma valor_igual_refl (v : valor) : valor_igual v v = true.
Proof.
  destruct v as [|s|x|n|b]; simpl.
  - reflexivity.
  - apply str_eqb_refl.
  - apply eqb_refl.
  - apply Z.eqb_refl.
  - destruct b; reflexivity.
Qed.

Lemma registro_igual_refl (r : registro) : registro_igual r r = true.
Proof.
  induction r as [|[k v] r IH]; [reflexivity|]. simpl.
  rewrite str_eqb_refl, valor_igual_refl, IH. reflexivity.
Qed.

(** *** [drop_duplicates] *)

Lemma dd_novo (vistos df : list registro) (x : registro) :
  In x (drop_duplicates_desde vistos df) ->
  existsb (registro_igual x) vistos = false.
Proof.
  revert vistos; induction df as [|r df IH]; intros vistos; simpl; [tauto|].
  destruct (existsb (registro_igual r) vistos) eqn:E.
  - apply IH.
  - intros [<-|I]; [exact E|].
    specialize (IH _ I). simpl in IH. apply orb_false_iff in IH. tauto.
Qed.

Lemma dd_sem_duplicatas (vistos df : list registro) :
  sem_duplicatas (drop_duplicates_desde vistos df) = true.
Proof.
  revert vistos; induction df as [|r df IH]; intros vistos; simpl;
    [reflexivity|].
  destruct (existsb (registro_igual r) vistos); [apply IH|].
  cbn [sem_duplicatas]. rewrite IH, andb_true_r. apply negb_true_iff.
  destruct (existsb _ (drop_duplicates_desde (r :: vistos) df)) eqn:E;
    [|reflexivity].
  apply existsb_exists in E. destruct E as [x [I G]].
  apply dd_novo in I. simpl in I. apply orb_false_iff in I.
  destruct I as [I _]. congruence.
Qed.

Lemma dd_In (vistos df : list registro) (x : registro) :
  In x (drop_duplicates_desde vistos df) -> In x df.
Proof.
  revert vistos; induction df as [|r df IH]; intros vistos; simpl; [tauto|].
  destruct (existsb _ vistos); simpl; intros H.
  - right. exact (IH _ H).
  - destruct H as [H|H]; [left; exact H | right; exact (IH _ H)].
Qed.

(** Each row is equal to a row seen before or to a row that is kept. *)
Lemma dd_cobre (vistos df : list registro) (x : registro) :
  In x df ->
  exists y, (In y vistos \/ In y (drop_duplicates_desde vistos df))
            /\ registro_igual x y = true.
Proof.
  revert vistos; induction df as [|r df IH]; intros vistos; [intros []|].
  intros [<-|I]; simpl.
  - destruct (existsb (registro_igual r) vistos) eqn:E.
    + apply existsb_exists in E. destruct E as [y [I G]].
      exists y. split; [left; exact I | exact G].
    + exists r. split; [right; left; reflexivity|].
      apply registro_igual_refl.
  - destruct (existsb (registro_igual r) vistos) eqn:E.
    + apply IH. exact I.
    + destruct (IH (r :: vistos) I) as [y [[[<-|J]|J] G]].
      * exists r. split; [right; left; reflexivity | exact G].
      * exists y. split; [left; exact J | exact G].
      * exists y. split; [right; right; exact J | exact G].
Qed.

Lemma dd_sem_efeito (vistos df : list registro) :
  sem_duplicatas df = true ->
  (forall v x, In v vistos -> In x df -> registro_igual x v = false) ->
  drop_duplicates_desde vistos df = df.
Proof.
  revert vistos; induction df as [|r df IH]; intros vistos S H;
    [reflexivity|].
  cbn [sem_duplicatas] in S. apply andb_true_iff in S.
  destruct S as [S1 S2]. apply negb_true_iff in S1. simpl.
  assert (E : existsb (registro_igual r) vistos = false).
  { destruct (existsb _ vistos) eqn:E; [|reflexivity].
    apply existsb_exists in E. destruct E as [v [I G]].
    rewrite (H v r I (or_introl eq_refl)) in G. discriminate. }
  rewrite E. f_equal. apply IH; [exact S2|].
  intros v x [<-|I] J.
  - destruct (registro_igual x r) eqn:G; [|reflexivity].
    assert (X : existsb (fun y => registro_igual y r) df = true)
      by (apply existsb_exists; exists x; auto).
    congruence.
  - apply (H v x I). right. exact J.
Qed.

(** *** [sort_values] *)

Lemma str_compare_antisym (s t : str) :
  str_compare t s = CompOpp (str_compare s t).
Proof.
  revert t; induction s as [|c s IH]; intros [|d t]; simpl; try reflexivity.
  rewrite (N.compare_antisym c d).
  destruct (c ?= d)%N; simpl; [apply IH | reflexivity | reflexivity].
Qed.

Lemma cell_compare_antisym (a b : cell) :
  cell_compare b a = CompOpp (cell_compare a b).
Proof.
  destruct a, b; simpl; try reflexivity. apply str_compare_antisym.
Qed.

Lemma chave_compare_antisym (a b : list cell) :
  chave_compare b a = CompOpp (chave_compare a b).
Proof.
  revert b; induction a as [|x a IH]; intros [|y b]; simpl; try reflexivity.
  rewrite (cell_compare_antisym x y).
  destruct (cell_compare x y); simpl; [apply IH | reflexivity | reflexivity].
Qed.

Lemma inserir_cabeca (r : registro) (df : list registro) :
  match inserir r df with
  | [] => False
  | h :: _ => h = r \/ exists t, df = h :: t
  end.
Proof.
  destruct df as [|x df]; cbn [inserir]; [left; reflexivity|].
  destruct (chave_compare (chave r) (chave x));
    [left; reflexivity | left; reflexivity | right].
  exists df. reflexivity.
Qed.

Lemma ordenado_cons (a b : registro) (df : list registro) :
  ordenado (a :: b :: df) = em_ordem a b && ordenado (b :: df).
Proof. reflexivity. Qed.

Lemma ordenado_inserir (r : registro) (df : list registro) :
  ordenado df = true -> ordenado (inserir r df) = true.
Proof.
  induction df as [|x df IH]; intros O; [reflexivity|].
  cbn [inserir].
  destruct (chave_compare (chave r) (chave x)) eqn:E.
  - rewrite ordenado_cons, O. unfold em_ordem. rewrite E. reflexivity.
  - rewrite ordenado_cons, O. unfold em_ordem. rewrite E. reflexivity.
  - assert (O' : ordenado df = true).
    { destruct df as [|y df]; [reflexivity|].
      rewrite ordenado_cons in O. apply andb_true_iff in O. tauto. }
    specialize (IH O'). pose proof (inserir_cabeca r df) as C.
    destruct (inserir r df) as [|h t]; [destruct C|].
    rewrite ordenado_cons, IH, andb_true_r.
    destruct C as [->|[t' ->]].
    + unfold em_ordem. rewrite chave_compare_antisym, E. reflexivity.
    + rewrite ordenado_cons in O. apply andb_true_iff in O. tauto.
Qed.

Lemma ordenado_sort_values (df : list registro) :
  ordenado (sort_values df) = true.
Proof.
  induction df as [|r df IH]; [reflexivity|].
  unfold sort_values in *. cbn [fold_right]. apply ordenado_inserir, IH.
Qed.

Lemma Permutation_inserir (r : registro) (df : list registro) :
  Permutation (inserir r df) (r :: df).
Proof.
  induction df as [|x df IH]; cbn [inserir]; [apply Permutation_refl|].
  destruct (chave_compare (chave r) (chave x)); try apply Permutation_refl.
  apply perm_trans with (x :: r :: df);
    [apply perm_skip; exact IH | apply perm_swap].
Qed.

Lemma Permutation_sort_values (df : list registro) :
  Permutation (sort_values df) df.
Proof.
  induction df as [|r df IH]; [apply Permutation_refl|].
  unfold sort_values in *. cbn [fold_right].
  apply perm_trans with (r :: fold_right inserir [] df);
    [apply Permutation_inserir | apply perm_skip; exact IH].
Qed.

Lemma sort_values_ordenado (df : list registro) :
  ordenado df = true -> sort_values df = df.
Proof.
  induction df as [|r df IH]; intros O; [reflexivity|].
  unfold sort_values in *. cbn [fold_right].
  destruct df as [|x df]; [reflexivity|].
  rewrite ordenado_cons in O. apply andb_true_iff in O. destruct O as [E O].
  rewrite (IH O). cbn [inserir]. unfold em_ordem in E.
  destruct (chave_compare (chave r) (chave x)); [reflexivity..|discriminate].
Qed.

(** *** The order of the rows that are kept *)

Lemma dd_subsequencia (vistos df : list registro) :
  subsequencia (drop_duplicates_desde vistos df) df.
Proof.
  revert vistos. induction df as [|r df IH]; intros vistos;
    cbn [drop_duplicates_desde]; [constructor|].
  destruct (existsb (registro_igual r) vistos); constructor; apply IH.
Qed.

Lemma existsb_rev {A} (f : A -> bool) (l : list A) :
  existsb f (rev l) = existsb f l.
Proof.
  induction l as [|x l IH]; [reflexivity|]. cbn [rev existsb].
  rewrite existsb_app, IH. cbn [existsb]. rewrite orb_false_r.
  apply orb_comm.
Qed.

(** A row after the others is kept exactly when it equals none of the
    rows kept before it. *)
Lemma dd_snoc (vistos df : list registro) (r : registro) :
  drop_duplicates_desde vistos (df ++ [r])
  = drop_duplicates_desde vistos df
    ++ (if existsb (registro_igual r)
                   (rev (drop_duplicates_desde vistos df) ++ vistos)
        then [] else [r]).
Proof.
  revert vistos. induction df as [|x df IH]; intros vistos.
  - cbn [app drop_duplicates_desde rev].
    destruct (existsb (registro_igual r) vistos); reflexivity.
  - cbn [app drop_duplicates_desde].
    destruct (existsb (registro_igual x) vistos).
    + apply IH.
    + rewrite IH. cbn [app rev]. rewrite <- app_assoc. reflexivity.
Qed.

End MontagemFacts.

(* ====================================================================== *)
(** * File names *)
(* ====================================================================== *)

Module SaidaFacts.
Import Py Pbev Aux Props Saida PyFacts.

Lemma existsb_app_false (f : char -> bool) (a b : str) :
  existsb f a = false -> existsb f b = false -> existsb f (a ++ b) = false.
Proof.
  intros A B. rewrite existsb_app, A, B. reflexivity.
Qed.

Lemma basename_sem_barra (s : str) :
  existsb (N.eqb SLASH) s = false -> basename s = s.
Proof.
  destruct s as [|c s]; [reflexivity|]. cbn [existsb basename].
  rewrite orb_false_iff. intros [C H]. rewrite H.
  rewrite N.eqb_sym, C. reflexivity.
Qed.

(** The directories of a path are dropped. *)
Lemma basename_app (dir nome : str) :
  existsb (N.eqb SLASH) nome = false ->
  basename (dir ++ [SLASH] ++ nome) = nome.
Proof.
  intros H. induction dir as [|c dir IH].
  - cbn [app basename]. rewrite H, N.eqb_refl. reflexivity.
  - cbn [app basename].
    assert (E : existsb (N.eqb SLASH) (dir ++ [SLASH] ++ nome) = true).
    { rewrite existsb_app. cbn [app existsb]. rewrite N.eqb_refl.
      apply orb_true_r. }
    cbn [app] in E. rewrite E. exact IH.
Qed.

Lemma ano_no_inicio_Some (s m : str) :
  ano_no_inicio s = Some m ->
  exists c d, m = [50; 48; c; d]%N
              /\ re_digit c = true /\ re_digit d = true
              /\ startswith m s = true.
Proof.
  unfold ano_no_inicio.
  destruct s as [|a [|b [|c [|d s]]]]; try discriminate.
  destruct (N.eqb_spec a 50) as [->|_]; [|discriminate].
  destruct (N.eqb_spec b 48) as [->|_]; [|discriminate].
  cbn [andb]. destruct (re_digit c) eqn:C; [|discriminate].
  destruct (re_digit d) eqn:D; [|discriminate].
  intros [= <-]. exists c, d. repeat split; auto.
  cbn [startswith]. rewrite !N.eqb_refl. reflexivity.
Qed.

(** What the search finds is "20" and two digits, and occurs in the
    text. *)
Lemma re_search_ano_Some (s m : str) :
  re_search_ano s = Some m ->
  exists c d, m = [50; 48; c; d]%N
              /\ re_digit c = true /\ re_digit d = true
              /\ contains m s = true.
Proof.
  induction s as [|x s IH].
  - discriminate.
  - cbn [re_search_ano]. destruct (ano_no_inicio (x :: s)) as [m'|] eqn:E.
    + intros [= <-]. destruct (ano_no_inicio_Some _ _ E) as [c [d [Em [C [D S]]]]].
      exists c, d. repeat split; auto. cbn [contains]. rewrite S.
      reflexivity.
    + intros H. destruct (IH H) as [c [d [Em [C [D S]]]]].
      exists c, d. repeat split; auto. cbn [contains]. rewrite S.
      apply orb_true_r.
Qed.

(** A character that is not "2" starts no match. *)
Lemma re_search_ano_skip (x : char) (s : str) :
  (x =? 50)%N = false -> re_search_ano (x :: s) = re_search_ano s.
Proof.
  intros H. cbn [re_search_ano].
  assert (E : ano_no_inicio (x :: s) = None).
  { unfold ano_no_inicio. destruct s as [|b [|c [|d s]]]; try reflexivity.
    rewrite H. reflexivity. }
  rewrite E. reflexivity.
Qed.

(** A text without "2" is skipped by the search, and holds no match. *)
Lemma re_search_ano_prefixo (pre s : str) :
  existsb (N.eqb 50%N) pre = false ->
  re_search_ano (pre ++ s) = re_search_ano s.
Proof.
  induction pre as [|x pre IH]; [reflexivity|].
  cbn [existsb app]. intros H. apply orb_false_iff in H.
  rewrite re_search_ano_skip by (rewrite N.eqb_sym; tauto).
  apply IH. tauto.
Qed.

Lemma re_search_ano_nenhum (s : str) :
  existsb (N.eqb 50%N) s = false -> re_search_ano s = None.
Proof.
  intros H. rewrite <- (app_nil_r s).
  rewrite re_search_ano_prefixo by exact H. reflexivity.
Qed.

Lemma re_search_ano_inicio (c d : char) (s : str) :
  re_digit c = true -> re_digit d = true ->
  re_search_ano ([50; 48; c; d]%N ++ s) = Some [50; 48; c; d]%N.
Proof.
  intros C D. cbn [app re_search_ano ano_no_inicio].
  rewrite !N.eqb_refl, C, D. reflexivity.
Qed.

(** The name of an output file has no slash, and its directory is
    dropped by [basename]. *)
Lemma basename_path_join (pasta nome : str) :
  existsb (N.eqb SLASH) nome = false ->
  basename (path_join pasta nome) = nome.
Proof.
  intros H. unfold path_join.
  assert (S : startswith_sep nome = false).
  { unfold startswith_sep. destruct nome as [|c nome]; [reflexivity|].
    cbn [existsb] in H. apply orb_false_iff in H.
    rewrite N.eqb_sym. tauto. }
  rewrite S. destruct pasta as [|p pasta].
  - apply basename_sem_barra. exact H.
  - destruct (endswith_sep (p :: pasta)) eqn:E.
    + unfold endswith_sep in E.
      destruct (rev (p :: pasta)) as [|l r] eqn:R; [discriminate|].
      apply N.eqb_eq in E. subst l.
      apply (f_equal (@rev char)) in R. rewrite rev_involutive in R.
      rewrite R. cbn [rev]. rewrite <- app_assoc.
      apply basename_app. exact H.
    + apply basename_app. exact H.
Qed.

Lemma detectar_ano_forma (p : str) :
  detectar_ano p = U "PBEV"
  \/ exists c d,
      detectar_ano p = [50; 48; c; d]%N
      /\ re_digit c = true /\ re_digit d = true
      /\ contains (detectar_ano p) (basename p) = true.
Proof.
  unfold detectar_ano; cbv zeta.
  destruct (re_search_ano (basename p)) as [m|] eqn:E;
    [|left; reflexivity].
  right. destruct (re_search_ano_Some _ _ E) as [c [d [-> [C [D S]]]]].
  exists c, d. repeat split; assumption.
Qed.

End SaidaFacts.

(* ====================================================================== *)
(** * Further properties *)
(* ====================================================================== *)

Import Props Saida.

(** X1.  What [limpar] returns for a cell, when it is not null, is a
    non-empty text without white space at its ends, without line feed,
    and none of the placeholder tokens.  Cleaning it again returns it
    unchanged, and [para_numero] gives the same for a cell and for its
    cleaned value. *)
Theorem X1_limpar_saida :
  (forall (c : cell) (v : str),
      limpar c = Some v ->
      v <> []
      /\ aparado v = true
      /\ count LF v = 0
      /\ str_in v TOKENS_VAZIOS = false
      /\ limpar (Some v) = Some v)
  /\ (forall c : cell, limpar (limpar c) = limpar c)
  /\ (forall c : cell, para_numero (limpar c) = para_numero c).
Proof.
  assert (I : forall c, limpar (limpar c) = limpar c)
    by exact LimpezaFacts.limpar_idem.
  split; [|split; [exact I|]].
  - intros c v E.
    split; [intros ->; exact (LimparFacts.limpar_not_nil c E)|].
    assert (S : limpar (Some v) = Some v) by (rewrite <- E; apply I).
    destruct c as [s|]; [|discriminate].
    rewrite LimparFacts.limpar_Some in E; cbv zeta in E.
    destruct (str_in _ _) eqn:T; [discriminate|]. injection E as <-.
    split; [apply LimpezaFacts.limpo_aparado|].
    split; [apply LimpezaFacts.limpo_sem_LF|].
    split; [exact T | exact S].
  - intros c. unfold para_numero. rewrite I. reflexivity.
Qed.

(** The cell " 9,8(line feed)km " is cleaned to "9,8 km". *)
Lemma X1_limpar_saida_witness :
  aparado (U "9,8 km") = true
  /\ limpar (Some (U "9,8 km")) = Some (U "9,8 km").
Proof.
  destruct (proj1 X1_limpar_saida
                  (Some (U " 9,8" ++ [LF] ++ U "km ")) (U "9,8 km") eq_refl)
    as [_ [A [_ [_ L]]]].
  split; [exact A | exact L].
Defined.

(** X2.  White space around the text of a cell does not count: the cell
    is cleaned, and read as a number, as the text alone is.  A cell made of
    white space only is null. *)
Theorem X2_limpar_espacos :
  forall w1 w2 s : str,
    forallb isspace w1 = true ->
    forallb isspace w2 = true ->
    limpar (Some (w1 ++ s ++ w2)) = limpar (Some s)
    /\ para_numero (Some (w1 ++ s ++ w2)) = para_numero (Some s)
    /\ limpar (Some (w1 ++ w2)) = None.
Proof.
  intros w1 w2 s H1 H2.
  assert (L : forall t, limpar (Some (w1 ++ t ++ w2)) = limpar (Some t)).
  { intros t. rewrite !LimparFacts.limpar_Some; cbv zeta.
    rewrite StripFacts.strip_espacos by assumption. reflexivity. }
  split; [apply L|]. split.
  - unfold para_numero. rewrite L. reflexivity.
  - change (w1 ++ w2) with (w1 ++ [] ++ w2). rewrite L. reflexivity.
Qed.

(** A tab before and a line feed after "ND". *)
Lemma X2_limpar_espacos_witness :
  limpar (Some ([9%N] ++ U "ND" ++ [LF])) = None.
Proof.
  exact (eq_trans
           (proj1 (X2_limpar_espacos [9%N] [LF] (U "ND") eq_refl eq_refl))
           eq_refl).
Defined.

(** X3.  A cell that holds an unsigned decimal numeral, with a comma or a
    point before the decimals or with no decimals, is read as the float
    nearest to that decimal number. *)
Theorem X3_para_numero_decimal :
  forall (d : char) (a b : str),
    PyFloat.c_isdigit d = true ->
    forallb PyFloat.c_isdigit a = true ->
    forallb PyFloat.c_isdigit b = true ->
    para_numero (Some ((d :: a) ++ [COMMA] ++ b))
    = Ret (Some (F64.of_decimal false
                   (PyFloat.digits_value ((d :: a) ++ b))
                   (- Z.of_nat (List.length b))))
    /\ para_numero (Some ((d :: a) ++ [DOT] ++ b))
       = Ret (Some (F64.of_decimal false
                      (PyFloat.digits_value ((d :: a) ++ b))
                      (- Z.of_nat (List.length b))))
    /\ para_numero (Some (d :: a))
       = Ret (Some (F64.of_decimal false (PyFloat.digits_value (d :: a)) 0)).
Proof.
  intros d a b D A B.
  assert (P : para_numero (Some ((d :: a) ++ [DOT] ++ b))
              = Ret (Some (F64.of_decimal false
                             (PyFloat.digits_value ((d :: a) ++ b))
                             (- Z.of_nat (List.length b))))).
  { assert (H : forallb de_numeral (a ++ [DOT] ++ b) = true)
      by (apply NumeralFacts.de_numeral_app; auto).
    assert (H' : forallb de_numeral ((d :: a) ++ [DOT] ++ b) = true).
    { change (forallb de_numeral ((d :: a) ++ [DOT] ++ b))
        with (de_numeral d && forallb de_numeral (a ++ [DOT] ++ b)).
      unfold de_numeral at 1. rewrite D, H. reflexivity. }
    rewrite (FloatFacts.para_numero_limpo _ ((d :: a) ++ [DOT] ++ b))
      by (apply NumeralFacts.limpar_numeral; assumption).
    assert (R : replace COMMA DOT ((d :: a) ++ [DOT] ++ b)
                = (d :: a) ++ [DOT] ++ b).
    { rewrite !NumeralFacts.replace_app.
      rewrite (NumeralFacts.digitos_sem_virgula (d :: a))
        by (cbn [forallb]; rewrite D; assumption).
      rewrite (NumeralFacts.digitos_sem_virgula b) by assumption.
      reflexivity. }
    rewrite R.
    rewrite (NumeralFacts.float_of_str_numeral _ _ H'
               (NumeralFacts.strtod_decimal d a b D A B)).
    reflexivity. }
  split; [|split; [exact P|]].
  - rewrite <- FloatFacts.para_numero_virgula_ponto.
    assert (R : replace COMMA DOT ((d :: a) ++ [COMMA] ++ b)
                = (d :: a) ++ [DOT] ++ b).
    { rewrite !NumeralFacts.replace_app.
      rewrite (NumeralFacts.digitos_sem_virgula (d :: a))
        by (cbn [forallb]; rewrite D; assumption).
      rewrite (NumeralFacts.digitos_sem_virgula b) by assumption.
      reflexivity. }
    rewrite R. exact P.
  - assert (H : forallb de_numeral a = true).
    { rewrite forallb_forall in *. intros c I. unfold de_numeral.
      rewrite (A c I). reflexivity. }
    assert (H' : forallb de_numeral (d :: a) = true).
    { cbn [forallb]. unfold de_numeral at 1. rewrite D, H. reflexivity. }
    rewrite (FloatFacts.para_numero_limpo _ (d :: a))
      by (apply NumeralFacts.limpar_numeral; assumption).
    rewrite NumeralFacts.digitos_sem_virgula
      by (cbn [forallb]; rewrite D; assumption).
    rewrite (NumeralFacts.float_of_str_numeral _ _ H'
               (NumeralFacts.strtod_inteiro d a D A)).
    reflexivity.
Qed.

(** "14,0" is read as 14. *)
Lemma X3_para_numero_decimal_witness :
  para_numero (Some (U "14,0")) = Ret (Some (F64.of_Z 14)).
Proof.
  exact (eq_trans
           (proj1 (X3_para_numero_decimal 49%N (U "4") (U "0")
                     eq_refl eq_refl eq_refl))
           eq_refl).
Defined.


(** X4.  A row is a header as soon as one of its cells holds one of the
    header keywords, in any letter case and anywhere in the cell: such a
    row is never extracted, even when it is a vehicle row. *)
Theorem X4_palavra_de_cabecalho :
  forall (row : linha) (cel kw : str),
    In (Some cel) row ->
    In kw PALAVRAS_CABECALHO ->
    contains kw (lower cel) = true ->
    eh_cabecalho row = true /\ forall pdf, ~ In row (extrair pdf).
Proof.
  intros row cel kw I K C.
  assert (N : kw <> []).
  { assert (F : forallb nao_vazia PALAVRAS_CABECALHO = true) by reflexivity.
    rewrite forallb_forall in F. specialize (F kw K).
    intros ->. discriminate F. }
  assert (H : eh_cabecalho row = true).
  { unfold eh_cabecalho. apply existsb_exists. exists kw.
    split; [exact K|].
    apply (ClassificacaoFacts.palavra_na_linha row cel kw I N C). }
  split; [exact H|]. intros pdf J.
  rewrite ExtracaoFacts.extrair_filter, filter_In,
    ExtracaoFacts.linha_aceita_iff in J.
  destruct J as [_ [_ [J _]]]. congruence.
Qed.

(** A vehicle row whose engine cell reads "Motor 1.0". *)
Lemma X4_palavra_de_cabecalho_witness :
  eh_veiculo (Some (U "Compacto") :: Some (U "Fiat")
              :: Some (U "Motor 1.0") :: repeat None 25) = true
  /\ eh_cabecalho (Some (U "Compacto") :: Some (U "Fiat")
                   :: Some (U "Motor 1.0") :: repeat None 25) = true.
Proof.
  split; [reflexivity|].
  apply (X4_palavra_de_cabecalho
           (Some (U "Compacto") :: Some (U "Fiat")
            :: Some (U "Motor 1.0") :: repeat None 25)
           (U "Motor 1.0") (U "motor")).
  - right. right. left. reflexivity.
  - do 4 right. left. reflexivity.
  - reflexivity.
Defined.

(** X5.  No category name is taken for a header: a row whose first cell
    is a category name, in lower or in upper case, and whose other cells
    are empty or null is a vehicle row and no header, and it is extracted
    when it has at least 25 cells. *)
Theorem X5_categorias_sem_cabecalho :
  forall (cat c0 : str) (resto : linha),
    In cat CATEGORIAS ->
    c0 = cat \/ c0 = upper cat ->
    forallb (fun x => negb (truthy x)) resto = true ->
    eh_cabecalho (Some c0 :: resto) = false
    /\ eh_veiculo (Some c0 :: resto) = true
    /\ (24 <= List.length resto ->
        extrair [[[Some c0 :: resto]]] = [Some c0 :: resto]).
Proof.
  intros cat c0 resto I C R.
  assert (H : eh_cabecalho (Some c0 :: resto) = false
              /\ eh_veiculo (Some c0 :: resto) = true).
  { unfold CATEGORIAS in I.
    repeat (destruct I as [<-|I];
            [destruct C as [->| ->];
             [|match goal with
               | |- context [upper ?l] =>
                   let v := eval vm_compute in (upper l) in
                   change (upper l) with v
               end];
             (split;
              [unfold eh_cabecalho;
               rewrite ClassificacaoFacts.texto_so_primeira by exact R;
               vm_compute; reflexivity
              |reflexivity])|]).
    destruct I. }
  destruct H as [H1 H2]. split; [exact H1|]. split; [exact H2|].
  intros L. rewrite ExtracaoFacts.extrair_filter. cbn [List.concat app filter].
  assert (A : linha_aceita (Some c0 :: resto) = true).
  { apply ExtracaoFacts.linha_aceita_iff. cbn [List.length].
    repeat split; [lia | exact H1 | exact H2]. }
  rewrite A. reflexivity.
Qed.

(** "PICAPE" followed by 24 null cells. *)
Lemma X5_categorias_sem_cabecalho_witness :
  extrair [[[Some (U "PICAPE") :: repeat None 24]]]
  = [Some (U "PICAPE") :: repeat None 24].
Proof.
  apply (proj2 (proj2 (X5_categorias_sem_cabecalho
                         (U "picape") (U "PICAPE") (repeat None 24)
                         ltac:(do 13 right; left; reflexivity)
                         (or_intror eq_refl) eq_refl))).
  simpl. lia.
Defined.

(** X6.  [extrair] returns, in the order of the document, the rows of
    all tables of all pages that pass the test of its inner loop.  The
    rows of two documents put end to end are the rows of the one followed
    by the rows of the other, no more rows come out than went in, and
    extracting again from the extracted rows changes nothing. *)
Theorem X6_extrair_ordem :
  (forall pdf : list pagina,
      extrair pdf = filter linha_aceita (List.concat (List.concat pdf)))
  /\ (forall p1 p2 : list pagina,
         extrair (p1 ++ p2) = extrair p1 ++ extrair p2)
  /\ (forall pdf : list pagina,
         List.length (extrair pdf)
         <= List.length (List.concat (List.concat pdf)))
  /\ (forall pdf : list pagina, extrair [[extrair pdf]] = extrair pdf).
Proof.
  split; [exact ExtracaoFacts.extrair_filter|]. split; [|split].
  - intros p1 p2. rewrite !ExtracaoFacts.extrair_filter.
    rewrite !concat_app, filter_app. reflexivity.
  - intros pdf. rewrite ExtracaoFacts.extrair_filter. apply filter_length_le.
  - intros pdf. rewrite (ExtracaoFacts.extrair_filter [[extrair pdf]]).
    change (List.concat (List.concat [[extrair pdf]]))
      with (extrair pdf ++ []).
    rewrite app_nil_r, ExtracaoFacts.extrair_filter.
    apply ClassificacaoFacts.filter_idem.
Qed.

(** X7.  A record that [parsear] builds has exactly the 28 columns of the
    schema, in its order; a numeric column holds a float or null, and any
    other column holds null or a text that is trimmed, has no line feed
    and is no placeholder token. *)
Theorem X7_registro_tipos :
  forall (row : linha) (reg : registro),
    parsear_linha row = Ret (Some reg) ->
    map fst reg = map snd COLUNAS_PDF
    /\ forall idx nome,
        In (idx, nome) COLUNAS_PDF ->
        exists v,
          dict_get nome reg = Some v
          /\ if existsb (Nat.eqb idx) COLUNAS_NUMERICAS
             then valor_numerico v = true
             else valor_textual v = true.
Proof.
  intros row reg P.
  apply ClassificacaoFacts.parsear_linha_Some in P. destruct P as [_ ->].
  split; [reflexivity|]. intros idx nome I.
  exists (valor_do_campo idx (nth idx row None)).
  split; [apply ClassificacaoFacts.dict_get_registro_de; exact I|].
  apply ClassificacaoFacts.valor_do_campo_tipo.
Qed.

(** The sample row. *)
Lemma X7_registro_tipos_witness :
  map fst (registro_de Exemplos.linha_argo) = map snd COLUNAS_PDF.
Proof.
  exact (proj1 (X7_registro_tipos Exemplos.linha_argo
                  (registro_de Exemplos.linha_argo) eq_refl)).
Defined.

(** X8.  Only the first 28 cells of a row are read: a row and the row cut
    after its 28th cell give the same record.  The records of a list of
    rows are the records of its parts, in order. *)
Theorem X8_celulas_alem_do_esquema :
  (forall row : linha, parsear_linha (firstn 28 row) = parsear_linha row)
  /\ (forall linhas : list linha,
         parsear (map (firstn 28) linhas) = parsear linhas)
  /\ (forall l1 l2 : list linha,
         parsear (l1 ++ l2)
         = (r1 <- parsear l1 ;; r2 <- parsear l2 ;; Ret (r1 ++ r2)))
  /\ (forall linhas : list linha,
         exists regs, parsear linhas = Ret regs
                      /\ List.length regs <= List.length linhas).
Proof.
  split; [|split; [|split]].
  - intros row. rewrite !RegistroFacts.parsear_linha_registro.
    rewrite ClassificacaoFacts.marca_limpa_firstn,
      ClassificacaoFacts.registro_de_firstn.
    reflexivity.
  - intros linhas. rewrite !RegistroFacts.parsear_registros.
    rewrite ClassificacaoFacts.registros_de_firstn. reflexivity.
  - intros l1 l2. rewrite !RegistroFacts.parsear_registros. cbn [bind].
    rewrite ClassificacaoFacts.registros_de_app. reflexivity.
  - intros linhas. exists (registros_de linhas).
    split; [apply RegistroFacts.parsear_registros|].
    induction linhas as [|row linhas IH]; [simpl; lia|].
    unfold registros_de in *. cbn [flat_map]. rewrite length_app.
    destruct (marca_limpa row); simpl; lia.
Qed.


(** X9.  On the frame that [main] builds from the records of [parsear],
    [pos_processar] returns when there is a record and no transmission
    code has a run of more than 308 digits.  Whenever it returns, every
    row has 37 columns: the 28 of the schema in their order, then the nine
    derived ones; of the 28, only the propulsion and the seal columns are
    assigned, the other 26 keep their value. *)
Theorem X9_colunas_do_quadro :
  forall linhas : list linha,
    (registros_de linhas <> [] ->
     Forall (fun r => digitos_ate 308 (valor_de r (coluna 6)) = true)
            (registros_de linhas) ->
     exists df',
       pos_processar (map tipos_numericos (registros_de linhas)) = Ret df')
    /\ forall df' : list registro,
        pos_processar (map tipos_numericos (registros_de linhas)) = Ret df' ->
        Forall2
          (fun r r' =>
             map fst r' = map snd COLUNAS_PDF ++ COLUNAS_DERIVADAS
             /\ List.length r' = 37
             /\ forall idx,
                 idx < 28 -> idx <> 5 -> idx <> 27 ->
                 dict_get (coluna idx) r' = dict_get (coluna idx) r)
          (map tipos_numericos (registros_de linhas)) df'.
Proof.
  intros linhas. split.
  - intros N F.
    destruct (TransmissaoFacts.tipo_velocidades_retorna _ F) as [t T].
    eexists.
    apply (PipelineFacts.quadro_retorna _ t N
             (PipelineFacts.presentes_registros_de linhas) T).
  - intros df' E.
    destruct (PipelineFacts.quadro_Ret _ _
                (PipelineFacts.presentes_registros_de linhas) E)
      as [_ [t [_ ->]]].
    apply PipelineFacts.Forall2_map. intros r I.
    apply in_map_iff in I. destruct I as [r0 [<- I]].
    apply RegistroFacts.In_registros_de in I.
    destruct I as [row [_ [_ ->]]].
    split; [reflexivity|]. split; [reflexivity|].
    intros idx. apply QuadroFacts.derivado_coluna.
Qed.

(** The frame of the sample row: [pos_processar] returns, and the
    category is kept. *)
Lemma X9_colunas_do_quadro_witness :
  exists r',
    pos_processar (map tipos_numericos (registros_de [Exemplos.linha_argo]))
    = Ret [r']
    /\ dict_get (coluna 0) r' = Some (VStr (U "Compacto")).
Proof.
  assert (E : exists r',
             pos_processar
               (map tipos_numericos (registros_de [Exemplos.linha_argo]))
             = Ret [r'])
    by (eexists; vm_compute; reflexivity).
  destruct E as [r' E]. exists r'. split; [exact E|].
  destruct (PipelineFacts.Forall2_cabeca _ _ _ _ _
              (proj2 (X9_colunas_do_quadro [Exemplos.linha_argo]) [r'] E))
    as [_ [_ C]].
  rewrite (C 0) by lia. reflexivity.
Defined.

(** X10.  Running [pos_processar] on the frame that it returned gives
    that frame again: the standardised propulsion label and the seal are
    fixed points, and the derived columns are computed from columns that
    the function does not change. *)
Theorem X10_pos_processar_idempotente :
  forall df df' : list registro,
    Forall (fun r => colunas_presentes r = true) df ->
    pos_processar df = Ret df' ->
    pos_processar df' = Ret df'.
Proof.
  intros df df' P E.
  destruct (PipelineFacts.pos_processar_Ret df df' P E)
    as [N [t [T [V ->]]]].
  rewrite (PipelineFacts.pos_processar_retorna _ t).
  - rewrite map_map. f_equal. apply map_ext. intros r.
    apply QuadroFacts.derivado_idem.
  - destruct df; [congruence | discriminate].
  - apply Forall_forall. intros r I. apply in_map_iff in I.
    destruct I as [r0 [<- I]]. apply QuadroFacts.derivado_presentes.
    rewrite Forall_forall in P. exact (P r0 I).
  - rewrite QuadroFacts.tipo_velocidades_derivado. exact T.
  - rewrite forallb_forall in *. intros r I. apply in_map_iff in I.
    destruct I as [r0 [<- I]].
    rewrite QuadroFacts.numericas_validas_derivado. exact (V r0 I).
Qed.

(** The frame of the sample row. *)
Lemma X10_pos_processar_idempotente_witness :
  exists df',
    pos_processar (map tipos_numericos [registro_de Exemplos.linha_argo])
    = Ret df'
    /\ pos_processar df' = Ret df'.
Proof.
  assert (E : exists df',
             pos_processar
               (map tipos_numericos [registro_de Exemplos.linha_argo])
             = Ret df')
    by (eexists; vm_compute; reflexivity).
  destruct E as [df' E]. exists df'. split; [exact E|].
  assert (P : Forall (fun r => colunas_presentes r = true)
                     (map tipos_numericos [registro_de Exemplos.linha_argo]))
    by (constructor; [vm_compute; reflexivity | constructor]).
  exact (X10_pos_processar_idempotente _ _ P E).
Defined.

(** X11.  Whenever [pos_processar] returns, the zero emission flag of a
    row is set exactly when its raw propulsion label, in lower case, is
    "elétrico" or "eletrico", and the electrified flag exactly when it is
    one of those, "híbrido", "hibrido" or "plug-in"; a null label sets
    neither.  A row flagged zero emission is always flagged
    electrified. *)
Theorem X11_flags_de_propulsao :
  forall df df' : list registro,
    Forall (fun r => colunas_presentes r = true) df ->
    pos_processar df = Ret df' ->
    Forall2
      (fun r r' =>
         exists (bruto : valor) (zero eletrificado : bool),
           dict_get (coluna 5) r = Some bruto
           /\ dict_get COL_ZERO_EMISSAO r' = Some (VBool zero)
           /\ dict_get COL_ELETRIFICADO r' = Some (VBool eletrificado)
           /\ (zero = true <->
               exists s, bruto = VStr s
                         /\ (lower s = U "elétrico" \/ lower s = U "eletrico"))
           /\ (eletrificado = true <->
               exists s, bruto = VStr s
                         /\ (lower s = U "elétrico" \/ lower s = U "eletrico"
                             \/ lower s = U "híbrido" \/ lower s = U "hibrido"
                             \/ lower s = U "plug-in"))
           /\ (zero = true -> eletrificado = true))
      df df'.
Proof.
  intros df df' P0 E0.
  destruct (PipelineFacts.pos_processar_Ret df df' P0 E0)
    as [_ [t [_ [_ ->]]]].
  apply PipelineFacts.Forall2_map. intros r I0.
  rewrite Forall_forall in P0. pose proof (P0 r I0) as P.
  set (bruto := valor_de r (coluna 5)).
  set (prop := propulsao_padronizada bruto).
  exists bruto, (igual_a ELETRICO prop),
    (existsb (fun t => igual_a t prop) [ELETRICO; HIBRIDO; PLUG_IN]).
  split; [apply RegistroFacts.presentes_get; [exact P | lia]|].
  split; [unfold derivado_em; cbv zeta; rewrite !ParsearFacts.dict_get_set;
          eval_keys; reflexivity|].
  split; [unfold derivado_em; cbv zeta; rewrite !ParsearFacts.dict_get_set;
          eval_keys; reflexivity|].
  assert (K : forall k : str,
             {k = U "combustão"} + {k = U "híbrido"} + {k = U "plug-in"}
             + {k = U "elétrico"} + {k = U "hibrido"} + {k = U "eletrico"}
             + {mapa_get k mapa = None}).
  { intros k. unfold mapa. cbn [mapa_get].
    repeat match goal with
    | |- context [str_eqb k ?t] =>
        destruct (ParsearFacts.str_eqb_spec k t); [auto 10|]
    end.
    right. reflexivity. }
  assert (M : forall s,
             propulsao_padronizada (VStr s)
             = match mapa_get (lower s) mapa with
               | Some t => VStr t
               | None => VStr s
               end) by reflexivity.
  cbn [existsb]. rewrite orb_false_r.
  unfold prop. destruct bruto as [|s| | |].
  2: { rewrite M.
       destruct (K (lower s)) as [[[[[[E|E]|E]|E]|E]|E]|E]; rewrite E.
       1-6: repeat split; try discriminate; try reflexivity;
         try (intros _; exists s; split; [reflexivity | auto 10]);
         intros [s' [[= <-] H]]; rewrite E in H;
         repeat (destruct H as [H|H]; try discriminate H).
       assert (N : forall t : str,
                  igual_a t (VStr s) = true -> lower s = lower t).
       { intros t' H. apply PyFacts.str_eqb_eq in H. subst t'.
         reflexivity. }
       assert (F : forall t : str,
                  mapa_get (lower t) mapa <> None ->
                  igual_a t (VStr s) = false).
       { intros t' H. destruct (igual_a t' (VStr s)) eqn:G; [|reflexivity].
         apply N in G. rewrite <- G in H. contradiction. }
       rewrite (F ELETRICO), (F HIBRIDO), (F PLUG_IN) by discriminate.
       repeat split; try discriminate.
       all: intros [s' [[= <-] H]];
         repeat (destruct H as [H|H]; try (rewrite H in E; discriminate E)). }
  all: repeat split; try discriminate; intros [s' [[=] _]].
Qed.

(** The frame of the sample row, a combustion car. *)
Lemma X11_flags_de_propulsao_witness :
  exists r',
    pos_processar (map tipos_numericos [registro_de Exemplos.linha_argo])
    = Ret [r']
    /\ dict_get COL_ZERO_EMISSAO r' = Some (VBool false).
Proof.
  assert (E : exists r',
             pos_processar
               (map tipos_numericos [registro_de Exemplos.linha_argo])
             = Ret [r'])
    by (eexists; vm_compute; reflexivity).
  destruct E as [r' E]. exists r'. split; [exact E|].
  assert (P : Forall (fun r => colunas_presentes r = true)
                     (map tipos_numericos [registro_de Exemplos.linha_argo]))
    by (constructor; [vm_compute; reflexivity | constructor]).
  destruct (PipelineFacts.Forall2_cabeca _ _ _ _ _
              (X11_flags_de_propulsao _ _ P E))
    as [b [z [e [H2 [H3 [_ [H5 _]]]]]]].
  rewrite H3. vm_compute in H2. injection H2 as <-.
  destruct z; [|reflexivity].
  destruct (proj1 H5 eq_refl) as [s [[= <-] [H|H]]]; vm_compute in H;
    discriminate H.
Defined.

(** X12.  The transmission type of a row with a transmission code is the
    code without its hyphens and decimal digits, trimmed: it has no
    hyphen, no digit and no white space at its ends.  The number of gears
    is null exactly when the code has no digit.  A null code gives null
    for both. *)
Theorem X12_transmissao :
  (forall s : str,
      exists t,
        transmissao_tipo (VStr s) = VStr t
        /\ forallb (fun c => negb ((c =? HYPHEN)%N || re_digit c)) t = true
        /\ aparado t = true)
  /\ (forall s : str,
         transmissao_velocidades (VStr s) = Ret None <->
         forallb (fun c => negb (re_digit c)) s = true)
  /\ transmissao_tipo VNone = VNone
  /\ transmissao_velocidades VNone = Ret None.
Proof.
  split; [|split; [|split; reflexivity]].
  - intros s. eexists. split; [reflexivity|]. split.
    + apply TransmissaoFacts.forallb_strip.
      apply TransmissaoFacts.forallb_filter.
    + apply StripFacts.aparado_strip.
  - intros s. unfold transmissao_velocidades.
    rewrite <- TransmissaoFacts.re_search_digitos_None.
    destruct (re_search_digitos s) as [ds|]; [|split; congruence].
    split; [|discriminate].
    destruct (int_de_digitos ds); discriminate.
Qed.

(** X13.  A transmission code made of a type, a hyphen and ASCII digits,
    as "M-5" or "CVT-7", is split into the type and the number that the
    digits write; the type is any text without hyphen, digit or white
    space, and a run of more than 4300 digits makes the conversion raise
    [ValueError].  In the frame, when no number is beyond 64 bits, the
    column holds these integers if every row has one, and the nearest
    floats, with NaN for the rows that have none, otherwise. *)
Theorem X13_transmissao_codigo :
  (forall tipo digitos : str,
      forallb (fun c => negb ((c =? HYPHEN)%N || re_digit c)
                        && negb (isspace c)) tipo = true ->
      forallb PyFloat.c_isdigit digitos = true ->
      digitos <> [] ->
      transmissao_tipo (VStr (tipo ++ [HYPHEN] ++ digitos)) = VStr tipo
      /\ transmissao_velocidades (VStr (tipo ++ [HYPHEN] ++ digitos))
         = if (List.length digitos <=? 4300)%nat
           then Ret (Some (PyFloat.digits_value digitos))
           else Raise ValueError)
  /\ (forall ns : list N,
         ns <> [] ->
         Forall (fun n => (n <= UINT64_MAX)%N) ns ->
         maybe_convert_objects (map Some ns)
         = Ret (map (fun n => VInt (Z.of_N n)) ns))
  /\ (forall xs : list (option N),
         In None xs ->
         (exists n, In (Some n) xs) ->
         (forall n, In (Some n) xs -> (n <= UINT64_MAX)%N) ->
         maybe_convert_objects xs
         = Ret (map (fun x => match x with
                              | Some n => VNum (F64.of_Z (Z.of_N n))
                              | None => VNum F64.nan
                              end) xs)).
Proof.
  split; [|split].
  - intros tipo digitos T D N.
    assert (T1 : forallb (fun c => negb ((c =? HYPHEN)%N || re_digit c)) tipo
                 = true).
    { rewrite forallb_forall in *. intros c I. specialize (T c I).
      apply andb_true_iff in T. tauto. }
    assert (T2 : forallb (fun c => negb (isspace c)) tipo = true).
    { rewrite forallb_forall in *. intros c I. specialize (T c I).
      apply andb_true_iff in T. tauto. }
    assert (T3 : forallb (fun c => negb (re_digit c)) tipo = true).
    { rewrite forallb_forall in *. intros c I. specialize (T1 c I).
      apply negb_true_iff, orb_false_iff in T1.
      apply negb_true_iff. tauto. }
    assert (D1 : forallb (fun c => negb (negb ((c =? HYPHEN)%N || re_digit c)))
                         digitos = true).
    { rewrite forallb_forall in *. intros c I.
      rewrite (TransmissaoFacts.re_digit_ascii c (D c I)), orb_true_r.
      reflexivity. }
    split.
    + unfold transmissao_tipo. f_equal.
      rewrite !filter_app. cbn [filter]. rewrite N.eqb_refl. cbn [orb negb].
      rewrite (TransmissaoFacts.filter_todos _ tipo T1).
      rewrite (TransmissaoFacts.filter_nenhum _ digitos D1), app_nil_r.
      apply StripFacts.strip_aparado.
      unfold aparado. apply andb_true_iff. split.
      * destruct tipo as [|c t]; [reflexivity|]. cbn [forallb] in T2.
        apply andb_true_iff in T2. tauto.
      * rewrite <- StripFacts.forallb_rev in T2.
        destruct (rev tipo) as [|c t]; [reflexivity|]. cbn [forallb] in T2.
        apply andb_true_iff in T2. tauto.
    + unfold transmissao_velocidades.
      rewrite (TransmissaoFacts.re_search_digitos_app tipo _ T3).
      destruct digitos as [|c d]; [congruence|].
      cbn [app re_search_digitos].
      change (re_digit HYPHEN) with false. cbv iota.
      assert (C : PyFloat.c_isdigit c = true)
        by (cbn [forallb] in D; apply andb_true_iff in D; tauto).
      rewrite (TransmissaoFacts.re_digit_ascii c C).
      rewrite (TransmissaoFacts.digitos_iniciais_ascii (c :: d) D).
      unfold int_de_digitos, MAX_STR_DIGITS. rewrite length_map.
      unfold char.
      match goal with
      | |- context [Nat.leb ?a ?b] => destruct (Nat.leb a b)
      end; [|reflexivity].
      cbn [bind]. rewrite TransmissaoFacts.fold_left_map. reflexivity.
  - intros ns NE F. unfold maybe_convert_objects.
    rewrite TransmissaoFacts.inferir_inteiros.
    + assert (A : existsb (fun x : option N => match x with
                                               | Some _ => false
                                               | None => true
                                               end) (map Some ns) = false).
      { clear. induction ns as [|n ns IH]; [reflexivity | exact IH]. }
      assert (B : existsb (fun x : option N => match x with
                                               | Some _ => true
                                               | None => false
                                               end) (map Some ns) = true).
      { destruct ns as [|n ns]; [congruence | reflexivity]. }
      rewrite A, B. cbn [orb bind]. rewrite map_map. reflexivity.
    + intros n I. apply in_map_iff in I. destruct I as [m [[= <-] I]].
      rewrite Forall_forall in F. exact (F m I).
  - intros xs I0 [n I1] F. unfold maybe_convert_objects.
    rewrite TransmissaoFacts.inferir_inteiros by exact F.
    assert (A : existsb (fun x : option N => match x with
                                             | Some _ => false
                                             | None => true
                                             end) xs = true)
      by (apply existsb_exists; exists None; split; [exact I0 | reflexivity]).
    assert (B : existsb (fun x : option N => match x with
                                             | Some _ => true
                                             | None => false
                                             end) xs = true)
      by (apply existsb_exists; exists (Some n); split;
          [exact I1 | reflexivity]).
    rewrite A, B. cbn [orb bind]. reflexivity.
Qed.

(** "CVT-7": the type "CVT", seven gears.  After a row without a number
    of gears, 9007199254740993 is held as the float 9007199254740992. *)
Lemma X13_transmissao_codigo_witness :
  (transmissao_tipo (VStr (U "CVT-7")) = VStr (U "CVT")
   /\ transmissao_velocidades (VStr (U "CVT-7")) = Ret (Some 7%N))
  /\ maybe_convert_objects [None; Some 9007199254740993%N]
     = Ret [VNum F64.nan; VNum (F64.of_Z 9007199254740992)].
Proof.
  split.
  - exact (proj1 X13_transmissao_codigo (U "CVT") (U "7") eq_refl eq_refl
             ltac:(discriminate)).
  - refine (eq_trans
              (proj2 (proj2 X13_transmissao_codigo)
                     [None; Some 9007199254740993%N]
                     (or_introl eq_refl)
                     (ex_intro _ 9007199254740993%N
                               (or_intror (or_introl eq_refl)))
                     _)
              eq_refl).
    intros n [H|[H|[]]]; [discriminate H|].
    injection H as <-. vm_compute. discriminate.
Defined.

(** X14.  Whenever [pos_processar] returns on the frame of [main], the
    CO2 category of a row is the one of the bins [0,50], (50,100],
    (100,150], (150,200], (200,250] and (250,999] for the fossil CO2
    value of its record: no category for a null value, a negative value
    or a value above 999, and the first category for zero. *)
Theorem X14_faixa_co2 :
  (forall df0 df' : list registro,
      Forall (fun r => colunas_presentes r = true) df0 ->
      pos_processar (map tipos_numericos df0) = Ret df' ->
      Forall2
        (fun r0 r' =>
           exists v,
             dict_get (coluna 15) r0 = Some v
             /\ dict_get COL_FAIXA_CO2 r'
                = Some (de_celula
                          (Spec.faixa_ate (Some (F64.of_Z 999)) (numero v))))
        df0 df')
  /\ (forall x : F64.float,
         cut bins labels x = Spec.faixa_ate (Some (F64.of_Z 999)) x)
  /\ (forall x : F64.float,
         F64.is_nan x = true \/ F64.ltb x (F64.of_Z 0) = true
         \/ F64.ltb (F64.of_Z 999) x = true ->
         cut bins labels x = None)
  /\ (forall s : bool, cut bins labels (S754_zero s) = Some (U "0-50")).
Proof.
  split; [|split; [exact DerivadosFacts.cut_faixa_ate|split]].
  - intros df0 df' P E.
    destruct (PipelineFacts.quadro_Ret df0 df' P E) as [_ [t [_ ->]]].
    rewrite map_map. apply PipelineFacts.Forall2_map. intros r0 I.
    rewrite Forall_forall in P. specialize (P r0 I).
    exists (valor_de r0 (coluna 15)).
    split; [apply RegistroFacts.presentes_get; [exact P | lia]|].
    unfold derivado_em; cbv zeta. rewrite !ParsearFacts.dict_get_set.
    eval_keys. cbv iota.
    rewrite DerivadosFacts.cut_faixa_ate.
    rewrite (PipelineFacts.flutuante_tipos_numericos r0 15 P)
      by (reflexivity || lia).
    reflexivity.
  - intros x H. rewrite DerivadosFacts.cut_faixa_ate.
    unfold Spec.faixa_ate.
    destruct (F64.is_nan x) eqn:E1; [reflexivity|].
    destruct (F64.ltb x (F64.of_Z 0)) eqn:E2; [reflexivity|].
    destruct H as [H|[H|H]]; try discriminate H.
    assert (A : forall z, In z [50; 100; 150; 200; 250]%Z ->
                          F64.leb x (F64.of_Z z) = false).
    { intros z I. apply OrdemFacts.ltb_leb.
      apply OrdemFacts.acima_de_999; assumption. }
    rewrite (A 50%Z), (A 100%Z), (A 150%Z), (A 200%Z), (A 250%Z)
      by (simpl; auto 10).
    rewrite (OrdemFacts.ltb_leb _ _ H). reflexivity.
  - intros [|]; reflexivity.
Qed.

(** The frame of the sample row, which emits 98 g/km: category
    "51-100". *)
Lemma X14_faixa_co2_witness :
  exists r',
    pos_processar (map tipos_numericos [registro_de Exemplos.linha_argo])
    = Ret [r']
    /\ dict_get COL_FAIXA_CO2 r' = Some (VStr (U "51-100")).
Proof.
  assert (E : exists r',
             pos_processar
               (map tipos_numericos [registro_de Exemplos.linha_argo])
             = Ret [r'])
    by (eexists; vm_compute; reflexivity).
  destruct E as [r' E]. exists r'. split; [exact E|].
  assert (P : Forall (fun r => colunas_presentes r = true)
                     [registro_de Exemplos.linha_argo])
    by (constructor; [vm_compute; reflexivity | constructor]).
  destruct (PipelineFacts.Forall2_cabeca _ _ _ _ _
              (proj1 X14_faixa_co2 _ _ P E)) as [v [H2 H3]].
  rewrite H3. vm_compute in H2. injection H2 as <-. reflexivity.
Defined.

(** X15.  Step 4 of [main] turns each numeric column of a record into a
    float column, null becoming NaN, and leaves the other columns as
    they are; doing it twice is doing it once. *)
Theorem X15_tipos_numericos :
  (forall (r : registro) (idx : nat) (nome : str),
      In (idx, nome) COLUNAS_PDF ->
      dict_get nome (tipos_numericos r)
      = if existsb (Nat.eqb idx) COLUNAS_NUMERICAS
        then match dict_get nome r with
             | Some v => Some (VNum (numero v))
             | None => None
             end
        else dict_get nome r)
  /\ numero VNone = F64.nan
  /\ (forall r : registro,
         tipos_numericos (tipos_numericos r) = tipos_numericos r).
Proof.
  split; [|split; [reflexivity | exact QuadroFacts.tipos_numericos_idem]].
  intros r idx nome I.
  rewrite RegistroFacts.dict_get_tipos_numericos.
  rewrite (QuadroFacts.numerica_por_nome idx nome I).
  destruct (existsb _ _); [|reflexivity].
  destruct (dict_get nome r) as [v|]; [|reflexivity].
  cbn [option_map]. rewrite RegistroFacts.to_numeric_numero. reflexivity.
Qed.

(** The sample row has "ND" for its electric consumption. *)
Lemma X15_tipos_numericos_witness :
  dict_get (coluna 21) (tipos_numericos (registro_de Exemplos.linha_argo))
  = Some (VNum F64.nan).
Proof.
  exact (eq_trans
           (proj1 X15_tipos_numericos (registro_de Exemplos.linha_argo)
                  21 (coluna 21)
                  ltac:(do 21 right; left; reflexivity))
           eq_refl).
Defined.


(** X16.  [drop_duplicates] keeps rows of the frame in their order: what
    it returns is the frame with some rows left out, and a row that comes
    after the others is kept exactly when it equals none of the rows kept
    before it.  So no row that is kept equals one kept before it and every
    row of the frame equals a row that is kept; a frame without duplicates
    is returned as it is. *)
Theorem X16_drop_duplicates :
  forall df : list registro,
    sem_duplicatas (drop_duplicates df) = true
    /\ (forall r, In r (drop_duplicates df) -> In r df)
    /\ (forall r, In r df ->
                  exists r', In r' (drop_duplicates df)
                             /\ registro_igual r r' = true)
    /\ (sem_duplicatas df = true -> drop_duplicates df = df)
    /\ drop_duplicates (drop_duplicates df) = drop_duplicates df
    /\ subsequencia (drop_duplicates df) df
    /\ (forall r : registro,
           drop_duplicates (df ++ [r])
           = drop_duplicates df
             ++ (if existsb (registro_igual r) (drop_duplicates df)
                 then [] else [r])).
Proof.
  intros df.
  assert (S : sem_duplicatas (drop_duplicates df) = true)
    by apply MontagemFacts.dd_sem_duplicatas.
  assert (E : forall d, sem_duplicatas d = true -> drop_duplicates d = d).
  { intros d H. apply MontagemFacts.dd_sem_efeito; [exact H|].
    intros v x []. }
  split; [exact S|]. split; [apply MontagemFacts.dd_In|]. split.
  - intros r I. destruct (MontagemFacts.dd_cobre [] df r I) as [y [[[]|J] G]].
    exists y. split; assumption.
  - split; [apply E|]. split; [apply E; exact S|]. split.
    + apply MontagemFacts.dd_subsequencia.
    + intros r. unfold drop_duplicates. rewrite MontagemFacts.dd_snoc.
      rewrite app_nil_r, MontagemFacts.existsb_rev. reflexivity.
Qed.

(** The sample row twice and a row without a brand cell. *)
Lemma X16_drop_duplicates_witness :
  drop_duplicates [registro_de Exemplos.linha_argo;
                   registro_de Exemplos.linha_sem_marca;
                   registro_de Exemplos.linha_argo]
  = [registro_de Exemplos.linha_argo; registro_de Exemplos.linha_sem_marca].
Proof.
  assert (D : drop_duplicates [registro_de Exemplos.linha_argo;
                               registro_de Exemplos.linha_sem_marca;
                               registro_de Exemplos.linha_argo]
              = [registro_de Exemplos.linha_argo;
                 registro_de Exemplos.linha_sem_marca])
    by (vm_compute; reflexivity).
  rewrite <- (proj1 (proj2 (proj2 (proj2 (proj2 (X16_drop_duplicates _)))))).
  rewrite D.
  apply (proj1 (proj2 (proj2 (proj2 (X16_drop_duplicates _))))).
  vm_compute. reflexivity.
Defined.

(** X17.  [sort_values] reorders the rows of the frame so that the keys
    (category, brand, model, version) of adjacent rows never descend,
    texts compared by code points and null after every text; a frame that
    is in order is returned as it is. *)
Theorem X17_sort_values :
  forall df : list registro,
    Permutation (sort_values df) df
    /\ ordenado (sort_values df) = true
    /\ (ordenado df = true -> sort_values df = df)
    /\ sort_values (sort_values df) = sort_values df.
Proof.
  intros df.
  split; [apply MontagemFacts.Permutation_sort_values|].
  split; [apply MontagemFacts.ordenado_sort_values|].
  split; [apply MontagemFacts.sort_values_ordenado|].
  apply MontagemFacts.sort_values_ordenado,
    MontagemFacts.ordenado_sort_values.
Qed.

(** Two rows already in order. *)
Lemma X17_sort_values_witness :
  sort_values [registro_de Exemplos.linha_argo;
               registro_de Exemplos.linha_sem_marca]
  = [registro_de Exemplos.linha_argo; registro_de Exemplos.linha_sem_marca].
Proof.
  apply (proj1 (proj2 (proj2 (X17_sort_values _)))).
  vm_compute. reflexivity.
Defined.

(** X18.  Steps 1 to 7 of [main], from the extraction to the sorted
    frame.  They fail with [KeyError] when [parsear] keeps no record, as
    for a document without tables, and with [ValueError] when a record has
    a transmission code with a run of more than 4300 digits; they return
    when there is a record and no run has more than 308 digits.  The
    frame that they return is not empty, is in key order, and is a
    reordering of the rows that [drop_duplicates] keeps of the frame of
    [pos_processar]. *)
Theorem X18_main :
  forall pdf : list pagina,
    exists regs,
      parsear (extrair pdf) = Ret regs
      /\ (regs = [] -> main pdf = Raise KeyError)
      /\ (Exists (fun r => digitos_ate MAX_STR_DIGITS (valor_de r (coluna 6))
                           = false) regs ->
          main pdf = Raise ValueError)
      /\ (regs <> [] ->
          Forall (fun r => digitos_ate 308 (valor_de r (coluna 6)) = true)
                 regs ->
          exists tabela, main pdf = Ret tabela)
      /\ (forall tabela : list registro,
             main pdf = Ret tabela ->
             exists df,
               pos_processar (map tipos_numericos regs) = Ret df
               /\ tabela <> []
               /\ ordenado tabela = true
               /\ Permutation tabela (drop_duplicates df)).
Proof.
  intros pdf. exists (registros_de (extrair pdf)).
  split; [apply RegistroFacts.parsear_registros|].
  split; [apply PipelineFacts.main_vazio|]. split; [|split].
  - intros X. unfold main; cbv zeta.
    rewrite RegistroFacts.parsear_registros. cbn [bind].
    assert (N : map tipos_numericos (registros_de (extrair pdf)) <> []).
    { destruct (registros_de (extrair pdf)); [inversion X | discriminate]. }
    rewrite (PipelineFacts.pos_processar_passos _ N
               (PipelineFacts.presentes_tipos_numericos _
                  (PipelineFacts.presentes_registros_de _))).
    rewrite PipelineFacts.tipo_velocidades_tipos_numericos.
    rewrite (TransmissaoFacts.tipo_velocidades_longa _ X). reflexivity.
  - intros N F.
    destruct (TransmissaoFacts.tipo_velocidades_retorna _ F) as [t T].
    eexists. apply (PipelineFacts.main_retorna pdf t N T).
  - intros tabela M.
    destruct (PipelineFacts.main_Ret pdf tabela M) as [N [t [_ [P ->]]]].
    eexists. split; [exact P|]. split; [|split].
    + intros Z.
      pose proof (MontagemFacts.Permutation_sort_values
                    (drop_duplicates
                       (map (derivado_em t)
                          (map tipos_numericos
                             (registros_de (extrair pdf)))))) as Q.
      rewrite Z in Q. apply Permutation_nil in Q.
      destruct (registros_de (extrair pdf)) as [|reg regs]; [congruence|].
      cbn [map] in Q. unfold drop_duplicates in Q.
      cbn [drop_duplicates_desde existsb] in Q. discriminate Q.
    + apply MontagemFacts.ordenado_sort_values.
    + apply MontagemFacts.Permutation_sort_values.
Qed.

(** A document without pages, and the document of the sample row. *)
Lemma X18_main_witness :
  main [] = Raise KeyError
  /\ exists tabela, main [[[Exemplos.linha_argo]]] = Ret tabela.
Proof.
  split.
  - destruct (X18_main []) as [regs [P [K _]]].
    apply K. injection P as <-. reflexivity.
  - destruct (X18_main [[[Exemplos.linha_argo]]])
      as [regs [P [_ [_ [S _]]]]].
    assert (E : regs = registros_de (extrair [[[Exemplos.linha_argo]]])).
    { rewrite RegistroFacts.parsear_registros in P. injection P as <-.
      reflexivity. }
    apply S.
    + rewrite E. discriminate.
    + rewrite E. constructor; [vm_compute; reflexivity | constructor].
Defined.

(** X19.  [detectar_ano] returns either "PBEV" or four characters, "20"
    and two decimal digits, that occur in the file name; the directories
    of the path are not searched. *)
Theorem X19_detectar_ano :
  (forall p : str,
      detectar_ano p = U "PBEV"
      \/ exists c d,
          detectar_ano p = [50; 48; c; d]%N
          /\ re_digit c = true /\ re_digit d = true
          /\ contains (detectar_ano p) (basename p) = true)
  /\ (forall dir nome : str,
         existsb (N.eqb SLASH) nome = false ->
         detectar_ano (dir ++ [SLASH] ++ nome) = detectar_ano nome)
  /\ (forall p : str,
         existsb (N.eqb 50%N) (basename p) = false ->
         detectar_ano p = U "PBEV").
Proof.
  split; [|split].
  - exact SaidaFacts.detectar_ano_forma.
  - intros dir nome H. unfold detectar_ano; cbv zeta.
    rewrite (SaidaFacts.basename_app dir nome H),
      (SaidaFacts.basename_sem_barra nome H).
    reflexivity.
  - intros p H. unfold detectar_ano; cbv zeta.
    induction (basename p) as [|x s IH]; [reflexivity|].
    cbn [existsb] in H. apply orb_false_iff in H. destruct H as [X H].
    rewrite SaidaFacts.re_search_ano_skip by (rewrite N.eqb_sym; exact X).
    apply IH. exact H.
Qed.

(** The default path of the script, and a path whose directory has a
    year. *)
Lemma X19_detectar_ano_witness :
  detectar_ano (U "../data/raw/pbe-veicular-2024-1.pdf") = U "2024"
  /\ detectar_ano (U "/dados/2023/pbe.pdf") = U "PBEV".
Proof.
  split.
  - exact (eq_trans
             (proj1 (proj2 X19_detectar_ano) (U "../data/raw")
                    (U "pbe-veicular-2024-1.pdf") eq_refl)
             eq_refl).
  - exact (eq_trans
             (proj1 (proj2 X19_detectar_ano) (U "/dados/2023")
                    (U "pbe.pdf") eq_refl)
             eq_refl).
Defined.

(** X20.  The files that [exportar] writes carry the year token in their
    names so that [detectar_ano] reads it back: for every input path and
    every output directory, the year detected in the name of the
    spreadsheet and of the CSV file is the year detected in the input
    path. *)
Theorem X20_ano_no_nome_de_saida :
  forall p pasta : str,
    detectar_ano (excel_path (detectar_ano p) pasta) = detectar_ano p
    /\ detectar_ano (csv_path (detectar_ano p) pasta) = detectar_ano p.
Proof.
  intros p pasta.
  assert (G : forall sufixo : str,
             existsb (N.eqb SLASH) sufixo = false ->
             existsb (N.eqb 50%N) sufixo = false ->
             detectar_ano
               (path_join pasta (U "pbev_" ++ detectar_ano p ++ sufixo))
             = detectar_ano p).
  { intros sufixo S1 S2.
    assert (B : forall m : str,
               existsb (N.eqb SLASH) m = false ->
               basename (path_join pasta (U "pbev_" ++ m ++ sufixo))
               = U "pbev_" ++ m ++ sufixo).
    { intros m M. apply SaidaFacts.basename_path_join.
      apply SaidaFacts.existsb_app_false; [reflexivity|].
      apply SaidaFacts.existsb_app_false; [exact M | exact S1]. }
    destruct (SaidaFacts.detectar_ano_forma p) as [E|[c [d [E [C [D _]]]]]].
    - rewrite E. unfold detectar_ano at 1; cbv zeta.
      rewrite (B (U "PBEV") eq_refl).
      rewrite (SaidaFacts.re_search_ano_prefixo (U "pbev_") _ eq_refl).
      rewrite (SaidaFacts.re_search_ano_prefixo (U "PBEV") _ eq_refl).
      rewrite (SaidaFacts.re_search_ano_nenhum sufixo S2). reflexivity.
    - rewrite E. unfold detectar_ano at 1; cbv zeta.
      assert (M : existsb (N.eqb SLASH) [50; 48; c; d]%N = false).
      { cbn [existsb].
        destruct (N.eqb_spec SLASH c) as [<-|_]; [discriminate C|].
        destruct (N.eqb_spec SLASH d) as [<-|_]; [discriminate D|].
        reflexivity. }
      rewrite (B _ M).
      rewrite (SaidaFacts.re_search_ano_prefixo (U "pbev_") _ eq_refl).
      match goal with
      | |- match ?x with _ => _ end = _ =>
          replace x with (Some [50; 48; c; d]%N)
            by (symmetry;
                exact (SaidaFacts.re_search_ano_inicio c d sufixo C D))
      end.
      reflexivity. }
  split; apply G; reflexivity.
Qed.
